(** * DESPASITO: the SAFT-gamma-Mie first-order term and the TLVE data class

    A shallow embedding of

    - [despasito/equations_of_state/saft/gamma_mie_funcs_opt.py]
      ([calc_a1s_2d], [calc_a1s_1d]) and
    - [despasito/fit_parameters/data_classes/TLVE.py]
      ([Data.__init__], [Data._thermo_wrapper], [Data.objective]),

    of the JIT switch at the head of [gamma_mie_funcs_opt.py] and of the
    console level of [despasito/__main__.py], followed by the properties of
    these functions.

    Python calls either return a value or raise: every embedded function
    returns an [outcome].  The scalar arithmetic of the NumPy kernels is a
    type class with two instances: [R] (the mathematical reading of the
    formulas) and IEEE binary64 (where a division by zero yields an infinity
    or a NaN instead of an exception, as NumPy array arithmetic does). *)

From Stdlib Require Import ZArith List String Reals Floats Lia Lra.
From stdpp Require Import base option list gmap strings.

Local Open Scope string_scope.
Local Open Scope list_scope.
#[local] Set Warnings "-register-all".

(* ================================================================== *)
(** * Python calls: exceptions and outcomes                            *)
(* ================================================================== *)

Module Py.

(** The exception classes the embedded code raises itself ([ValueError],
    [ImportError]) or receives from the interpreter ([KeyError] for a
    missing dict key, [IndexError], [TypeError] for [len] of an unsized
    value, [UnboundLocalError]); [OtherError] stands for any exception class
    of a callee that is not part of the source. *)
Inductive exn : Type :=
| ValueError (msg : string)
| ImportError (msg : string)
| KeyError (key : string)
| IndexError
| TypeError
| UnboundLocalError (var : string)
| OtherError (cls : string).

Inductive outcome (A : Type) : Type :=
| Returns (a : A)
| Raises (e : exn).
Arguments Returns {A} a.
Arguments Raises {A} e.

#[export] Instance outcome_ret : MRet outcome := fun A a => Returns a.
#[export] Instance outcome_bind : MBind outcome := fun A B f m =>
  match m with Returns a => f a | Raises e => Raises e end.
#[export] Instance outcome_fmap : FMap outcome := fun A B f m =>
  match m with Returns a => Returns (f a) | Raises e => Raises e end.

(** [try: body except: handler] with a bare [except]. *)
Definition try_except {A} (body : outcome A) (handler : outcome A) : outcome A :=
  match body with Returns a => Returns a | Raises _ => handler end.

(** [for x in xs: acc = step acc x], stopping at the first exception. *)
Fixpoint for_each {A S} (xs : list A) (step : S -> A -> outcome S) (s : S) : outcome S :=
  match xs with
  | [] => Returns s
  | x :: xs' => s' ← step s x; for_each xs' step s'
  end.

(** [[f x for x in xs]] where [f] may raise. *)
Fixpoint map_outcome {A B} (f : A -> outcome B) (xs : list A) : outcome (list B) :=
  match xs with
  | [] => Returns []
  | x :: xs' => y ← f x; ys ← map_outcome f xs'; Returns (y :: ys)
  end.

End Py.
Export Py.

(* ================================================================== *)
(** * Scalar arithmetic                                                *)
(* ================================================================== *)

(** The float operations used by [gamma_mie_funcs_opt.py]: the literals
    [0.0] (from [np.zeros]), [1.0], [2.0], [3.0], [np.pi], a decimal
    literal [m * 10^-e], and [+], [-], [*], [/], unary minus. *)
Class Arith (F : Type) : Type := {
  f0 : F; f1 : F; f2 : F; f3 : F; fpi : F;
  fdecimal : Z -> nat -> F;
  fadd : F -> F -> F;
  fsub : F -> F -> F;
  fmul : F -> F -> F;
  fdiv : F -> F -> F;
  fneg : F -> F
}.

Declare Scope arith_scope.
Delimit Scope arith_scope with A.
Infix "+" := fadd : arith_scope.
Infix "-" := fsub : arith_scope.
Infix "*" := fmul : arith_scope.
Infix "/" := fdiv : arith_scope.
Notation "- x" := (fneg x) : arith_scope.

(** [x**2] and [x**3]: an integer power, by repeated multiplication. *)
Definition fsquare {F} `{Arith F} (x : F) : F := (x * x)%A.
Definition fcube {F} `{Arith F} (x : F) : F := (x * x * x)%A.

(** Exact real arithmetic. *)
#[export] Instance Arith_R : Arith R := {|
  f0 := 0%R; f1 := 1%R; f2 := 2%R; f3 := 3%R; fpi := PI;
  fdecimal := fun m e => (IZR m / 10 ^ e)%R;
  fadd := Rplus; fsub := Rminus; fmul := Rmult; fdiv := Rdiv; fneg := Ropp
|}.

(** IEEE 754 binary64, the [float64] of NumPy.  [np.pi] is the double
    nearest to pi.  A decimal literal is the correctly rounded quotient of
    two exactly represented integers. *)
Definition float_of_Z (z : Z) : float :=
  match z with
  | Z0 => 0%float
  | Zpos _ => PrimFloat.of_uint63 (Uint63.of_Z z)
  | Zneg p => PrimFloat.opp (PrimFloat.of_uint63 (Uint63.of_Z (Zpos p)))
  end.

#[export] Instance Arith_binary64 : Arith float := {|
  f0 := 0%float; f1 := 1%float; f2 := 2%float; f3 := 3%float;
  fpi := 0x1.921fb54442d18p+1%float;
  fdecimal := fun m e => PrimFloat.div (float_of_Z m) (float_of_Z (10 ^ Z.of_nat e));
  fadd := PrimFloat.add; fsub := PrimFloat.sub; fmul := PrimFloat.mul;
  fdiv := PrimFloat.div; fneg := PrimFloat.opp
|}.

(** [np.isnan] and [np.isinf] on a binary64 value. *)
Definition isnan (x : float) : bool := PrimFloat.is_nan x.
Definition isinf (x : float) : bool := PrimFloat.is_infinity x.
Definition nonfinite (x : float) : bool := isnan x || isinf x.

(* ================================================================== *)
(** * NumPy arrays as nested lists                                     *)
(* ================================================================== *)

(** A 1-D array is a list, a 2-D array a list of rows, a 3-D array a list
    of matrices (leading axis first).  Reads out of range raise
    [IndexError]; element-wise operations follow NumPy's broadcasting rule
    on each axis (equal lengths pair up, an axis of length 1 is stretched,
    anything else raises [ValueError]). *)
Module NumPy.
Section arrays.
Context {F : Type} `{Arith F}.

Definition zeros1 (n : nat) : list F := replicate n f0.
Definition zeros2 (n m : nat) : list (list F) := replicate n (zeros1 m).
Definition zeros3 (n m p : nat) : list (list (list F)) := replicate n (zeros2 m p).

Definition broadcast {A B C} (f : A -> B -> outcome C)
    (xs : list A) (ys : list B) : outcome (list C) :=
  if decide (length xs = length ys) then map_outcome (fun p => f p.1 p.2) (zip xs ys)
  else match xs, ys with
       | [x], _ => map_outcome (f x) ys
       | _, [y] => map_outcome (fun x => f x y) xs
       | _, _ => Raises (ValueError "operands could not be broadcast together")
       end.

(** [a op b] for two 1-D arrays and for two 2-D arrays. *)
Definition ew1 (op : F -> F -> F) (xs ys : list F) : outcome (list F) :=
  broadcast (fun a b => Returns (op a b)) xs ys.
Definition ew2 (op : F -> F -> F) (xs ys : list (list F)) : outcome (list (list F)) :=
  broadcast (ew1 op) xs ys.

(** [a[k]] and [a[k, l]]. *)
Definition index1 (a : list F) (k : nat) : outcome F :=
  match a !! k with Some x => Returns x | None => Raises IndexError end.
Definition index2 (a : list (list F)) (k l : nat) : outcome F :=
  match a !! k with Some row => index1 row l | None => Raises IndexError end.

(** [m[:, j]] for a column [j] that exists in every row. *)
Definition column (j : nat) (m : list (list F)) : list F :=
  map (fun row => default f0 (row !! j)) m.

(** [m[:, j] = v]: [v] has one entry per row, or a single entry that is
    broadcast. *)
Definition assign_column (j : nat) (v : list F) (m : list (list F))
    : outcome (list (list F)) :=
  if decide (length v = length m) then Returns (zip_with (fun row x => <[j:=x]> row) m v)
  else match v with
       | [x] => Returns (map (fun row => <[j:=x]> row) m)
       | _ => Raises (ValueError "could not broadcast input array")
       end.

(** [e[:, k, l] = v]. *)
Definition assign_slice3 (k l : nat) (v : list F) (e : list (list (list F)))
    : outcome (list (list (list F))) :=
  if decide (length v = length e)
  then Returns (zip_with (fun mat x => alter (fun row => <[l:=x]> row) k mat) e v)
  else match v with
       | [x] => Returns (map (fun mat => alter (fun row => <[l:=x]> row) k mat) e)
       | _ => Raises (ValueError "could not broadcast input array")
       end.

(** [np.dot] of two vectors and of a matrix with a vector, the products
    summed from the left. *)
Definition dot (u v : list F) : F :=
  foldl (fun acc p => (acc + p.1 * p.2)%A) f0 (zip u v).
Definition matvec (m : list (list F)) (v : list F) : list F :=
  map (fun row => dot row v) m.

(** [(a.T * rho).T]: with the axes reversed the density axis is the last
    one, so entry [i, ...] of [a] is multiplied by [rho[i]]. *)
Definition scale_leading {A} (scale : A -> F -> A) (a : list A) (rho : list F) : list A :=
  zip_with scale a rho.

End arrays.
End NumPy.
Export NumPy.

(* ================================================================== *)
(** * gamma_mie_funcs_opt.py                                           *)
(* ================================================================== *)

(** The [jit] decorator of the two kernels is read as the identity (the
    module itself switches the compilation off through [disable_jit]): the
    embedding follows the Python and NumPy reading of the function
    bodies, in which a float division by zero yields an infinity or a NaN
    and a warning, not an exception. *)
Module GammaMie.
Section a1s.
Context {F : Type} `{Arith F}.

(** [constants.ckl_coef], the constant (4, 4) coefficient array imported by
    the module. *)
Variable ckl_coef : list (list F).

(** Lines 47-50 (and 89-92): the matrix whose row [i] holds
    [zetax[i]**1 .. zetax[i]**4]. *)
Definition zetax_powers (rho zetax : list F) : outcome (list (list F)) :=
  zetax_pow ← assign_column 0 zetax (zeros2 (length rho) 4);
  for_each [1; 2; 3]%nat
    (fun zetax_pow i =>
       col ← ew1 fmul (column (i - 1) zetax_pow) (column 0 zetax_pow);
       assign_column i col zetax_pow)
    zetax_pow.

(** [np.dot(zetax_pow, np.dot(ckl_coef, np.array((1.0, 1.0/l, 1.0/l**2, 1.0/l**3))))] *)
Definition eta_column (zetax_pow : list (list F)) (l : F) : list F :=
  matvec zetax_pow
    (matvec ckl_coef [f1; (f1 / l)%A; (f1 / fsquare l)%A; (f1 / fcube l)%A]).

Definition calc_a1s_2d (rho : list F) (Cmol2seg : F) (l_kl : list (list F))
    (zetax : list F) (epsilonkl dkl : list (list F))
    : outcome (list (list (list F))) :=
  let nbeads := length dkl in
  zetax_pow ← zetax_powers rho zetax;
  etakl ← for_each (seq 0 nbeads)
    (fun etakl k =>
       for_each (seq 0 nbeads)
         (fun etakl l =>
            lam ← index2 l_kl k l;
            assign_slice3 k l (eta_column zetax_pow lam) etakl)
         etakl)
    (zeros3 (length rho) nbeads nbeads);
  let lhs := map (map (map (fun eta =>
    ((f1 - eta / f2) / fcube (f1 - eta) * (- f2) * fpi * Cmol2seg)%A))) etakl in
  ed ← ew2 fmul epsilonkl (map (map fcube) dkl);
  rhs ← ew2 fdiv ed (map (map (fun l => (l - f3)%A)) l_kl);
  a1s ← map_outcome (fun mat => ew2 fmul mat rhs) lhs;
  Returns (scale_leading (fun mat r => map (map (fun x => (x * r)%A)) mat) a1s rho).

Definition calc_a1s_1d (rho : list F) (Cmol2seg : F) (l_kl zetax epsilonkl dkl : list F)
    : outcome (list (list F)) :=
  let nbeads := length dkl in
  zetax_pow ← zetax_powers rho zetax;
  etakl ← for_each (seq 0 nbeads)
    (fun etakl k =>
       lam ← index1 l_kl k;
       assign_column k (eta_column zetax_pow lam) etakl)
    (zeros2 (length rho) nbeads);
  let lhs := map (map (fun eta => ((f1 - eta / f2) / fcube (f1 - eta))%A)) etakl in
  ed ← ew1 fmul epsilonkl (map fcube dkl);
  q ← ew1 fdiv ed (map (fun l => (l - f3)%A) l_kl);
  let rhs := map (fun x => (- f2 * fpi * Cmol2seg * x)%A) q in
  a1s ← map_outcome (fun row => ew1 fmul row rhs) lhs;
  Returns (scale_leading (fun row r => map (fun x => (x * r)%A) row) a1s rho).

End a1s.

(** Modelled from the spec: [constants.py] is not part of the source, and
    spec 4.1 only names its table "the correlation coefficients of the
    perturbation expansion".  The entries below are the published
    coefficients of that correlation (SAFT-VR Mie, Lafitte et al. 2013);
    they are used for concrete evaluations only, every general statement is
    about an arbitrary table. *)
Definition ckl_coef_published {F} `{Arith F} : list (list F) :=
  [ [fdecimal 81096 5;    fdecimal 17888 4;    fdecimal (-37578) 3; fdecimal 92284 3];
    [fdecimal 10205 4;    fdecimal (-19341) 3; fdecimal 15126 2;    fdecimal (-46350) 2];
    [fdecimal (-19057) 4; fdecimal 22845 3;    fdecimal (-22814) 2; fdecimal 97392 2];
    [fdecimal 10885 4;    fdecimal (-61962) 4; fdecimal 10698 2;    fdecimal (-67764) 2] ].

End GammaMie.

(* ================================================================== *)
(** * TLVE.py                                                          *)
(* ================================================================== *)

Module TLVE.

(** The Python values held by [data_dict], [thermodict] and [weights]:
    [None], floats, ints, strings, lists, dicts with string keys, and
    opaque objects (the equation of state, [mpObj]). *)
Inductive pyval : Type :=
| PNone
| PFloat (x : float)
| PInt (z : Z)
| PStr (s : string)
| PList (xs : list pyval)
| PDict (d : gmap string pyval)
| PObj (id : positive).

(** The attributes of a [Data] object. *)
Record Data : Type := mkData {
  name : pyval;
  eos : pyval;
  obj_opts : gmap string pyval;
  thermodict : gmap string pyval;
  weights : gmap string pyval;
  npoints : pyval
}.

(** [d[key]] *)
Definition getitem (d : gmap string pyval) (key : string) : outcome pyval :=
  match d !! key with Some v => Returns v | None => Raises (KeyError key) end.

(** [len(v)] *)
Definition py_len (v : pyval) : outcome nat :=
  match v with
  | PList xs => Returns (length xs)
  | PStr s => Returns (String.length s)
  | PDict d => Returns (size d)
  | PNone | PFloat _ | PInt _ | PObj _ => Raises TypeError
  end.

(** The truth value of [v] in [if v:]. *)
Definition py_truth (v : pyval) : bool :=
  match v with
  | PNone => false
  | PFloat x => negb (PrimFloat.eqb x 0)
  | PInt z => negb (Z.eqb z 0)
  | PStr s => negb (Nat.eqb (String.length s) 0)
  | PList xs => negb (Nat.eqb (length xs) 0)
  | PDict d => negb (Nat.eqb (size d) 0)
  | PObj _ => true
  end.

(** [v == None], [v == "s"] and [type(v) == float]. *)
Definition is_None (v : pyval) : bool :=
  match v with PNone => true | _ => false end.
Definition is_str (v : pyval) (s : string) : bool :=
  match v with PStr s' => bool_decide (s' = s) | _ => false end.
Definition is_float (v : pyval) : bool :=
  match v with PFloat _ => true | _ => false end.

(** [d.update(other)] *)
Definition dict_update (d other : pyval) : outcome pyval :=
  match d, other with
  | PDict a, PDict b => Returns (PDict (b ∪ a))
  | _, _ => Raises TypeError
  end.

(** Lines 65-67, 77-79 and 86-88:
    [if key in self.weights:
       if type(self.weights[key]) != float
          and len(self.weights[key]) != len(self.thermodict[key]): raise ValueError] *)
Definition check_weights_length (key : string) (thermodict weights : gmap string pyval)
    : outcome unit :=
  match weights !! key with
  | None => Returns ()
  | Some w =>
      if is_float w then Returns ()
      else
        n ← py_len w;
        v ← getitem thermodict key;
        m ← py_len v;
        if decide (n ≠ m)
        then Raises (ValueError ("Array of weights for '" +:+ key +:+
                       "' values not equal to number of experimental values given."))
        else Returns ()
  end.

(** [self.weights[long] = self.weights.pop(short)] *)
Definition pop_into (short long : string) (weights : gmap string pyval) (w : pyval)
    : gmap string pyval :=
  <[long := w]> (delete short weights).

Abbreviation fields := (gmap string pyval * gmap string pyval)%type.

(** Lines 60-67. *)
Definition load_xi (data_dict : gmap string pyval) (st : fields) : outcome fields :=
  let '(thermodict, weights) := st in
  match data_dict !! "xi" with
  | None => Returns (thermodict, weights)
  | Some xi =>
      let thermodict := <["xilist" := xi]> thermodict in
      match weights !! "xi" with
      | None => Returns (thermodict, weights)
      | Some w =>
          let weights := pop_into "xi" "xilist" weights w in
          _ ← check_weights_length "xilist" thermodict weights;
          Returns (thermodict, weights)
      end
  end.

(** Lines 68-71. *)
Definition load_T (data_dict : gmap string pyval) (st : fields) : outcome fields :=
  let '(thermodict, weights) := st in
  match data_dict !! "T" with
  | None => Returns (thermodict, weights)
  | Some T =>
      let thermodict := <["Tlist" := T]> thermodict in
      match weights !! "T" with
      | None => Returns (thermodict, weights)
      | Some w => Returns (thermodict, pop_into "T" "Tlist" weights w)
      end
  end.

(** Lines 72-79. *)
Definition load_yi (data_dict : gmap string pyval) (st : fields) : outcome fields :=
  let '(thermodict, weights) := st in
  match data_dict !! "yi" with
  | None => Returns (thermodict, weights)
  | Some yi =>
      let thermodict := <["yilist" := yi]> thermodict in
      match weights !! "yi" with
      | None => Returns (thermodict, weights)
      | Some w =>
          let weights := pop_into "yi" "yilist" weights w in
          _ ← check_weights_length "yilist" thermodict weights;
          Returns (thermodict, weights)
      end
  end.

(** Lines 80-88. *)
Definition load_P (data_dict : gmap string pyval) (st : fields) : outcome fields :=
  let '(thermodict, weights) := st in
  match data_dict !! "P" with
  | None => Returns (thermodict, weights)
  | Some P =>
      let thermodict := <["Pguess" := P]> (<["Plist" := P]> thermodict) in
      match weights !! "P" with
      | None => Returns (thermodict, weights)
      | Some w =>
          let weights := pop_into "P" "Plist" weights w in
          _ ← check_weights_length "Plist" thermodict weights;
          Returns (thermodict, weights)
      end
  end.

(** Lines 90-94. *)
Definition required_fields (thermodict : gmap string pyval) : outcome unit :=
  if bool_decide (thermodict !! "Plist" = None) && bool_decide (thermodict !! "Tlist" = None)
  then Raises (ImportError "Given TLVE data, values for P and T should have been provided.")
  else if bool_decide (thermodict !! "xilist" = None) || bool_decide (thermodict !! "yilist" = None)
  then Raises (ImportError "Given TLVE data, mole fractions should have been provided.")
  else Returns ().

(** Lines 96-100; returns [self.npoints]. *)
Definition check_lengths (thermodict : gmap string pyval) : outcome nat :=
  Tlist ← getitem thermodict "Tlist";
  npoints ← py_len Tlist;
  _ ← for_each ["Plist"; "xilist"; "yilist"]
        (fun _ key =>
           match thermodict !! key with
           | None => Returns ()
           | Some v =>
               n ← py_len v;
               if decide (n ≠ npoints)
               then Raises (ValueError "T, P, yi, and xi are not all the same length.")
               else Returns ()
           end)
        ();
  Returns npoints.

(** Lines 102-111. *)
Definition infer_calculation_type (thermodict : gmap string pyval)
    : outcome (gmap string pyval) :=
  ct ← getitem thermodict "calculation_type";
  if is_None ct then
    xilist ← getitem thermodict "xilist";
    if py_truth xilist
    then Returns (<["calculation_type" := PStr "phase_xiT"]> thermodict)
    else
      yilist ← getitem thermodict "yilist";
      if py_truth yilist
      then Returns (<["calculation_type" := PStr "phase_yiT"]> thermodict)
      else Raises (ValueError "Unknown calculation instructions")
  else Returns thermodict.

(** Lines 113-116. *)
Definition unweighted : list string := ["calculation_type"; "density_dict"; "mpObj"].

Definition default_weights (thermodict weights : gmap string pyval) : gmap string pyval :=
  foldl (fun weights key =>
           if bool_decide (weights !! key = None) && negb (bool_decide (key ∈ unweighted))
           then <[key := PFloat 1]> weights
           else weights)
        weights (map_to_list thermodict).*1.

Section methods.

(** [ExpDataTemplate.__init__] of [despasito.fit_parameters.interface],
    called through [super()]; it is not part of the source and is taken as
    it comes: whatever object it leaves behind, or the exception it raises. *)
Variable ExpDataTemplate_init : gmap string pyval -> outcome Data.

(** [Data.__init__]. *)
Definition __init__ (data_dict : gmap string pyval) : outcome Data :=
  self ← ExpDataTemplate_init data_dict;
  (* lines 56-58 *)
  let thermodict := <["density_dict" := PDict ∅]> (thermodict self) in
  thermodict ←
    (if bool_decide (is_Some (thermodict !! "density_dict")) then
       d ← getitem thermodict "density_dict";
       d' ← dict_update d d;
       Returns (<["density_dict" := d']> thermodict)
     else Returns thermodict);
  st ← load_xi data_dict (thermodict, weights self);
  st ← load_T data_dict st;
  st ← load_yi data_dict st;
  '(thermodict, weights) ← load_P data_dict st;
  _ ← required_fields thermodict;
  npoints ← check_lengths thermodict;
  thermodict ← infer_calculation_type thermodict;
  let weights := default_weights thermodict weights in
  Returns {| name := name self; eos := eos self; obj_opts := obj_opts self;
             thermodict := thermodict; weights := weights;
             npoints := PInt (Z.of_nat npoints) |}.

(** The callees of [_thermo_wrapper] and [objective] outside the source:
    [despasito.thermodynamics.thermo], [fit_funcs.reformat_ouput],
    [fit_funcs.obj_function_form], and [np.transpose(np.array(x))] read as
    the list of the rows of the transposed array. *)
Variable thermo : pyval -> gmap string pyval -> outcome (gmap string pyval).
Variable reformat_ouput : list pyval -> outcome (pyval * pyval).
Variable np_transpose : pyval -> outcome (list pyval).
Variable obj_function_form : pyval -> pyval -> pyval -> gmap string pyval -> outcome float.

(** [Data._thermo_wrapper]. *)
Definition _thermo_wrapper (self : Data) : outcome (list pyval) :=
  ct ← getitem (thermodict self) "calculation_type";
  if is_str ct "phase_xiT" then
    try_except
      (output_dict ← thermo (eos self) (thermodict self);
       P ← getitem output_dict "P";
       yi ← getitem output_dict "yi";
       Returns [P; yi])
      (Raises (ValueError "Calculation of calc_xT_phase failed"))
  else if is_str ct "phase_yiT" then
    try_except
      (output_dict ← thermo (eos self) (thermodict self);
       P ← getitem output_dict "P";
       xi ← getitem output_dict "xi";
       Returns [P; xi])
      (Raises (ValueError "Calculation of calc_yT_phase failed"))
  else Raises (UnboundLocalError "output").

(** [phase_list[i]] on the rows of the transposed prediction array. *)
Definition row (rows : list pyval) (i : nat) : outcome pyval :=
  match rows !! i with Some r => Returns r | None => Raises IndexError end.

(** Lines 169-173 and 175-179: the composition channel accumulated over the
    components, [key] being ["yilist"] or ["xilist"]. *)
Definition composition_channel (self : Data) (phase_list : list pyval) (key : string)
    (current : float) : outcome float :=
  match thermodict self !! key with
  | None => Returns current
  | Some zilist =>
      zi ← np_transpose zilist;
      for_each (seq 0 (length zi))
        (fun acc i =>
           predicted ← row phase_list (1 + i);
           measured ← row zi i;
           w ← getitem (weights self) key;
           x ← obj_function_form predicted measured w (obj_opts self);
           Returns (PrimFloat.add acc x))
        0%float
  end.

(** Lines 159-179: the two-entry vector [obj_value]. *)
Definition objective_channels (self : Data) : outcome (list float) :=
  phase_list ← _thermo_wrapper self;
  '(phase_list, len_cluster) ← reformat_ouput phase_list;
  phase_list ← np_transpose phase_list;
  pressure ←
    (match thermodict self !! "Plist" with
     | None => Returns 0%float
     | Some Plist =>
         predicted ← row phase_list 0;
         w ← getitem (weights self) "Plist";
         obj_function_form predicted Plist w (obj_opts self)
     end);
  ct ← getitem (thermodict self) "calculation_type";
  composition ←
    (if is_str ct "phase_xiT" then composition_channel self phase_list "yilist" 0%float
     else if is_str ct "phase_yiT" then composition_channel self phase_list "xilist" 0%float
     else Returns 0%float);
  Returns [pressure; composition].

(** [np.nansum]: the sum with every NaN entry replaced by zero. *)
Definition nansum (xs : list float) : float :=
  foldl (fun acc x => PrimFloat.add acc (if isnan x then 0%float else x)) 0%float xs.

(** [np.isnan(x) or x == 0.0] *)
Definition nan_or_zero (x : float) : bool := isnan x || PrimFloat.eqb x 0.

(** Lines 183-188. *)
Definition obj_total (obj_value : list float) : float :=
  if forallb nan_or_zero obj_value then infinity else nansum obj_value.

(** [Data.objective]. *)
Definition objective (self : Data) : outcome float :=
  obj_value ← objective_channels self;
  Returns (obj_total obj_value).

End methods.

(** Modelled from the spec: [ExpDataTemplate.__init__] is not part of the
    source.  This stand-in follows the class documentation of [Data]
    (Parameters: [name], [calculation_type], [weights], [density_dict];
    Attributes: [name], [weights], [thermodict] with [calculation_type] and
    [density_dict]): it copies [name], the [weights] dict (default [{}]),
    [calculation_type] (default [None]) and a supplied [density_dict].  It
    is used for concrete evaluations only; every general statement is about
    an arbitrary parent constructor. *)
Definition ExpDataTemplate_init_documented (data_dict : gmap string pyval) : outcome Data :=
  let weights := match data_dict !! "weights" with Some (PDict w) => w | _ => ∅ end in
  let ct := default PNone (data_dict !! "calculation_type") in
  let thermodict := <["calculation_type" := ct]> ∅ in
  let thermodict := match data_dict !! "density_dict" with
                    | Some d => <["density_dict" := d]> thermodict
                    | None => thermodict
                    end in
  Returns {| name := default PNone (data_dict !! "name");
             eos := default PNone (data_dict !! "eos_obj");
             obj_opts := ∅;
             thermodict := thermodict; weights := weights; npoints := PNone |}.

End TLVE.


(* ================================================================== *)
(** * The arrays computed by the two kernels, in closed form           *)
(* ================================================================== *)

Module GammaMieForms.
Section forms.
Context {F : Type} `{Arith F}.
Variable ckl_coef : list (list F).

(** Argument shapes: a vector of [n] entries, an [n] by [m] matrix. *)
Definition shape1 (n : nat) (a : list F) : Prop := length a = n.
Definition shape2 (n m : nat) (a : list (list F)) : Prop :=
  length a = n /\ Forall (fun row => length row = m) a.

Definition powers4 (z : F) : list F := [z; (z * z)%A; (z * z * z)%A; (z * z * z * z)%A].

(** The effective packing fraction of one density point: the dot product
    of the row of powers with the coefficient vector of the exponent. *)
Definition eta (zrow : list F) (lam : F) : F :=
  dot zrow (matvec ckl_coef [f1; (f1 / lam)%A; (f1 / fsquare lam)%A; (f1 / fcube lam)%A]).

(** The factor [(1 - eta/2) / (1 - eta)**3]. *)
Definition correction (x : F) : F := ((f1 - x / f2) / fcube (f1 - x))%A.

(** The right operand of line 100 and of line 59. *)
Definition rhs_1d (Cmol2seg : F) (l_kl epsilonkl dkl : list F) : list F :=
  map (fun x => (- f2 * fpi * Cmol2seg * x)%A)
      (zip_with fdiv (zip_with fmul epsilonkl (map fcube dkl))
                     (map (fun l => (l - f3)%A) l_kl)).

Definition rhs_2d (l_kl epsilonkl dkl : list (list F)) : list (list F) :=
  zip_with (zip_with fdiv)
    (zip_with (zip_with fmul) epsilonkl (map (map fcube) dkl))
    (map (map (fun l => (l - f3)%A)) l_kl).

(** The arrays the two functions return on well-shaped arguments. *)
Definition a1s_1d_array (rho : list F) (Cmol2seg : F) (l_kl zetax epsilonkl dkl : list F)
    : list (list F) :=
  zip_with
    (fun z r =>
       map (fun x => (x * r)%A)
         (zip_with fmul (map (fun lam => correction (eta (powers4 z) lam)) l_kl)
                        (rhs_1d Cmol2seg l_kl epsilonkl dkl)))
    zetax rho.

Definition a1s_2d_array (rho : list F) (Cmol2seg : F) (l_kl : list (list F))
    (zetax : list F) (epsilonkl dkl : list (list F)) : list (list (list F)) :=
  zip_with
    (fun z r =>
       map (map (fun x => (x * r)%A))
         (zip_with (zip_with fmul)
            (map (map (fun lam =>
               (correction (eta (powers4 z) lam) * (- f2) * fpi * Cmol2seg)%A)) l_kl)
            (rhs_2d l_kl epsilonkl dkl)))
    zetax rho.

(** Entry [[i, k]] of a 2-D array and entry [[i, k, l]] of a 3-D array. *)
Definition entry2 (a : list (list F)) (i k : nat) : option F :=
  a !! i ≫= fun row => row !! k.
Definition entry3 (a : list (list (list F))) (i k l : nat) : option F :=
  a !! i ≫= fun mat => mat !! k ≫= fun row => row !! l.

End forms.
End GammaMieForms.

(** The class of a binary64 value read off its specification: infinite or
    NaN. *)
Module Binary64.

Definition sf_nonfinite (s : spec_float) : bool :=
  match s with
  | S754_infinity _ | S754_nan => true
  | S754_zero _ | S754_finite _ _ _ => false
  end.

End Binary64.

(** The formulas over the reals.  [coefficient ckl j lam] is row [j] of the
    table applied to [(1, 1/lam, 1/lam^2, 1/lam^3)]; [eta_eff] is the
    polynomial in the packing fraction, of degrees 1 to 4. *)
Module GammaMieReal.
Local Open Scope R_scope.

Definition c (ckl : list (list R)) (j m : nat) : R := nth m (nth j ckl []) 0.

Definition coefficient (ckl : list (list R)) (j : nat) (lam : R) : R :=
  c ckl j 0 + c ckl j 1 / lam + c ckl j 2 / lam ^ 2 + c ckl j 3 / lam ^ 3.

Definition eta_eff (ckl : list (list R)) (lam z : R) : R :=
  coefficient ckl 0 lam * z + coefficient ckl 1 lam * z ^ 2
  + coefficient ckl 2 lam * z ^ 3 + coefficient ckl 3 lam * z ^ 4.

(** What the kernels compute at density [r], packing fraction [z] and group
    parameters [lam], [e], [d]. *)
Definition a1s_term (ckl : list (list R)) (r Cmol2seg lam z e d : R) : R :=
  (1 - eta_eff ckl lam z / 2) / (1 - eta_eff ckl lam z) ^ 3
  * (- 2 * PI * Cmol2seg * e * d ^ 3 / (lam - 3)) * r.

(** The formula in the words of spec 4.1, read literally: the correction
    factor is taken at the packing fraction itself. *)
Definition a1s_as_specified (r Cmol2seg lam z e d : R) : R :=
  (1 - z / 2) / (1 - z) ^ 3 * (- 2 * PI * Cmol2seg * e * d ^ 3 / (lam - 3)) * r.

(** The same words read with the polynomial as the argument of the
    correction factor, the polynomial having the four powers "up to degree
    3" of the packing fraction. *)
Definition eta_degree3 (ckl : list (list R)) (lam z : R) : R :=
  coefficient ckl 0 lam + coefficient ckl 1 lam * z
  + coefficient ckl 2 lam * z ^ 2 + coefficient ckl 3 lam * z ^ 3.

Definition a1s_as_specified_degree3 (ckl : list (list R)) (r Cmol2seg lam z e d : R) : R :=
  (1 - eta_degree3 ckl lam z / 2) / (1 - eta_degree3 ckl lam z) ^ 3
  * (- 2 * PI * Cmol2seg * e * d ^ 3 / (lam - 3)) * r.

End GammaMieReal.

(** The dictionaries left behind by lines 56-88 of [Data.__init__] when no
    check fails, as functions of [data_dict] and of the dictionaries the
    parent constructor set up. *)
Module TLVEForms.
Import TLVE.

(** [if short in data_dict: thermodict[long] = data_dict[short]] *)
Definition store (short long : string) (data_dict thermodict : gmap string pyval)
    : gmap string pyval :=
  match data_dict !! short with
  | Some v => <[long := v]> thermodict
  | None => thermodict
  end.

Definition store_P (data_dict thermodict : gmap string pyval) : gmap string pyval :=
  match data_dict !! "P" with
  | Some v => <["Pguess" := v]> (<["Plist" := v]> thermodict)
  | None => thermodict
  end.

(** The renaming of the weight given under the header [short]. *)
Definition renamed (short long : string) (data_dict weights : gmap string pyval)
    : gmap string pyval :=
  match data_dict !! short, weights !! short with
  | Some _, Some w => pop_into short long weights w
  | _, _ => weights
  end.

Definition loaded_thermodict (data_dict thermodict : gmap string pyval)
    : gmap string pyval :=
  store_P data_dict
    (store "yi" "yilist" data_dict
       (store "T" "Tlist" data_dict
          (store "xi" "xilist" data_dict
             (<["density_dict" := PDict ∅]> thermodict)))).

Definition loaded_weights (data_dict weights : gmap string pyval) : gmap string pyval :=
  renamed "P" "Plist" data_dict
    (renamed "yi" "yilist" data_dict
       (renamed "T" "Tlist" data_dict
          (renamed "xi" "xilist" data_dict weights))).

(** The header of the data file under which the weight of a [thermodict]
    key is supplied. *)
Definition header (key : string) : option string :=
  if bool_decide (key = "xilist") then Some "xi"
  else if bool_decide (key = "Tlist") then Some "T"
  else if bool_decide (key = "yilist") then Some "yi"
  else if bool_decide (key = "Plist") then Some "P"
  else None.

(** The user supplied a weight for [key]: the weights dict handed to the
    constructor has [key] itself or its header. *)
Definition supplied (weights : gmap string pyval) (key : string) : Prop :=
  is_Some (weights !! key) \/
  exists h, header key = Some h /\ is_Some (weights !! h).

End TLVEForms.

(** Input dictionaries used to evaluate the constructor. *)
Module TLVEExamples.
Import TLVE.

Definition floats (xs : list float) : pyval := PList (PFloat <$> xs).

Definition two_points : list (string * pyval) :=
  [ ("name", PStr "TLVE");
    ("T", floats [300; 310]%float);
    ("xi", PList [floats [0.25; 0.75]%float; floats [0.5; 0.5]%float]);
    ("yi", PList [floats [0.75; 0.25]%float; floats [0.875; 0.125]%float]) ].

(** Two points with pressures and a density-scan option. *)
Definition with_density_dict : gmap string pyval :=
  list_to_map (("P", floats [100000; 200000]%float)
               :: ("density_dict", PDict {[ "rhoinc" := PFloat 5 ]})
               :: two_points).

(** Two temperatures with a weight list of one entry for [T]. *)
Definition with_short_T_weights : gmap string pyval :=
  list_to_map (("weights", PDict {[ "T" := floats [1%float] ]}) :: two_points).

(** [T], [xi] and [yi] are all given, [yi] has one point too few. *)
Definition with_short_yi : gmap string pyval :=
  list_to_map [ ("T", floats [300; 310]%float);
                ("xi", PList [floats [0.25; 0.75]%float; floats [0.5; 0.5]%float]);
                ("yi", PList [floats [0.75; 0.25]%float]) ].

(** [P], [xi] and [yi] are given, [T] is not. *)
Definition without_T : gmap string pyval :=
  list_to_map [ ("P", floats [100000; 200000]%float);
                ("xi", PList [floats [0.25; 0.75]%float; floats [0.5; 0.5]%float]);
                ("yi", PList [floats [0.75; 0.25]%float; floats [0.875; 0.125]%float]) ].

(** Stand-ins for the callees of [objective], for concrete runs: a
    calculation that does not converge; a calculation that predicts the
    pressures and vapor compositions of two points; the rearrangement of
    the predictions into one row per point; the transposition of a list of
    rows; a sum of squared relative deviations. *)
Definition thermo_not_converging (eos : pyval) (thermodict : gmap string pyval)
    : outcome (gmap string pyval) :=
  Raises (OtherError "ConvergenceError").

Definition thermo_predicting (eos : pyval) (thermodict : gmap string pyval)
    : outcome (gmap string pyval) :=
  Returns (list_to_map
    [ ("P", floats [100000; 200000]%float);
      ("yi", PList [floats [0.5; 0.5]%float; floats [0.875; 0.125]%float]) ]).

Definition items (v : pyval) : list pyval :=
  match v with PList xs => xs | _ => [] end.

Definition reformat_ouput_rows (phase_list : list pyval) : outcome (pyval * pyval) :=
  match phase_list with
  | [P; zi] =>
      Returns (PList (zip_with (fun p z => PList (p :: items z)) (items P) (items zi)),
               PNone)
  | _ => Raises TypeError
  end.

Fixpoint transposed (rows : list (list pyval)) : list (list pyval) :=
  match rows with
  | [] => []
  | [r] => (fun x => [x]) <$> r
  | r :: rs => zip_with cons r (transposed rs)
  end.

Definition np_transpose_rows (a : pyval) : outcome (list pyval) :=
  Returns (PList <$> transposed (items <$> items a)).

Definition squared_relative_deviations (predicted measured w : pyval)
    (opts : gmap string pyval) : outcome float :=
  for_each (zip (items predicted) (items measured))
    (fun acc pm =>
       match pm with
       | (PFloat p, PFloat m) => Returns (acc + ((p - m) / m) * ((p - m) / m))%float
       | _ => Raises TypeError
       end)
    0%float.

(** The largest power of two that is a finite binary64 number. *)
Definition huge : float := 0x1p1023%float.

End TLVEExamples.

(* ================================================================== *)
(** * Further parts of the source                                      *)
(* ================================================================== *)

(** Lines 5-11 of [gamma_mie_funcs_opt.py], run when the module is
    imported: the switch [disable_jit] is the environment variable
    [NUMBA_DISABLE_JIT] when it is set (a string, true when non-empty) and
    the switch of the package otherwise; when it is true the variable is
    set to ['1'].  The environment is a map from names to strings. *)
Module JitSwitch.

Definition variable : string := "NUMBA_DISABLE_JIT".

Definition disable_jit (package_disable_jit : bool) (environ : gmap string string) : bool :=
  match environ !! variable with
  | Some value => negb (String.eqb value "")
  | None => package_disable_jit
  end.

Definition import_module (package_disable_jit : bool) (environ : gmap string string)
    : gmap string string :=
  if disable_jit package_disable_jit environ
  then <[variable := "1"]> environ
  else environ.

End JitSwitch.

(** Lines 32-44 of [__main__.py]: the level of the console handler as a
    function of the count of [-v] options.  The handler starts at
    [CRITICAL]; the chain of tests has no final [else]. *)
Module Main.

Inductive level : Type := DEBUG | INFO | WARNING | ERROR | CRITICAL.

(** The numeric values of the [logging] levels. *)
Definition level_value (l : level) : Z :=
  match l with
  | DEBUG => 10 | INFO => 20 | WARNING => 30 | ERROR => 40 | CRITICAL => 50
  end.

Definition console_level (verbose : Z) : level :=
  if (verbose =? 0)%Z then ERROR
  else if (verbose =? 1)%Z then WARNING
  else if (verbose =? 2)%Z then INFO
  else if (verbose >=? 3)%Z then DEBUG
  else CRITICAL.

(** A record of level [l] passes the console handler when its value is at
    least the level of the handler (the root logger is at [DEBUG] and lets
    every level through). *)
Definition console_shows (verbose : Z) (l : level) : bool :=
  (level_value (console_level verbose) <=? level_value l)%Z.

End Main.

(** Conditions on the arguments of the two kernels. *)
Module GammaMieConditions.
Import GammaMieForms.

(** A matrix of group parameters that does not depend on the order of the
    two groups. *)
Definition symmetric {F} (a : list (list F)) : Prop :=
  forall k l, entry2 a k l = entry2 a l k.

(** The vector [v] holds the diagonal of the matrix [a]. *)
Definition diagonal_of {F} (v : list F) (a : list (list F)) : Prop :=
  forall k, v !! k = entry2 a k k.

End GammaMieConditions.

(** Conditions on the input of [Data.__init__] used to state what the
    constructor accepts. *)
Module TLVEConditions.
Import TLVE.

(** The test of lines 66, 78 and 87 lets the weight [w] of the data [v]
    pass: [w] is a float, or both are sized and of one length. *)
Definition weight_ok (v w : pyval) : Prop :=
  is_float w = true \/ exists n, py_len w = Returns n /\ py_len v = Returns n.

(** Every weight supplied under the header [xi], [yi] or [P] of supplied
    data passes that test. *)
Definition weights_accepted (data_dict weights : gmap string pyval) : Prop :=
  forall short v w,
    short ∈ ["xi"; "yi"; "P"] ->
    data_dict !! short = Some v -> weights !! short = Some w -> weight_ok v w.

End TLVEConditions.

(** More inputs of the constructor. *)
Module TLVEInputs.
Import TLVE TLVEExamples.

(** Two points in the mode [phase_yiT]. *)
Definition with_phase_yiT : gmap string pyval :=
  list_to_map (("calculation_type", PStr "phase_yiT") :: two_points).

(** Two points with a calculation type that is none of the two modes. *)
Definition with_unknown_mode : gmap string pyval :=
  list_to_map (("calculation_type", PStr "flash") :: two_points).

(** Two points with weights: a list for [xi], a float for [T]. *)
Definition with_weights : gmap string pyval :=
  list_to_map (("weights", PDict (list_to_map
                  [("xi", floats [2; 3]%float); ("T", PFloat 0.5)])) :: two_points).

(** Two points with the integer 1 as the weight of [xi]. *)
Definition with_integer_weight : gmap string pyval :=
  list_to_map (("weights", PDict {[ "xi" := PInt 1 ]}) :: two_points).

(** Two points with a weight list of three entries for [xi]. *)
Definition with_long_xi_weights : gmap string pyval :=
  list_to_map (("weights", PDict {[ "xi" := floats [1; 1; 1]%float ]}) :: two_points).

(** No point at all. *)
Definition no_points : gmap string pyval :=
  list_to_map [ ("T", PList []); ("xi", PList []); ("yi", PList []) ].

(** Only mole fractions. *)
Definition only_mole_fractions : gmap string pyval :=
  list_to_map [ ("xi", PList [floats [0.25; 0.75]%float]);
                ("yi", PList [floats [0.75; 0.25]%float]) ].


(** Modelled from the spec: a parent constructor as documented (see
    [ExpDataTemplate_init_documented]) that also stores an object under
    [mpObj], the key that line 115 exempts from the default weights. *)
Definition ExpDataTemplate_init_with_mpObj (data_dict : gmap string pyval)
    : outcome Data :=
  self ← ExpDataTemplate_init_documented data_dict;
  Returns {| name := name self; eos := eos self; obj_opts := obj_opts self;
             thermodict := <["mpObj" := PObj 1]> (thermodict self);
             weights := weights self; npoints := npoints self |}.

(** Two points of a pure component, with pressures: the second mole
    fraction is zero at every point. *)
Definition with_pure_component : gmap string pyval :=
  list_to_map [ ("name", PStr "TLVE");
                ("T", floats [300; 310]%float);
                ("P", floats [110000; 200000]%float);
                ("xi", PList [floats [1; 0]%float; floats [1; 0]%float]);
                ("yi", PList [floats [1; 0]%float; floats [1; 0]%float]) ].

(** A calculation that predicts a pure vapor at both points. *)
Definition thermo_pure_component (eos : pyval) (thermodict : gmap string pyval)
    : outcome (gmap string pyval) :=
  Returns (list_to_map
    [ ("P", floats [100000; 200000]%float);
      ("yi", PList [floats [1; 0]%float; floats [1; 0]%float]) ]).

End TLVEInputs.
(* ================================================================== *)
(** * Facts about outcomes and array operations                        *)
(* ================================================================== *)

Module PyFacts.

Lemma bind_returns {A B} (m : outcome A) (f : A -> outcome B) (b : B) :
  m ≫= f = Returns b -> exists a, m = Returns a /\ f a = Returns b.
Proof. destruct m as [a|e]; simpl; [eauto | discriminate]. Qed.

Lemma map_outcome_total {A B} (f : A -> outcome B) (g : A -> B) (xs : list A) :
  Forall (fun x => f x = Returns (g x)) xs ->
  map_outcome f xs = Returns (map g xs).
Proof.
  induction 1 as [|x xs Hx _ IH]; simpl; [reflexivity|].
  rewrite Hx; simpl. rewrite IH. reflexivity.
Qed.

End PyFacts.

Module NumPyFacts.
Import PyFacts.
Section facts.
Context {F : Type} `{Arith F}.

Lemma zip_with_fmap_same {A B C D} (f : B -> C -> D) (g : A -> B) (h : A -> C) (l : list A) :
  zip_with f (map g l) (map h l) = map (fun x => f (g x) (h x)) l.
Proof. induction l; simpl; congruence. Qed.

Lemma broadcast_same_length {A B C} (f : A -> B -> outcome C) (g : A -> B -> C) xs ys :
  length xs = length ys ->
  Forall2 (fun x y => f x y = Returns (g x y)) xs ys ->
  broadcast f xs ys = Returns (zip_with g xs ys).
Proof.
  intros Hlen Hall. unfold broadcast. rewrite decide_True by done.
  clear Hlen. induction Hall as [|x y xs ys Hxy _ IH]; simpl; [reflexivity|].
  rewrite Hxy; simpl. rewrite IH. reflexivity.
Qed.

Lemma ew1_same_length op (xs ys : list F) :
  length xs = length ys -> ew1 op xs ys = Returns (zip_with op xs ys).
Proof.
  intros Hlen. apply broadcast_same_length; [done|].
  apply Forall2_same_length_lookup_2; [done | reflexivity].
Qed.

Lemma ew2_same_shape op (xs ys : list (list F)) :
  Forall2 (fun x y => length x = length y) xs ys ->
  ew2 op xs ys = Returns (zip_with (zip_with op) xs ys).
Proof.
  intros Hall. apply broadcast_same_length.
  - eapply Forall2_length, Hall.
  - eapply Forall2_impl; [exact Hall|]. intros x y Hxy. by apply ew1_same_length.
Qed.

Lemma assign_column_same_length j (v : list F) m :
  length v = length m ->
  assign_column j v m = Returns (zip_with (fun row x => <[j:=x]> row) m v).
Proof. intros Hlen. unfold assign_column. by rewrite decide_True. Qed.

Lemma assign_slice3_same_length k l (v : list F) e :
  length v = length e ->
  assign_slice3 k l v e
  = Returns (zip_with (fun mat x => alter (fun row => <[l:=x]> row) k mat) e v).
Proof. intros Hlen. unfold assign_slice3. by rewrite decide_True. Qed.

Lemma column_fmap {A} j (g : A -> list F) (l : list A) :
  column j (map g l) = map (fun x => default f0 (g x !! j)) l.
Proof. unfold column. by rewrite map_map. Qed.

End facts.
End NumPyFacts.

Module GammaMieFacts.
Import PyFacts NumPyFacts GammaMie GammaMieForms.
Section facts.
Context {F : Type} `{Arith F}.
Variable ckl_coef : list (list F).

Local Abbreviation eta := (GammaMieForms.eta ckl_coef).
Local Abbreviation a1s_1d_array := (GammaMieForms.a1s_1d_array ckl_coef).
Local Abbreviation a1s_2d_array := (GammaMieForms.a1s_2d_array ckl_coef).

Lemma zip_with_replicate_l {A B C} (f : A -> B -> C) (c : A) (l : list B) n :
  n = length l -> zip_with f (replicate n c) l = map (f c) l.
Proof. intros ->. induction l; simpl; congruence. Qed.

Lemma zetax_powers_closed (rho zetax : list F) :
  length zetax = length rho ->
  zetax_powers rho zetax = Returns (map powers4 zetax).
Proof.
  intros Hlen. unfold zetax_powers.
  rewrite assign_column_same_length by (unfold zeros2; by rewrite length_replicate).
  unfold zeros2. rewrite zip_with_replicate_l by done.
  cbn [mbind outcome_bind for_each].
  repeat (rewrite !column_fmap; rewrite ew1_same_length by (by rewrite !length_map);
          cbn [mbind outcome_bind];
          rewrite assign_column_same_length by
            (rewrite length_zip_with, !length_map; lia);
          rewrite !zip_with_fmap_same; cbn [mbind outcome_bind for_each]).
  reflexivity.
Qed.

Lemma eta_column_fmap zp lam :
  eta_column ckl_coef zp lam = map (fun zrow => eta zrow lam) zp.
Proof. reflexivity. Qed.

Lemma insert_at_boundary {A} (l1 : list A) (x y : A) (l2 : list A) j :
  length l1 = j -> <[j:=x]> (l1 ++ y :: l2) = (l1 ++ [x]) ++ l2.
Proof.
  intros <-. rewrite insert_app_r_alt by lia.
  rewrite Nat.sub_diag. simpl. by rewrite <- app_assoc.
Qed.

Lemma index1_lookup (a : list F) k x : a !! k = Some x -> index1 a k = Returns x.
Proof. unfold index1. by intros ->. Qed.

Lemma index2_lookup (a : list (list F)) k l row x :
  a !! k = Some row -> row !! l = Some x -> index2 a k l = Returns x.
Proof. unfold index2, index1. by intros -> ->. Qed.

(** The loop of lines 97-98. *)
Lemma etakl_1d_loop (zp : list (list F)) (l_kl : list F) m j :
  j + m = length l_kl ->
  for_each (seq j m)
    (fun etakl k => lam ← index1 l_kl k; assign_column k (eta_column ckl_coef zp lam) etakl)
    (map (fun zrow => map (eta zrow) (take j l_kl) ++ replicate m f0) zp)
  = Returns (map (fun zrow => map (eta zrow) l_kl) zp).
Proof.
  revert j. induction m as [|m IH]; intros j Hj.
  - simpl. f_equal. apply map_ext. intros zrow.
    rewrite take_ge by lia. by rewrite app_nil_r.
  - destruct (lookup_lt_is_Some_2 l_kl j) as [lam Hlam]; [lia|].
    cbn [seq for_each]. rewrite (index1_lookup _ _ _ Hlam). cbn [mbind outcome_bind].
    rewrite eta_column_fmap, assign_column_same_length by (by rewrite !length_map).
    rewrite zip_with_fmap_same. cbn [mbind outcome_bind].
    rewrite <- (IH (S j)) by lia. f_equal. apply map_ext. intros zrow.
    cbn [replicate]. rewrite insert_at_boundary
      by (rewrite length_map, length_take; lia).
    by rewrite (take_S_r _ _ _ Hlam), map_app.
Qed.

Lemma etakl_1d_closed (zp : list (list F)) (l_kl : list F) n :
  length zp = n ->
  for_each (seq 0 (length l_kl))
    (fun etakl k => lam ← index1 l_kl k; assign_column k (eta_column ckl_coef zp lam) etakl)
    (zeros2 n (length l_kl))
  = Returns (map (fun zrow => map (eta zrow) l_kl) zp).
Proof.
  intros <-. rewrite <- (etakl_1d_loop zp l_kl (length l_kl) 0) by lia.
  f_equal. unfold zeros2, zeros1. induction zp as [|zrow zp IH]; simpl; [done|]. by rewrite IH.
Qed.

Lemma alter_insert_same {A} (f : A -> A) (m : list A) k (r : A) :
  k < length m -> alter f k (<[k:=r]> m) = <[k:=f r]> m.
Proof.
  revert k. induction m as [|a m IH]; intros [|k] Hk; simpl in *; try lia; [done|].
  f_equal. apply IH. lia.
Qed.

(** The inner loop of lines 56-57, for a fixed [k]. *)
Lemma etakl_2d_inner (zp : list (list F)) (l_kl : list (list F)) k lrow
    (h : list F -> list (list F)) m j :
  l_kl !! k = Some lrow ->
  (forall zrow, k < length (h zrow)) ->
  j + m = length lrow ->
  for_each (seq j m)
    (fun etakl l =>
       lam ← index2 l_kl k l; assign_slice3 k l (eta_column ckl_coef zp lam) etakl)
    (map (fun zrow => <[k := map (eta zrow) (take j lrow) ++ replicate m f0]> (h zrow)) zp)
  = Returns (map (fun zrow => <[k := map (eta zrow) lrow]> (h zrow)) zp).
Proof.
  intros Hk Hh. revert j. induction m as [|m IH]; intros j Hj.
  - simpl. f_equal. apply map_ext. intros zrow.
    rewrite take_ge by lia. by rewrite app_nil_r.
  - destruct (lookup_lt_is_Some_2 lrow j) as [lam Hlam]; [lia|].
    cbn [seq for_each]. rewrite (index2_lookup _ _ _ _ _ Hk Hlam).
    cbn [mbind outcome_bind].
    rewrite eta_column_fmap, assign_slice3_same_length by (by rewrite !length_map).
    rewrite zip_with_fmap_same. cbn [mbind outcome_bind].
    rewrite <- (IH (S j)) by lia. f_equal. apply map_ext. intros zrow.
    rewrite alter_insert_same by apply Hh. f_equal.
    cbn [replicate]. rewrite insert_at_boundary
      by (rewrite length_map, length_take; lia).
    by rewrite (take_S_r _ _ _ Hlam), map_app.
Qed.

(** The nested loops of lines 55-57. *)
Lemma etakl_2d_loop (zp : list (list F)) (l_kl : list (list F)) nb m k :
  Forall (fun lrow => length lrow = nb) l_kl ->
  k + m = length l_kl ->
  for_each (seq k m)
    (fun etakl k =>
       for_each (seq 0 nb)
         (fun etakl l =>
            lam ← index2 l_kl k l; assign_slice3 k l (eta_column ckl_coef zp lam) etakl)
         etakl)
    (map (fun zrow => map (fun lrow => map (eta zrow) lrow) (take k l_kl)
                      ++ replicate m (replicate nb f0)) zp)
  = Returns (map (fun zrow => map (fun lrow => map (eta zrow) lrow) l_kl) zp).
Proof.
  intros Hsq. revert k. induction m as [|m IH]; intros k Hk.
  - simpl. f_equal. apply map_ext. intros zrow.
    rewrite take_ge by lia. by rewrite app_nil_r.
  - destruct (lookup_lt_is_Some_2 l_kl k) as [lrow Hlrow]; [lia|].
    assert (length lrow = nb) as Hnb
      by (eapply (proj1 (Forall_lookup _ _) Hsq); eauto).
    cbn [seq for_each].
    set (h := fun zrow : list F =>
           map (fun lrow => map (eta zrow) lrow) (take k l_kl)
           ++ replicate (S m) (replicate nb f0)).
    assert (forall zrow, k < length (h zrow)) as Hh.
    { intros zrow. unfold h.
      rewrite length_app, length_map, length_take, length_replicate. lia. }
    assert (map h zp
            = map (fun zrow => <[k := map (eta zrow) (take 0 lrow) ++ replicate nb f0]> (h zrow)) zp)
      as ->.
    { apply map_ext. intros zrow. symmetry. apply list_insert_id.
      unfold h. rewrite lookup_app_r by (rewrite length_map, length_take; lia).
      rewrite length_map, length_take, Nat.min_l by lia.
      by rewrite Nat.sub_diag. }
    rewrite (etakl_2d_inner zp l_kl k lrow h nb 0 Hlrow Hh) by lia.
    cbn [mbind outcome_bind].
    rewrite <- (IH (S k)) by lia. f_equal. apply map_ext. intros zrow.
    unfold h. cbn [replicate]. rewrite insert_at_boundary
      by (rewrite length_map, length_take; lia).
    by rewrite (take_S_r _ _ _ Hlrow), map_app.
Qed.

Lemma etakl_2d_closed (zp : list (list F)) (l_kl : list (list F)) n nb :
  length zp = n ->
  shape2 nb nb l_kl ->
  for_each (seq 0 nb)
    (fun etakl k =>
       for_each (seq 0 nb)
         (fun etakl l =>
            lam ← index2 l_kl k l; assign_slice3 k l (eta_column ckl_coef zp lam) etakl)
         etakl)
    (zeros3 n nb nb)
  = Returns (map (fun zrow => map (fun lrow => map (eta zrow) lrow) l_kl) zp).
Proof.
  intros <- [Hlen Hsq].
  rewrite <- (etakl_2d_loop zp l_kl nb nb 0 Hsq) by lia.
  f_equal. unfold zeros3, zeros2, zeros1.
  induction zp as [|zrow zp IH]; simpl; [done|]. by rewrite IH.
Qed.


Lemma shape2_Forall2 n m (a b : list (list F)) :
  shape2 n m a -> shape2 n m b -> Forall2 (fun x y => length x = length y) a b.
Proof.
  intros [Ha Ha'] [Hb Hb']. apply Forall2_same_length_lookup_2; [congruence|].
  intros i x y Hx Hy.
  rewrite (proj1 (Forall_lookup _ _) Ha' i x Hx).
  by rewrite (proj1 (Forall_lookup _ _) Hb' i y Hy).
Qed.

Lemma shape2_fmap n m (g : F -> F) (a : list (list F)) :
  shape2 n m a -> shape2 n m (map (map g) a).
Proof.
  intros [Ha Ha']. split; [by rewrite length_map|].
  apply Forall_fmap. eapply Forall_impl; [exact Ha'|].
  intros row Hrow. simpl. by rewrite length_map.
Qed.

Lemma shape2_zip_with n m (op : F -> F -> F) (a b : list (list F)) :
  shape2 n m a -> shape2 n m b -> shape2 n m (zip_with (zip_with op) a b).
Proof.
  intros [Ha Ha'] [Hb Hb']. split; [rewrite length_zip_with; lia|].
  apply Forall_lookup. intros i row Hrow.
  apply lookup_zip_with_Some in Hrow as (x & y & -> & Hx & Hy).
  rewrite length_zip_with.
  rewrite (proj1 (Forall_lookup _ _) Ha' i x Hx).
  rewrite (proj1 (Forall_lookup _ _) Hb' i y Hy). lia.
Qed.

Theorem calc_a1s_1d_closed (rho : list F) Cmol2seg (l_kl zetax epsilonkl dkl : list F) :
  length zetax = length rho ->
  shape1 (length dkl) l_kl -> shape1 (length dkl) epsilonkl ->
  calc_a1s_1d ckl_coef rho Cmol2seg l_kl zetax epsilonkl dkl
  = Returns (a1s_1d_array rho Cmol2seg l_kl zetax epsilonkl dkl).
Proof.
  unfold shape1. intros Hz Hl He. unfold calc_a1s_1d.
  rewrite zetax_powers_closed by done. cbn [mbind outcome_bind].
  rewrite <- Hl.
  rewrite etakl_1d_closed by (by rewrite length_map).
  cbn [mbind outcome_bind].
  rewrite ew1_same_length by (rewrite length_map; congruence).
  cbn [mbind outcome_bind].
  rewrite ew1_same_length by (rewrite length_zip_with, !length_map; lia).
  cbn [mbind outcome_bind].
  fold (rhs_1d Cmol2seg l_kl epsilonkl dkl).
  rewrite (map_outcome_total _
             (fun row => zip_with fmul row (rhs_1d Cmol2seg l_kl epsilonkl dkl))); cycle 1.
  { apply Forall_fmap, Forall_fmap, Forall_fmap, Forall_forall. intros z _. simpl.
    apply ew1_same_length. unfold rhs_1d.
    rewrite !length_map, !length_zip_with, !length_map. lia. }
  cbn [mbind outcome_bind]. f_equal.
  unfold scale_leading, a1s_1d_array. rewrite !map_map.
  rewrite zip_with_fmap_l. apply zip_with_ext; [|done..].
  intros z r. by rewrite map_map.
Qed.

Theorem calc_a1s_2d_closed (rho : list F) Cmol2seg (l_kl : list (list F))
    (zetax : list F) (epsilonkl dkl : list (list F)) :
  length zetax = length rho ->
  shape2 (length dkl) (length dkl) l_kl ->
  shape2 (length dkl) (length dkl) epsilonkl ->
  shape2 (length dkl) (length dkl) dkl ->
  calc_a1s_2d ckl_coef rho Cmol2seg l_kl zetax epsilonkl dkl
  = Returns (a1s_2d_array rho Cmol2seg l_kl zetax epsilonkl dkl).
Proof.
  intros Hz Hl He Hd. unfold calc_a1s_2d.
  rewrite zetax_powers_closed by done. cbn [mbind outcome_bind].
  pose proof Hl as [Hlen Hsq].
  rewrite (etakl_2d_closed _ l_kl (length rho) (length dkl)) by (by rewrite ?length_map).
  cbn [mbind outcome_bind].
  rewrite (ew2_same_shape fmul)
    by (eapply shape2_Forall2; [exact He | by apply shape2_fmap]).
  cbn [mbind outcome_bind].
  rewrite (ew2_same_shape fdiv)
    by (eapply shape2_Forall2;
        [apply shape2_zip_with; [exact He | by apply shape2_fmap] | by apply shape2_fmap]).
  cbn [mbind outcome_bind].
  fold (rhs_2d l_kl epsilonkl dkl).
  assert (shape2 (length dkl) (length dkl) (rhs_2d l_kl epsilonkl dkl)) as Hrhs.
  { unfold rhs_2d. repeat first [apply shape2_zip_with | apply shape2_fmap | done]. }
  rewrite (map_outcome_total _
             (fun mat => zip_with (zip_with fmul) mat (rhs_2d l_kl epsilonkl dkl))); cycle 1.
  { apply Forall_fmap, Forall_fmap, Forall_fmap, Forall_forall. intros z _. simpl.
    apply ew2_same_shape. eapply shape2_Forall2; [|exact Hrhs].
    apply shape2_fmap. split; [by rewrite length_map|].
    apply Forall_fmap. eapply Forall_impl; [exact Hsq|].
    intros row Hrow. simpl. by rewrite length_map. }
  cbn [mbind outcome_bind]. f_equal.
  unfold scale_leading, a1s_2d_array. rewrite !map_map.
  rewrite zip_with_fmap_l. apply zip_with_ext; [|done..].
  intros z r. rewrite map_map. do 2 f_equal. apply map_ext. intros lrow.
  by rewrite map_map.
Qed.

Lemma a1s_1d_array_entry rho Cmol2seg l_kl zetax epsilonkl dkl i k r z lam e d :
  rho !! i = Some r -> zetax !! i = Some z ->
  l_kl !! k = Some lam -> epsilonkl !! k = Some e -> dkl !! k = Some d ->
  entry2 (a1s_1d_array rho Cmol2seg l_kl zetax epsilonkl dkl) i k
  = Some (correction (eta (powers4 z) lam)
          * (- f2 * fpi * Cmol2seg * (e * fcube d / (lam - f3))) * r)%A.
Proof.
  intros Hr Hz Hl He Hd. unfold entry2, a1s_1d_array, rhs_1d.
  rewrite lookup_zip_with, Hz, Hr. cbn [mbind option_bind].
  rewrite list_lookup_fmap, lookup_zip_with, !list_lookup_fmap, Hl.
  rewrite !lookup_zip_with, !list_lookup_fmap, He, Hd, Hl. reflexivity.
Qed.

Lemma a1s_2d_array_entry rho Cmol2seg l_kl zetax epsilonkl dkl i k l r z
    lrow erow drow lam e d :
  rho !! i = Some r -> zetax !! i = Some z ->
  l_kl !! k = Some lrow -> epsilonkl !! k = Some erow -> dkl !! k = Some drow ->
  lrow !! l = Some lam -> erow !! l = Some e -> drow !! l = Some d ->
  entry3 (a1s_2d_array rho Cmol2seg l_kl zetax epsilonkl dkl) i k l
  = Some (correction (eta (powers4 z) lam) * (- f2) * fpi * Cmol2seg
          * (e * fcube d / (lam - f3)) * r)%A.
Proof.
  intros Hr Hz Hlk Hek Hdk Hl He Hd. unfold entry3, a1s_2d_array, rhs_2d.
  rewrite lookup_zip_with, Hz, Hr. cbn [mbind option_bind].
  rewrite list_lookup_fmap, lookup_zip_with, !list_lookup_fmap, Hlk.
  rewrite !lookup_zip_with, !list_lookup_fmap, Hek, Hdk, Hlk.
  cbn [mbind option_bind fmap option_fmap option_map].
  rewrite list_lookup_fmap, lookup_zip_with, !list_lookup_fmap, Hl.
  rewrite !lookup_zip_with, !list_lookup_fmap, He, Hd, Hl. reflexivity.
Qed.

End facts.
End GammaMieFacts.

(* ================================================================== *)
(** * Poles of the kernels in binary64 arithmetic                      *)
(* ================================================================== *)

Module Binary64Facts.
Import Binary64.

Lemma nonfinite_of_spec (x : float) :
  sf_nonfinite (Prim2SF x) = true -> nonfinite x = true.
Proof.
  unfold nonfinite, isnan, isinf, is_nan, is_infinity.
  rewrite !FloatAxioms.eqb_spec, abs_spec.
  destruct (Prim2SF x) as [s|s| |s m e]; simpl; try discriminate; intros _.
  - destruct s; reflexivity.
  - reflexivity.
Qed.

Lemma div_zero_nonfinite (x : float) :
  sf_nonfinite (Prim2SF (x / 0)%float) = true.
Proof.
  rewrite div_spec. change (Prim2SF 0%float) with (S754_zero false).
  destruct (Prim2SF x) as [s|s| |s m e]; reflexivity.
Qed.

Lemma mul_nonfinite_r (a b : float) :
  sf_nonfinite (Prim2SF b) = true -> sf_nonfinite (Prim2SF (a * b)%float) = true.
Proof.
  rewrite mul_spec.
  destruct (Prim2SF a) as [sa|sa| |sa ma ea], (Prim2SF b) as [sb|sb| |sb mb eb];
    simpl; try discriminate; reflexivity.
Qed.

Lemma mul_nonfinite_l (a b : float) :
  sf_nonfinite (Prim2SF a) = true -> sf_nonfinite (Prim2SF (a * b)%float) = true.
Proof.
  rewrite mul_spec.
  destruct (Prim2SF a) as [sa|sa| |sa ma ea], (Prim2SF b) as [sb|sb| |sb mb eb];
    simpl; try discriminate; reflexivity.
Qed.

End Binary64Facts.

Module GammaMiePoles.
Import PyFacts NumPyFacts GammaMie GammaMieForms GammaMieFacts Binary64 Binary64Facts.

Lemma shape2_lookup {F} (a : list (list F)) n m k :
  shape2 n m a -> k < n -> exists row, a !! k = Some row /\ length row = m.
Proof.
  intros [Hlen Hrows] Hk.
  destruct (lookup_lt_is_Some_2 a k) as [row Hrow]; [lia|].
  exists row. split; [done|]. eapply (proj1 (Forall_lookup _ _) Hrows); eauto.
Qed.

(** On arrays of the documented shapes every entry of the result of
    [calc_a1s_2d] within the bounds exists and is the product the code
    forms, in the order of line 59. *)
Lemma entry_2d_in_bounds {F : Type} `{Arith F}
    (ckl_coef : list (list F)) (rho : list F) (Cmol2seg : F) (zetax : list F)
    (l_kl epsilonkl dkl : list (list F)) i k l z lam :
  length zetax = length rho ->
  shape2 (length dkl) (length dkl) l_kl ->
  shape2 (length dkl) (length dkl) epsilonkl ->
  shape2 (length dkl) (length dkl) dkl ->
  zetax !! i = Some z -> entry2 l_kl k l = Some lam ->
  exists r e d,
    entry3 (a1s_2d_array ckl_coef rho Cmol2seg l_kl zetax epsilonkl dkl) i k l
    = Some (correction (eta ckl_coef (powers4 z) lam) * (- f2) * fpi * Cmol2seg
            * (e * fcube d / (lam - f3)) * r)%A.
Proof.
  intros Hz Hl2 He2 Hd2 Hzi Hlam. unfold entry2 in Hlam.
  destruct (l_kl !! k) as [lrow|] eqn:Hlrow; [|discriminate].
  cbn [mbind option_bind] in Hlam.
  assert (k < length dkl) as Hk
    by (rewrite <- (proj1 Hl2); eapply lookup_lt_Some; eauto).
  destruct (shape2_lookup _ _ _ k Hl2 Hk) as (lrow' & Hlrow' & Hlen).
  assert (lrow' = lrow) as -> by congruence.
  assert (l < length dkl) as Hl
    by (rewrite <- Hlen; eapply lookup_lt_Some; eauto).
  destruct (shape2_lookup _ _ _ k He2 Hk) as (erow & Herow & Helen).
  destruct (shape2_lookup _ _ _ k Hd2 Hk) as (drow & Hdrow & Hdlen).
  destruct (lookup_lt_is_Some_2 erow l) as [e He]; [lia|].
  destruct (lookup_lt_is_Some_2 drow l) as [d Hd]; [lia|].
  destruct (lookup_lt_is_Some_2 rho i) as [r Hr];
    [rewrite <- Hz; eapply lookup_lt_Some; eauto|].
  exists r, e, d. eapply a1s_2d_array_entry; eauto.
Qed.

(** The same for [calc_a1s_1d], in the order of line 100. *)
Lemma entry_1d_in_bounds {F : Type} `{Arith F}
    (ckl_coef : list (list F)) (rho : list F) (Cmol2seg : F)
    (l_kl zetax epsilonkl dkl : list F) i k z lam :
  length zetax = length rho ->
  shape1 (length dkl) l_kl -> shape1 (length dkl) epsilonkl ->
  zetax !! i = Some z -> l_kl !! k = Some lam ->
  exists r e d,
    entry2 (a1s_1d_array ckl_coef rho Cmol2seg l_kl zetax epsilonkl dkl) i k
    = Some (correction (eta ckl_coef (powers4 z) lam)
            * (- f2 * fpi * Cmol2seg * (e * fcube d / (lam - f3))) * r)%A.
Proof.
  unfold shape1. intros Hz Hl1 He1 Hzi Hlam.
  assert (k < length dkl) as Hk
    by (rewrite <- Hl1; eapply lookup_lt_Some; eauto).
  destruct (lookup_lt_is_Some_2 epsilonkl k) as [e He]; [rewrite He1; lia|].
  destruct (lookup_lt_is_Some_2 dkl k) as [d Hd]; [lia|].
  destruct (lookup_lt_is_Some_2 rho i) as [r Hr];
    [rewrite <- Hz; eapply lookup_lt_Some; eauto|].
  exists r, e, d. eapply a1s_1d_array_entry; eauto.
Qed.

(** The correction factor at an effective packing fraction of exactly 1.0
    is a division by zero. *)
Lemma correction_pole : sf_nonfinite (Prim2SF (correction (F:=float) 1%float)) = true.
Proof. vm_compute. reflexivity. Qed.

(** C1 (as amended): neither kernel checks its arguments.  On arrays of the
    documented shapes, in binary64 arithmetic, both calls return an array,
    whatever the exponents and packing fractions are, packing fractions of
    1 and more included.  The entries of the result are infinite or NaN
    where the exponent equals 3.0, and where the effective packing fraction
    [eta], the polynomial of line 57 (line 98), evaluates to 1.0: that is
    the pole of the correction factor, not a packing fraction of 1. *)
Theorem calc_a1s_pole_returns_nonfinite
    (ckl_coef : list (list float)) (rho : list float) (Cmol2seg : float)
    (zetax : list float)
    (l_kl2 epsilonkl2 dkl2 : list (list float)) (l_kl1 epsilonkl1 dkl1 : list float) :
  length zetax = length rho ->
  shape2 (length dkl2) (length dkl2) l_kl2 ->
  shape2 (length dkl2) (length dkl2) epsilonkl2 ->
  shape2 (length dkl2) (length dkl2) dkl2 ->
  shape1 (length dkl1) l_kl1 ->
  shape1 (length dkl1) epsilonkl1 ->
  (exists out,
      calc_a1s_2d ckl_coef rho Cmol2seg l_kl2 zetax epsilonkl2 dkl2 = Returns out /\
      (forall i k l, i < length rho -> entry2 l_kl2 k l = Some 3%float ->
         exists v, entry3 out i k l = Some v /\ nonfinite v = true) /\
      (forall i k l z lam, zetax !! i = Some z -> entry2 l_kl2 k l = Some lam ->
         eta ckl_coef (powers4 z) lam = 1%float ->
         exists v, entry3 out i k l = Some v /\ nonfinite v = true))
  /\
  (exists out,
      calc_a1s_1d ckl_coef rho Cmol2seg l_kl1 zetax epsilonkl1 dkl1 = Returns out /\
      (forall i k, i < length rho -> l_kl1 !! k = Some 3%float ->
         exists v, entry2 out i k = Some v /\ nonfinite v = true) /\
      (forall i k z lam, zetax !! i = Some z -> l_kl1 !! k = Some lam ->
         eta ckl_coef (powers4 z) lam = 1%float ->
         exists v, entry2 out i k = Some v /\ nonfinite v = true)).
Proof.
  intros Hz Hl2 He2 Hd2 Hl1 He1. split.
  - eexists. split; [by apply calc_a1s_2d_closed|]. split.
    + intros i k l Hi Hlam.
      destruct (lookup_lt_is_Some_2 zetax i) as [z Hzi]; [lia|].
      destruct (entry_2d_in_bounds ckl_coef rho Cmol2seg zetax l_kl2 epsilonkl2 dkl2
                  i k l z 3%float Hz Hl2 He2 Hd2 Hzi Hlam) as (r & e & d & Hv).
      eexists. split; [exact Hv|].
      apply nonfinite_of_spec. apply mul_nonfinite_l, mul_nonfinite_r.
      apply div_zero_nonfinite.
    + intros i k l z lam Hzi Hlam Heta.
      destruct (entry_2d_in_bounds ckl_coef rho Cmol2seg zetax l_kl2 epsilonkl2 dkl2
                  i k l z lam Hz Hl2 He2 Hd2 Hzi Hlam) as (r & e & d & Hv).
      eexists. split; [exact Hv|]. rewrite Heta.
      apply nonfinite_of_spec. do 5 apply mul_nonfinite_l. apply correction_pole.
  - eexists. split; [by apply calc_a1s_1d_closed|]. split.
    + intros i k Hi Hlam.
      destruct (lookup_lt_is_Some_2 zetax i) as [z Hzi]; [lia|].
      destruct (entry_1d_in_bounds ckl_coef rho Cmol2seg l_kl1 zetax epsilonkl1 dkl1
                  i k z 3%float Hz Hl1 He1 Hzi Hlam) as (r & e & d & Hv).
      eexists. split; [exact Hv|].
      apply nonfinite_of_spec. apply mul_nonfinite_l, mul_nonfinite_r, mul_nonfinite_r.
      apply div_zero_nonfinite.
    + intros i k z lam Hzi Hlam Heta.
      destruct (entry_1d_in_bounds ckl_coef rho Cmol2seg l_kl1 zetax epsilonkl1 dkl1
                  i k z lam Hz Hl1 He1 Hzi Hlam) as (r & e & d & Hv).
      eexists. split; [exact Hv|]. rewrite Heta.
      apply nonfinite_of_spec. do 2 apply mul_nonfinite_l. apply correction_pole.
Qed.

(** The theorem at a one-group system with two densities: the exponent is
    3.0, and at the second packing fraction, which is above 1, the
    call returns as well. *)
Lemma calc_a1s_pole_returns_nonfinite_witness :
  (exists out,
      calc_a1s_2d (F:=float) ckl_coef_published [1; 1]%float 1%float [[3%float]]
        [0.25; 1.5]%float [[1%float]] [[1%float]] = Returns out /\
      (forall i k l, i < 2 -> entry2 [[3%float]] k l = Some 3%float ->
         exists v, entry3 out i k l = Some v /\ nonfinite v = true) /\
      (forall i k l z lam, [0.25; 1.5]%float !! i = Some z ->
         entry2 [[3%float]] k l = Some lam ->
         eta ckl_coef_published (powers4 z) lam = 1%float ->
         exists v, entry3 out i k l = Some v /\ nonfinite v = true))
  /\
  (exists out,
      calc_a1s_1d (F:=float) ckl_coef_published [1; 1]%float 1%float [3%float]
        [0.25; 1.5]%float [1%float] [1%float] = Returns out /\
      (forall i k, i < 2 -> [3%float] !! k = Some 3%float ->
         exists v, entry2 out i k = Some v /\ nonfinite v = true) /\
      (forall i k z lam, [0.25; 1.5]%float !! i = Some z ->
         [3%float] !! k = Some lam ->
         eta ckl_coef_published (powers4 z) lam = 1%float ->
         exists v, entry2 out i k = Some v /\ nonfinite v = true)).
Proof.
  apply (calc_a1s_pole_returns_nonfinite ckl_coef_published [1; 1]%float 1%float
           [0.25; 1.5]%float [[3%float]] [[1%float]] [[1%float]]
           [3%float] [1%float] [1%float]);
    first [ reflexivity | split; [reflexivity | repeat constructor] ].
Defined.

(** C1 (counterexample): no call fails.  With the exponent 3.0 both kernels
    return an array holding an infinity.  With a packing fraction of 1.0
    and the exponent 6 the result is an ordinary finite number; with the
    packing fraction 1.0045280365310121 and the exponent 50 the effective
    packing fraction is 1.0 and both kernels return an infinity; with the
    packing fraction 2^300 they return a NaN. *)
Lemma calc_a1s_pole_counterexample :
  calc_a1s_1d (F:=float) ckl_coef_published [1%float] 1%float [3%float]
    [0.25%float] [1%float] [1%float] = Returns [[neg_infinity]]
  /\ calc_a1s_2d (F:=float) ckl_coef_published [1%float] 1%float [[3%float]]
    [0.25%float] [[1%float]] [[1%float]] = Returns [[[neg_infinity]]]
  /\ (exists v,
       calc_a1s_1d (F:=float) ckl_coef_published [1%float] 1%float [6%float]
         [1%float] [1%float] [1%float] = Returns [[v]]
       /\ calc_a1s_2d (F:=float) ckl_coef_published [1%float] 1%float [[6%float]]
         [1%float] [[1%float]] [[1%float]] = Returns [[[v]]]
       /\ nonfinite v = false)
  /\ eta (F:=float) ckl_coef_published (powers4 0x1.0128bfd8d0d7ap+0%float) 50%float
     = 1%float
  /\ calc_a1s_1d (F:=float) ckl_coef_published [1%float] 1%float [50%float]
       [0x1.0128bfd8d0d7ap+0%float] [1%float] [1%float] = Returns [[neg_infinity]]
  /\ calc_a1s_2d (F:=float) ckl_coef_published [1%float] 1%float [[50%float]]
       [0x1.0128bfd8d0d7ap+0%float] [[1%float]] [[1%float]] = Returns [[[neg_infinity]]]
  /\ (exists v,
       calc_a1s_1d (F:=float) ckl_coef_published [1%float] 1%float [6%float]
         [0x1p300%float] [1%float] [1%float] = Returns [[v]]
       /\ calc_a1s_2d (F:=float) ckl_coef_published [1%float] 1%float [[6%float]]
         [0x1p300%float] [[1%float]] [[1%float]] = Returns [[[v]]]
       /\ isnan v = true).
Proof.
  split; [vm_compute; reflexivity|]. split; [vm_compute; reflexivity|].
  split; [eexists; repeat split; vm_compute; reflexivity|].
  split; [vm_compute; reflexivity|]. split; [vm_compute; reflexivity|].
  split; [vm_compute; reflexivity|].
  eexists; repeat split; vm_compute; reflexivity.
Qed.

End GammaMiePoles.

(* ================================================================== *)
(** * The kernels over the reals                                       *)
(* ================================================================== *)

Module GammaMieRealFacts.
Import PyFacts NumPyFacts GammaMie GammaMieForms GammaMieFacts GammaMieReal.
Local Open Scope R_scope.

Lemma table_4x4 (ckl : list (list R)) :
  shape2 4 4 ckl ->
  exists c00 c01 c02 c03 c10 c11 c12 c13 c20 c21 c22 c23 c30 c31 c32 c33,
    ckl = [[c00; c01; c02; c03]; [c10; c11; c12; c13];
           [c20; c21; c22; c23]; [c30; c31; c32; c33]].
Proof.
  intros [Hlen Hrows].
  destruct ckl as [|r0 [|r1 [|r2 [|r3 [|? ?]]]]]; try discriminate.
  repeat match goal with
         | H : Forall _ (_ :: _) |- _ => apply Forall_cons in H as [? H]
         end.
  cbv beta in *. clear Hlen.
  repeat match goal with
         | H : length ?r = 4%nat |- _ =>
             destruct r as [|? [|? [|? [|? [|? ?]]]]]; try discriminate; clear H
         end.
  repeat eexists.
Qed.

Lemma eta_real (ckl : list (list R)) (lam z : R) :
  shape2 4 4 ckl -> eta ckl (powers4 z) lam = eta_eff ckl lam z.
Proof.
  intros Hckl. destruct (table_4x4 ckl Hckl) as (c00 & c01 & c02 & c03 & c10 & c11 &
    c12 & c13 & c20 & c21 & c22 & c23 & c30 & c31 & c32 & c33 & ->).
  unfold eta, eta_eff, coefficient, c, powers4, matvec, dot, fsquare, fcube. simpl.
  unfold Rdiv.
  replace (lam * (lam * (lam * 1))) with (lam * lam * lam) by ring.
  replace (lam * (lam * 1)) with (lam * lam) by ring.
  ring.
Qed.

Lemma entry_2d_real (ckl : list (list R)) (r Cmol2seg lam z e d : R) :
  shape2 4 4 ckl ->
  (correction (eta ckl (powers4 z) lam) * (- f2) * fpi * Cmol2seg
   * (e * fcube d / (lam - f3)) * r)%A
  = a1s_term ckl r Cmol2seg lam z e d.
Proof.
  intros Hckl. rewrite eta_real by done.
  unfold a1s_term, correction, fcube. simpl. unfold Rdiv.
  set (x := eta_eff ckl lam z).
  replace ((1 - x) * ((1 - x) * ((1 - x) * 1))) with ((1 - x) * (1 - x) * (1 - x)) by ring.
  ring.
Qed.

Lemma entry_1d_real (ckl : list (list R)) (r Cmol2seg lam z e d : R) :
  shape2 4 4 ckl ->
  (correction (eta ckl (powers4 z) lam)
   * (- f2 * fpi * Cmol2seg * (e * fcube d / (lam - f3))) * r)%A
  = a1s_term ckl r Cmol2seg lam z e d.
Proof.
  intros Hckl. rewrite eta_real by done.
  unfold a1s_term, correction, fcube. simpl. unfold Rdiv.
  set (x := eta_eff ckl lam z).
  replace ((1 - x) * ((1 - x) * ((1 - x) * 1))) with ((1 - x) * (1 - x) * (1 - x)) by ring.
  ring.
Qed.

(** C2 (as amended): in exact real arithmetic, on arrays of the documented
    shapes, where every division of the formula is defined (the exponent
    is neither 0 nor 3 and the effective packing fraction [eta] is not 1),
    entry [[i, k, l]] of [calc_a1s_2d] (entry [[i, k]] of [calc_a1s_1d]) is
    [(1 - eta/2) / (1 - eta)^3 * (-2 pi Cmol2seg eps d^3 / (lam - 3)) * rho[i]]
    where [eta] is the polynomial of degrees 1 to 4 in [zetax[i]] whose
    coefficients are the rows of the table applied to
    [(1, 1/lam, 1/lam^2, 1/lam^3)]: the correction factor is taken at
    [eta], not at the packing fraction. *)
Theorem calc_a1s_entry_formula
    (ckl_coef : list (list R)) (rho : list R) (Cmol2seg : R) (zetax : list R)
    (l_kl2 epsilonkl2 dkl2 : list (list R)) (l_kl1 epsilonkl1 dkl1 : list R)
    (i k2 l2 k1 : nat) (r z lam2 e2 d2 lam1 e1 d1 : R) :
  shape2 4 4 ckl_coef ->
  length zetax = length rho ->
  shape2 (length dkl2) (length dkl2) l_kl2 ->
  shape2 (length dkl2) (length dkl2) epsilonkl2 ->
  shape2 (length dkl2) (length dkl2) dkl2 ->
  shape1 (length dkl1) l_kl1 ->
  shape1 (length dkl1) epsilonkl1 ->
  rho !! i = Some r -> zetax !! i = Some z ->
  entry2 l_kl2 k2 l2 = Some lam2 -> entry2 epsilonkl2 k2 l2 = Some e2 ->
  entry2 dkl2 k2 l2 = Some d2 ->
  l_kl1 !! k1 = Some lam1 -> epsilonkl1 !! k1 = Some e1 -> dkl1 !! k1 = Some d1 ->
  lam2 <> 0 -> lam2 <> 3 -> eta_eff ckl_coef lam2 z <> 1 ->
  lam1 <> 0 -> lam1 <> 3 -> eta_eff ckl_coef lam1 z <> 1 ->
  (exists out,
      calc_a1s_2d ckl_coef rho Cmol2seg l_kl2 zetax epsilonkl2 dkl2 = Returns out /\
      entry3 out i k2 l2 = Some (a1s_term ckl_coef r Cmol2seg lam2 z e2 d2))
  /\
  (exists out,
      calc_a1s_1d ckl_coef rho Cmol2seg l_kl1 zetax epsilonkl1 dkl1 = Returns out /\
      entry2 out i k1 = Some (a1s_term ckl_coef r Cmol2seg lam1 z e1 d1)).
Proof.
  intros Hckl Hz Hl2 He2 Hd2 Hl1 He1 Hr Hzi Hlam2 Hev2 Hdv2 Hlam1 Hev1 Hdv1
    _ _ _ _ _ _.
  split.
  - eexists. split; [by apply calc_a1s_2d_closed|].
    unfold entry2 in Hlam2, Hev2, Hdv2.
    destruct (l_kl2 !! k2) as [lrow|] eqn:Hlrow; [|discriminate].
    destruct (epsilonkl2 !! k2) as [erow|] eqn:Herow; [|discriminate].
    destruct (dkl2 !! k2) as [drow|] eqn:Hdrow; [|discriminate].
    cbn [mbind option_bind] in Hlam2, Hev2, Hdv2.
    rewrite <- (entry_2d_real ckl_coef) by done.
    eapply a1s_2d_array_entry; eauto.
  - eexists. split; [by apply calc_a1s_1d_closed|].
    rewrite <- (entry_1d_real ckl_coef) by done.
    eapply a1s_1d_array_entry; eauto.
Qed.

Lemma ckl_coef_published_shape : shape2 4 4 (ckl_coef_published (F:=R)).
Proof. split; [reflexivity | repeat constructor]. Qed.

Lemma eta_eff_example : eta_eff ckl_coef_published 6 (1 / 2) = 2287249 / 10800000.
Proof. unfold eta_eff, coefficient, c, ckl_coef_published. simpl. lra. Qed.

(** The theorem at a one-group system with exponent 6 and packing fraction
    1/2, where the effective packing fraction is about 0.21. *)
Lemma calc_a1s_entry_formula_witness :
  (exists out,
      calc_a1s_2d ckl_coef_published [1] 1 [[6]] [1 / 2] [[1]] [[1]] = Returns out /\
      entry3 out 0 0 0 = Some (a1s_term ckl_coef_published 1 1 6 (1 / 2) 1 1))
  /\
  (exists out,
      calc_a1s_1d ckl_coef_published [1] 1 [6] [1 / 2] [1] [1] = Returns out /\
      entry2 out 0 0 = Some (a1s_term ckl_coef_published 1 1 6 (1 / 2) 1 1)).
Proof.
  apply (calc_a1s_entry_formula ckl_coef_published [1] 1 [1 / 2]
           [[6]] [[1]] [[1]] [6] [1] [1] 0 0 0 0 1 (1 / 2) 6 1 1 6 1 1);
    first [ reflexivity
          | split; [reflexivity | repeat constructor]
          | lra
          | rewrite eta_eff_example; lra ].
Defined.

Lemma eta_degree3_example :
  eta_degree3 ckl_coef_published 6 (1 / 2) = 2287249 / 5400000.
Proof. unfold eta_degree3, coefficient, c, ckl_coef_published. simpl. lra. Qed.

(** C2 (counterexample): with the published table, exponent 6 and packing
    fraction 1/2, the value both kernels return (correction factor about
    1.83) is not the value of the specified formula, whether its correction
    factor is taken at the packing fraction (factor 6) or at a polynomial of
    degrees 0 to 3 (factor about 4.12). *)
Lemma calc_a1s_formula_counterexample :
  exists v,
    calc_a1s_1d ckl_coef_published [1] 1 [6] [1 / 2] [1] [1] = Returns [[v]] /\
    calc_a1s_2d ckl_coef_published [1] 1 [[6]] [1 / 2] [[1]] [[1]] = Returns [[[v]]] /\
    v <> a1s_as_specified 1 1 6 (1 / 2) 1 1 /\
    v <> a1s_as_specified_degree3 ckl_coef_published 1 1 6 (1 / 2) 1 1.
Proof.
  exists (a1s_term ckl_coef_published 1 1 6 (1 / 2) 1 1).
  pose proof ckl_coef_published_shape as Hckl.
  split; [|split; [|split]].
  - rewrite calc_a1s_1d_closed by reflexivity.
    rewrite <- (entry_1d_real ckl_coef_published) by done. reflexivity.
  - rewrite calc_a1s_2d_closed
      by first [reflexivity | split; [reflexivity | repeat constructor]].
    rewrite <- (entry_2d_real ckl_coef_published) by done. reflexivity.
  - unfold a1s_term, a1s_as_specified. rewrite eta_eff_example.
    intros Heq. pose proof PI_RGT_0.
    replace ((1 - 2287249 / 10800000 / 2) / (1 - 2287249 / 10800000) ^ 3)
      with (1126319638320000000000 / 616892927317185100751) in Heq by field.
    replace ((1 - 1 / 2 / 2) / (1 - 1 / 2) ^ 3) with 6 in Heq by field.
    lra.
  - unfold a1s_term, a1s_as_specified_degree3.
    rewrite eta_eff_example, eta_degree3_example.
    intros Heq. pose proof PI_RGT_0.
    replace ((1 - 2287249 / 10800000 / 2) / (1 - 2287249 / 10800000) ^ 3)
      with (1126319638320000000000 / 616892927317185100751) in Heq by field.
    replace ((1 - 2287249 / 5400000 / 2) / (1 - 2287249 / 5400000) ^ 3)
      with (124115909580000000000 / 30160125471568900751) in Heq by field.
    lra.
Qed.

Lemma fmap_zip_with_pointwise {A B C D} (g : A -> B -> D) (g' : A -> B -> C)
    (h : C -> D) (l : list A) (k : list B) :
  (forall a b, g a b = h (g' a b)) ->
  zip_with g l k = map h (zip_with g' l k).
Proof.
  intros Hg. revert k. induction l as [|a l IH]; intros [|b k]; simpl; [done..|].
  by rewrite Hg, IH.
Qed.

(** C5 (as amended): in exact real arithmetic, for a system with one group
    whose exponent is neither 0 nor 3 and whose effective packing
    fractions are not 1, [calc_a1s_2d] on the 1 by 1 matrices returns, at
    every density, the 1 by 1 matrix holding the value that [calc_a1s_1d]
    returns on the singleton vectors. *)
Theorem calc_a1s_2d_one_group
    (ckl_coef : list (list R)) (rho : list R) (Cmol2seg : R) (zetax : list R)
    (lam e d : R) :
  length zetax = length rho ->
  lam <> 0 -> lam <> 3 ->
  Forall (fun z => eta_eff ckl_coef lam z <> 1) zetax ->
  calc_a1s_2d ckl_coef rho Cmol2seg [[lam]] zetax [[e]] [[d]]
  = map (map (fun x => [x])) <$> calc_a1s_1d ckl_coef rho Cmol2seg [lam] zetax [e] [d].
Proof.
  intros Hz _ _ _.
  rewrite calc_a1s_2d_closed
    by first [done | split; [reflexivity | repeat constructor]].
  rewrite calc_a1s_1d_closed by done.
  cbn [fmap outcome_fmap]. f_equal.
  unfold a1s_2d_array, a1s_1d_array, rhs_2d, rhs_1d.
  apply fmap_zip_with_pointwise. intros z r.
  cbn [map zip_with]. do 2 f_equal. simpl. ring.
Qed.

(** The theorem at two densities. *)
Lemma calc_a1s_2d_one_group_witness :
  calc_a1s_2d ckl_coef_published [1; 2] 1 [[6]] [1 / 2; 1 / 2] [[1]] [[1]]
  = map (map (fun x => [x]))
      <$> calc_a1s_1d ckl_coef_published [1; 2] 1 [6] [1 / 2; 1 / 2] [1] [1].
Proof.
  apply (calc_a1s_2d_one_group ckl_coef_published [1; 2] 1 [1 / 2; 1 / 2] 6 1 1);
    [reflexivity | lra | lra | repeat constructor; rewrite eta_eff_example; lra].
Defined.

(** C5 (counterexample): in binary64 the two kernels differ.  Line 59
    multiplies the correction factor by -2, by pi and by [Cmol2seg] before
    the group factor, line 100 multiplies the group factor in first.  With
    [Cmol2seg = 2^1021] and a well depth of [2^-30] the product of line 59
    overflows and [calc_a1s_2d] returns minus infinity, where
    [calc_a1s_1d] returns a finite number. *)
Lemma calc_a1s_one_group_counterexample :
  calc_a1s_2d (F:=float) ckl_coef_published [1%float] 0x1p1021%float [[6%float]]
    [0.5%float] [[0x1p-30%float]] [[1%float]] = Returns [[[neg_infinity]]]
  /\ exists v,
       calc_a1s_1d (F:=float) ckl_coef_published [1%float] 0x1p1021%float [6%float]
         [0.5%float] [0x1p-30%float] [1%float] = Returns [[v]]
       /\ nonfinite v = false.
Proof.
  split; [vm_compute; reflexivity|]. eexists. split; vm_compute; reflexivity.
Qed.

End GammaMieRealFacts.

(* ================================================================== *)
(** * The TLVE data class                                              *)
(* ================================================================== *)

Module TLVEFacts.
Import PyFacts TLVE TLVEForms TLVEExamples.

(** ** The four loading blocks *)

Lemma load_xi_returns dd td w st :
  load_xi dd (td, w) = Returns st ->
  st = (store "xi" "xilist" dd td, renamed "xi" "xilist" dd w).
Proof.
  unfold load_xi, store, renamed.
  destruct (dd !! "xi") as [v|]; [destruct (w !! "xi") as [x|]|].
  - intros H. by apply bind_returns in H as ([] & _ & [= <-]).
  - by intros [= <-].
  - by intros [= <-].
Qed.

Lemma load_T_returns dd td w st :
  load_T dd (td, w) = Returns st ->
  st = (store "T" "Tlist" dd td, renamed "T" "Tlist" dd w).
Proof.
  unfold load_T, store, renamed.
  destruct (dd !! "T") as [v|]; [destruct (w !! "T") as [x|]|]; by intros [= <-].
Qed.

Lemma load_yi_returns dd td w st :
  load_yi dd (td, w) = Returns st ->
  st = (store "yi" "yilist" dd td, renamed "yi" "yilist" dd w).
Proof.
  unfold load_yi, store, renamed.
  destruct (dd !! "yi") as [v|]; [destruct (w !! "yi") as [x|]|].
  - intros H. by apply bind_returns in H as ([] & _ & [= <-]).
  - by intros [= <-].
  - by intros [= <-].
Qed.

Lemma load_P_returns dd td w st :
  load_P dd (td, w) = Returns st ->
  st = (store_P dd td, renamed "P" "Plist" dd w).
Proof.
  unfold load_P, store_P, renamed.
  destruct (dd !! "P") as [v|]; [destruct (w !! "P") as [x|]|].
  - intros H. by apply bind_returns in H as ([] & _ & [= <-]).
  - by intros [= <-].
  - by intros [= <-].
Qed.

(** Lines 56-58: whatever the parent left in [thermodict], the entry
    [density_dict] is a fresh empty dict, updated with itself. *)
Lemma density_dict_reset (td : gmap string pyval) :
  (if bool_decide (is_Some (<["density_dict" := PDict ∅]> td !! "density_dict")) then
     d ← getitem (<["density_dict" := PDict ∅]> td) "density_dict";
     d' ← dict_update d d;
     Returns (<["density_dict" := d']> (<["density_dict" := PDict ∅]> td))
   else Returns (<["density_dict" := PDict ∅]> td))
  = Returns (<["density_dict" := PDict ∅]> td).
Proof.
  rewrite bool_decide_true by (rewrite lookup_insert_eq; eauto).
  unfold getitem. rewrite lookup_insert_eq. cbn [mbind outcome_bind dict_update].
  rewrite insert_insert_eq. by rewrite (left_id_L ∅ (∪)).
Qed.

Section init.
Variable ExpDataTemplate_init : gmap string pyval -> outcome Data.

(** A successful construction, stage by stage. *)
Lemma Data_init_returns dd obj :
  __init__ ExpDataTemplate_init dd = Returns obj ->
  exists self n td,
    ExpDataTemplate_init dd = Returns self /\
    required_fields (loaded_thermodict dd (thermodict self)) = Returns () /\
    check_lengths (loaded_thermodict dd (thermodict self)) = Returns n /\
    infer_calculation_type (loaded_thermodict dd (thermodict self)) = Returns td /\
    obj = {| name := name self; eos := eos self; obj_opts := obj_opts self;
             thermodict := td;
             weights := default_weights td (loaded_weights dd (weights self));
             npoints := PInt (Z.of_nat n) |}.
Proof.
  unfold __init__. intros H.
  apply bind_returns in H as (self & Hself & H).
  rewrite density_dict_reset in H. cbn [mbind outcome_bind] in H.
  apply bind_returns in H as (st1 & H1 & H). apply load_xi_returns in H1 as ->.
  apply bind_returns in H as (st2 & H2 & H). apply load_T_returns in H2 as ->.
  apply bind_returns in H as (st3 & H3 & H). apply load_yi_returns in H3 as ->.
  apply bind_returns in H as ([td w] & H4 & H). apply load_P_returns in H4 as [= -> ->].
  apply bind_returns in H as ([] & Hreq & H).
  apply bind_returns in H as (n & Hlen & H).
  apply bind_returns in H as (td & Hct & [= <-]).
  exists self, n, td. auto.
Qed.

End init.

(** ** What the loading blocks leave untouched *)

Lemma store_lookup_ne short long dd td k :
  k <> long -> store short long dd td !! k = td !! k.
Proof. intros Hk. unfold store. destruct (dd !! short); [|done]. by rewrite lookup_insert_ne. Qed.

Lemma store_P_lookup_ne dd td k :
  k <> "Plist" -> k <> "Pguess" -> store_P dd td !! k = td !! k.
Proof.
  intros Hk1 Hk2. unfold store_P. destruct (dd !! "P"); [|done].
  by rewrite !lookup_insert_ne.
Qed.

Lemma infer_calculation_type_lookup_ne td td' k :
  infer_calculation_type td = Returns td' ->
  k <> "calculation_type" -> td' !! k = td !! k.
Proof.
  unfold infer_calculation_type. intros H Hk.
  apply bind_returns in H as (ct & _ & H).
  destruct (is_None ct); [|by injection H as <-].
  apply bind_returns in H as (xi & _ & H).
  destruct (py_truth xi); [injection H as <-; by rewrite lookup_insert_ne|].
  apply bind_returns in H as (yi & _ & H).
  destruct (py_truth yi); [injection H as <-; by rewrite lookup_insert_ne|discriminate].
Qed.

Lemma loaded_thermodict_density_dict dd td :
  loaded_thermodict dd td !! "density_dict" = Some (PDict ∅).
Proof.
  unfold loaded_thermodict.
  rewrite store_P_lookup_ne, !store_lookup_ne by done.
  apply lookup_insert_eq.
Qed.

(** C8 (what the code does): whatever the input and the parent constructor
    supply, the [density_dict] of a constructed dataset is the empty dict:
    supplied options are discarded and no default is filled in. *)
Theorem density_dict_is_emptied
    (ExpDataTemplate_init : gmap string pyval -> outcome Data)
    (data_dict : gmap string pyval) (obj : Data) :
  __init__ ExpDataTemplate_init data_dict = Returns obj ->
  thermodict obj !! "density_dict" = Some (PDict ∅).
Proof.
  intros H. apply Data_init_returns in H as (self & n & td & _ & _ & _ & Hct & ->).
  cbn [thermodict].
  rewrite (infer_calculation_type_lookup_ne _ _ _ Hct) by done.
  apply loaded_thermodict_density_dict.
Qed.

(** The theorem at an input that supplies [rhoinc = 5.0]. *)
Lemma density_dict_is_emptied_witness :
  with_density_dict !! "density_dict" = Some (PDict {[ "rhoinc" := PFloat 5 ]}) /\
  exists obj,
    __init__ ExpDataTemplate_init_documented with_density_dict = Returns obj /\
    thermodict obj !! "density_dict" = Some (PDict ∅).
Proof.
  split; [reflexivity|].
  assert (exists obj,
    __init__ ExpDataTemplate_init_documented with_density_dict = Returns obj)
    as [obj Hobj] by (eexists; vm_compute; reflexivity).
  exists obj. split; [exact Hobj|].
  exact (density_dict_is_emptied _ _ _ Hobj).
Defined.

(** ** The entries loaded from the input *)

Lemma required_fields_returns td :
  required_fields td = Returns () ->
  (is_Some (td !! "Plist") \/ is_Some (td !! "Tlist")) /\
  is_Some (td !! "xilist") /\ is_Some (td !! "yilist").
Proof.
  unfold required_fields.
  destruct (td !! "Plist"), (td !! "Tlist"), (td !! "xilist"), (td !! "yilist");
    cbn; intros H; try discriminate H; eauto.
Qed.

Lemma loaded_thermodict_calculation_type dd td :
  loaded_thermodict dd td !! "calculation_type" = td !! "calculation_type".
Proof.
  unfold loaded_thermodict.
  rewrite store_P_lookup_ne, !store_lookup_ne by done.
  by rewrite lookup_insert_ne.
Qed.

Lemma loaded_thermodict_xilist dd td v :
  dd !! "xi" = Some v -> loaded_thermodict dd td !! "xilist" = Some v.
Proof.
  intros Hv. unfold loaded_thermodict.
  rewrite store_P_lookup_ne, !(store_lookup_ne _ _ _ _ "xilist") by done.
  unfold store at 1. rewrite Hv. apply lookup_insert_eq.
Qed.

Lemma loaded_thermodict_yilist dd td v :
  dd !! "yi" = Some v -> loaded_thermodict dd td !! "yilist" = Some v.
Proof.
  intros Hv. unfold loaded_thermodict.
  rewrite store_P_lookup_ne by done.
  unfold store at 1. rewrite Hv. apply lookup_insert_eq.
Qed.

(** C9: a dataset constructed with [calculation_type] equal to [None] ends
    with [calculation_type] equal to ["phase_xiT"] when its [xi] list is
    non-empty, and to ["phase_yiT"] only when [xi] is empty and [yi] is
    not; these are the only two outcomes, so it is never left as [None]. *)
Theorem calculation_type_inferred
    (ExpDataTemplate_init : gmap string pyval -> outcome Data)
    (data_dict : gmap string pyval) (self obj : Data) :
  ExpDataTemplate_init data_dict = Returns self ->
  thermodict self !! "calculation_type" = Some PNone ->
  __init__ ExpDataTemplate_init data_dict = Returns obj ->
  exists xilist yilist,
    thermodict obj !! "xilist" = Some xilist /\
    thermodict obj !! "yilist" = Some yilist /\
    (forall v, data_dict !! "xi" = Some v -> xilist = v) /\
    (forall v, data_dict !! "yi" = Some v -> yilist = v) /\
    ((py_truth xilist = true /\
      thermodict obj !! "calculation_type" = Some (PStr "phase_xiT"))
     \/
     (py_truth xilist = false /\ py_truth yilist = true /\
      thermodict obj !! "calculation_type" = Some (PStr "phase_yiT"))).
Proof.
  intros Hself Hnone H.
  apply Data_init_returns in H as (self' & n & td & Hself' & Hreq & _ & Hct & ->).
  assert (self' = self) as -> by congruence.
  cbn [thermodict].
  set (td0 := loaded_thermodict data_dict (thermodict self)) in *.
  assert (td0 !! "calculation_type" = Some PNone) as Hct0
    by (unfold td0; by rewrite loaded_thermodict_calculation_type).
  apply required_fields_returns in Hreq as (_ & [xilist Hxi] & [yilist Hyi]).
  exists xilist, yilist.
  assert (forall v, data_dict !! "xi" = Some v -> xilist = v) as Hxv.
  { intros v Hv. pose proof (loaded_thermodict_xilist _ (thermodict self) _ Hv).
    unfold td0 in Hxi. congruence. }
  assert (forall v, data_dict !! "yi" = Some v -> yilist = v) as Hyv.
  { intros v Hv. pose proof (loaded_thermodict_yilist _ (thermodict self) _ Hv).
    unfold td0 in Hyi. congruence. }
  unfold infer_calculation_type, getitem in Hct.
  rewrite Hct0, Hxi, Hyi in Hct. cbn in Hct.
  destruct (py_truth xilist) eqn:Htx.
  - injection Hct as <-. rewrite !lookup_insert_ne by done.
    rewrite lookup_insert_eq. by eauto 10.
  - destruct (py_truth yilist) eqn:Hty; [|discriminate].
    injection Hct as <-. rewrite !lookup_insert_ne by done.
    rewrite lookup_insert_eq. by eauto 10.
Qed.

(** The theorem at a dataset of two points that names no calculation
    type. *)
Lemma calculation_type_inferred_witness :
  exists obj,
    __init__ ExpDataTemplate_init_documented (list_to_map two_points) = Returns obj /\
    thermodict obj !! "calculation_type" = Some (PStr "phase_xiT") /\
    exists xilist yilist,
      thermodict obj !! "xilist" = Some xilist /\
      thermodict obj !! "yilist" = Some yilist /\
      (forall v, (list_to_map two_points : gmap string pyval) !! "xi" = Some v
                 -> xilist = v) /\
      (forall v, (list_to_map two_points : gmap string pyval) !! "yi" = Some v
                 -> yilist = v) /\
      ((py_truth xilist = true /\
        thermodict obj !! "calculation_type" = Some (PStr "phase_xiT"))
       \/
       (py_truth xilist = false /\ py_truth yilist = true /\
        thermodict obj !! "calculation_type" = Some (PStr "phase_yiT"))).
Proof.
  assert (exists obj,
    __init__ ExpDataTemplate_init_documented (list_to_map two_points) = Returns obj /\
    thermodict obj !! "calculation_type" = Some (PStr "phase_xiT"))
    as (obj & Hobj & Hct) by (eexists; split; vm_compute; reflexivity).
  exists obj. split; [exact Hobj|]. split; [exact Hct|].
  apply (calculation_type_inferred ExpDataTemplate_init_documented
           (list_to_map two_points) _ obj eq_refl); [reflexivity | exact Hobj].
Defined.

(** ** Weights *)

Lemma header_short key h : header key = Some h -> h ∈ ["xi"; "T"; "yi"; "P"].
Proof.
  unfold header. repeat case_bool_decide; intros [= <-]; compute_done.
Qed.

Lemma renamed_not_supplied short long dd w key :
  header long = Some short ->
  long ∉ ["xi"; "T"; "yi"; "P"] ->
  ~ supplied w key -> ~ supplied (renamed short long dd w) key.
Proof.
  intros Hlong Hnot Hw. unfold renamed.
  destruct (dd !! short) as [?|]; [|done].
  destruct (w !! short) as [x|] eqn:Hx; [|done].
  unfold pop_into. intros [Hk | (h & Hh & Hk)].
  - destruct (decide (key = long)) as [->|Hne].
    + apply Hw. right. exists short. split; [done|]. rewrite Hx. eauto.
    + rewrite lookup_insert_ne in Hk by done.
      apply Hw. left. destruct Hk as [v Hv].
      apply lookup_delete_Some in Hv as [_ Hv]. eauto.
  - assert (h <> long) as Hne
      by (intros ->; apply Hnot; eapply header_short; eauto).
    rewrite lookup_insert_ne in Hk by done.
    apply Hw. right. exists h. split; [done|]. destruct Hk as [v Hv].
    apply lookup_delete_Some in Hv as [_ Hv]. eauto.
Qed.

Lemma loaded_weights_not_supplied dd w key :
  ~ supplied w key -> loaded_weights dd w !! key = None.
Proof.
  intros Hw. unfold loaded_weights.
  assert (~ supplied
            (renamed "P" "Plist" dd
               (renamed "yi" "yilist" dd
                  (renamed "T" "Tlist" dd (renamed "xi" "xilist" dd w)))) key) as H.
  { repeat (apply renamed_not_supplied; [reflexivity | compute_done |]). exact Hw. }
  apply eq_None_not_Some. intros Hk. apply H. by left.
Qed.

Lemma default_weights_step_keeps keys (w : gmap string pyval) key v :
  w !! key = Some v ->
  foldl (fun weights key =>
           if bool_decide (weights !! key = None) && negb (bool_decide (key ∈ unweighted))
           then <[key := PFloat 1]> weights
           else weights) w keys !! key = Some v.
Proof.
  revert w. induction keys as [|k keys IH]; intros w Hw; simpl; [done|].
  apply IH. destruct (_ && _) eqn:Hc; [|done].
  destruct (decide (k = key)) as [->|Hne]; [|by rewrite lookup_insert_ne].
  apply andb_true_iff in Hc as [Hc _]. apply bool_decide_eq_true in Hc. congruence.
Qed.

Lemma default_weights_step_fills keys (w : gmap string pyval) key :
  w !! key = None -> key ∈ keys -> key ∉ unweighted ->
  foldl (fun weights key =>
           if bool_decide (weights !! key = None) && negb (bool_decide (key ∈ unweighted))
           then <[key := PFloat 1]> weights
           else weights) w keys !! key = Some (PFloat 1).
Proof.
  revert w. induction keys as [|k keys IH]; intros w Hw Hin Hun; simpl.
  - by apply elem_of_nil in Hin.
  - destruct (decide (key = k)) as [<-|Hne].
    + apply default_weights_step_keeps.
      rewrite bool_decide_true by done. rewrite bool_decide_false by done.
      cbn. apply lookup_insert_eq.
    + apply IH; [|by apply elem_of_cons in Hin as [?|?]|done].
      destruct (_ && _); [by rewrite lookup_insert_ne|done].
Qed.

Lemma default_weights_keeps td w key v :
  w !! key = Some v -> default_weights td w !! key = Some v.
Proof. apply default_weights_step_keeps. Qed.

Lemma default_weights_fills td w key :
  w !! key = None -> is_Some (td !! key) -> key ∉ unweighted ->
  default_weights td w !! key = Some (PFloat 1).
Proof.
  intros Hw [v Hv] Hun. apply default_weights_step_fills; [done| |done].
  apply list_elem_of_fmap. exists (key, v). split; [done|].
  by apply elem_of_map_to_list.
Qed.

(** C10: after a successful construction every key of [thermodict] other
    than [calculation_type], [density_dict] and [mpObj] has a weight, and
    the weight is 1.0 for every key the user supplied no weight for. *)
Theorem default_weights_cover
    (ExpDataTemplate_init : gmap string pyval -> outcome Data)
    (data_dict : gmap string pyval) (self obj : Data) (key : string) :
  ExpDataTemplate_init data_dict = Returns self ->
  __init__ ExpDataTemplate_init data_dict = Returns obj ->
  is_Some (thermodict obj !! key) ->
  key ∉ unweighted ->
  is_Some (weights obj !! key) /\
  (~ supplied (weights self) key -> weights obj !! key = Some (PFloat 1)).
Proof.
  intros Hself H Hkey Hun.
  apply Data_init_returns in H as (self' & n & td & Hself' & _ & _ & _ & ->).
  assert (self' = self) as -> by congruence.
  cbn [thermodict weights] in *. split.
  - destruct (loaded_weights data_dict (weights self) !! key) as [v|] eqn:Hw.
    + erewrite default_weights_keeps; eauto.
    + rewrite default_weights_fills; eauto.
  - intros Hns. apply default_weights_fills; [|done..].
    by apply loaded_weights_not_supplied.
Qed.

(** The theorem at the key [Tlist] of a dataset that supplies no weights. *)
Lemma default_weights_cover_witness :
  exists obj,
    __init__ ExpDataTemplate_init_documented (list_to_map two_points) = Returns obj /\
    is_Some (weights obj !! "Tlist") /\
    (~ supplied ∅ "Tlist" -> weights obj !! "Tlist" = Some (PFloat 1)).
Proof.
  assert (exists obj,
    __init__ ExpDataTemplate_init_documented (list_to_map two_points) = Returns obj /\
    is_Some (thermodict obj !! "Tlist"))
    as (obj & Hobj & HT) by (eexists; split; [vm_compute; reflexivity | vm_compute; eauto]).
  exists obj. split; [exact Hobj|].
  apply (default_weights_cover ExpDataTemplate_init_documented
           (list_to_map two_points) _ obj "Tlist" eq_refl Hobj HT).
  compute_done.
Defined.

(** ** Required fields and lengths *)

Lemma loaded_thermodict_absent short long dd td :
  (short, long) ∈ [("xi", "xilist"); ("T", "Tlist"); ("yi", "yilist")] ->
  dd !! short = None -> td !! long = None ->
  loaded_thermodict dd td !! long = None.
Proof.
  intros Hin Hdd Htd. unfold loaded_thermodict.
  repeat (apply elem_of_cons in Hin as [[= -> ->]|Hin]);
    [| | |by apply elem_of_nil in Hin].
  - rewrite store_P_lookup_ne, !(store_lookup_ne _ _ _ _ "xilist") by done.
    unfold store. rewrite Hdd. by rewrite lookup_insert_ne.
  - rewrite store_P_lookup_ne, (store_lookup_ne _ _ _ _ "Tlist") by done.
    unfold store at 1. rewrite Hdd. rewrite store_lookup_ne by done.
    by rewrite lookup_insert_ne.
  - rewrite store_P_lookup_ne by done.
    unfold store at 1. rewrite Hdd. rewrite !store_lookup_ne by done.
    by rewrite lookup_insert_ne.
Qed.

Lemma check_lengths_returns td n :
  check_lengths td = Returns n ->
  exists Tlist, td !! "Tlist" = Some Tlist /\ py_len Tlist = Returns n /\
    forall key v, key ∈ ["Plist"; "xilist"; "yilist"] ->
      td !! key = Some v -> py_len v = Returns n.
Proof.
  unfold check_lengths, getitem. intros H.
  destruct (td !! "Tlist") as [Tlist|]; [|discriminate]. cbn in H.
  apply bind_returns in H as (m & Hm & H).
  apply bind_returns in H as ([] & H & [= <-]).
  exists Tlist. do 2 (split; [done|]). intros key v Hkey Hv.
  cbn [for_each] in H.
  assert (forall k (rest : unit -> outcome unit),
            (match td !! k with
             | None => Returns ()
             | Some v => n ← py_len v;
                 if decide (n ≠ m)
                 then Raises (ValueError "T, P, yi, and xi are not all the same length.")
                 else Returns ()
             end ≫= rest) = Returns () ->
            (forall v, td !! k = Some v -> py_len v = Returns m) /\ rest () = Returns ())
    as Hstep.
  { intros k rest Hk. destruct (td !! k) as [u|]; [|by split].
    destruct (py_len u) as [p|] eqn:Hp; [|discriminate]. cbn in Hk.
    destruct (decide (p ≠ m)) as [|Heq]; [discriminate|].
    split; [|done]. intros ? [= <-]. rewrite Hp. f_equal.
    by apply dec_stable in Heq. }
  apply Hstep in H as [HP H]. apply Hstep in H as [Hxi H]. apply Hstep in H as [Hyi _].
  repeat (apply elem_of_cons in Hkey as [->|Hkey]); eauto.
  by apply elem_of_nil in Hkey.
Qed.

(** C7 (as amended): when the parent constructor leaves no point arrays in
    [thermodict], a construction succeeds only if the input provides [T],
    [xi] and [yi]; an input without [T] (with or without [P]), or without
    [xi] or [yi], makes the constructor raise. *)
Theorem construction_requires_T_xi_yi
    (ExpDataTemplate_init : gmap string pyval -> outcome Data)
    (data_dict : gmap string pyval) (self obj : Data) :
  ExpDataTemplate_init data_dict = Returns self ->
  thermodict self !! "Tlist" = None ->
  thermodict self !! "xilist" = None ->
  thermodict self !! "yilist" = None ->
  __init__ ExpDataTemplate_init data_dict = Returns obj ->
  is_Some (data_dict !! "T") /\ is_Some (data_dict !! "xi") /\
  is_Some (data_dict !! "yi").
Proof.
  intros Hself HT Hxi Hyi H.
  apply Data_init_returns in H as (self' & n & td & Hself' & Hreq & Hlen & _ & _).
  assert (self' = self) as -> by congruence.
  apply required_fields_returns in Hreq as (_ & Hx & Hy).
  apply check_lengths_returns in Hlen as (Tlist & Ht & _).
  repeat split; apply not_eq_None_Some; intros Hnone.
  - rewrite (loaded_thermodict_absent "T" "Tlist") in Ht
      by first [done | compute_done]. discriminate.
  - rewrite (loaded_thermodict_absent "xi" "xilist") in Hx
      by first [done | compute_done]. by destruct Hx.
  - rewrite (loaded_thermodict_absent "yi" "yilist") in Hy
      by first [done | compute_done]. by destruct Hy.
Qed.

(** The theorem at a dataset of two points. *)
Lemma construction_requires_T_xi_yi_witness :
  exists obj,
    __init__ ExpDataTemplate_init_documented (list_to_map two_points) = Returns obj /\
    is_Some ((list_to_map two_points : gmap string pyval) !! "T") /\
    is_Some ((list_to_map two_points : gmap string pyval) !! "xi") /\
    is_Some ((list_to_map two_points : gmap string pyval) !! "yi").
Proof.
  assert (exists obj,
    __init__ ExpDataTemplate_init_documented (list_to_map two_points) = Returns obj)
    as [obj Hobj] by (eexists; vm_compute; reflexivity).
  exists obj. split; [exact Hobj|].
  exact (construction_requires_T_xi_yi ExpDataTemplate_init_documented
           (list_to_map two_points) _ obj eq_refl eq_refl eq_refl eq_refl Hobj).
Defined.

(** C7 (counterexample): an input that provides [T], [xi] and [yi] (so at
    least one of [P], [T] and both of [xi], [yi]) is rejected when [yi] has
    one point too few, and an input that provides [P], [xi] and [yi] but no
    [T] is rejected by the read of [thermodict["Tlist"]]: the requirement
    does not decide whether the construction succeeds. *)
Lemma construction_requirement_counterexample :
  (is_Some (with_short_yi !! "T") /\ is_Some (with_short_yi !! "xi") /\
   is_Some (with_short_yi !! "yi") /\
   __init__ ExpDataTemplate_init_documented with_short_yi
   = Raises (ValueError "T, P, yi, and xi are not all the same length."))
  /\
  (is_Some (without_T !! "P") /\ is_Some (without_T !! "xi") /\
   is_Some (without_T !! "yi") /\
   __init__ ExpDataTemplate_init_documented without_T = Raises (KeyError "Tlist")).
Proof.
  repeat split; first [vm_compute; reflexivity | vm_compute; eauto].
Qed.

(** ** The weight lists that are checked *)

Lemma check_weights_length_returns key td w x :
  check_weights_length key td w = Returns () ->
  w !! key = Some x -> is_float x = false ->
  exists n v, td !! key = Some v /\ py_len x = Returns n /\ py_len v = Returns n.
Proof.
  unfold check_weights_length, getitem. intros H Hx Hf. rewrite Hx, Hf in H.
  destruct (py_len x) as [n|]; [|discriminate].
  destruct (td !! key) as [v|]; [|discriminate]. cbn in H.
  destruct (py_len v) as [m|] eqn:Hm; [|discriminate]. cbn in H.
  destruct (decide (n ≠ m)) as [|Heq]; [discriminate|].
  apply dec_stable in Heq. subst m. by eexists _, _.
Qed.

Lemma load_xi_checked dd td w st v x :
  load_xi dd (td, w) = Returns st ->
  dd !! "xi" = Some v -> w !! "xi" = Some x -> is_float x = false ->
  exists n, py_len x = Returns n /\ py_len v = Returns n.
Proof.
  unfold load_xi. intros H Hv Hx Hf. rewrite Hv, Hx in H.
  apply bind_returns in H as ([] & Hc & _).
  eapply check_weights_length_returns in Hc as (n & v' & Hv' & ? & ?);
    [|apply lookup_insert_eq|done].
  rewrite lookup_insert_eq in Hv'. injection Hv' as <-. eauto.
Qed.

Lemma load_yi_checked dd td w st v x :
  load_yi dd (td, w) = Returns st ->
  dd !! "yi" = Some v -> w !! "yi" = Some x -> is_float x = false ->
  exists n, py_len x = Returns n /\ py_len v = Returns n.
Proof.
  unfold load_yi. intros H Hv Hx Hf. rewrite Hv, Hx in H.
  apply bind_returns in H as ([] & Hc & _).
  eapply check_weights_length_returns in Hc as (n & v' & Hv' & ? & ?);
    [|apply lookup_insert_eq|done].
  rewrite lookup_insert_eq in Hv'. injection Hv' as <-. eauto.
Qed.

Lemma load_P_checked dd td w st v x :
  load_P dd (td, w) = Returns st ->
  dd !! "P" = Some v -> w !! "P" = Some x -> is_float x = false ->
  exists n, py_len x = Returns n /\ py_len v = Returns n.
Proof.
  unfold load_P. intros H Hv Hx Hf. rewrite Hv, Hx in H.
  apply bind_returns in H as ([] & Hc & _).
  eapply check_weights_length_returns in Hc as (n & v' & Hv' & ? & ?);
    [|apply lookup_insert_eq|done].
  rewrite lookup_insert_ne, lookup_insert_eq in Hv' by done.
  injection Hv' as <-. eauto.
Qed.

Lemma renamed_lookup_ne short long dd w key :
  key <> short -> key <> long -> renamed short long dd w !! key = w !! key.
Proof.
  intros Hs Hl. unfold renamed, pop_into.
  destruct (dd !! short); [|done]. destruct (w !! short); [|done].
  rewrite lookup_insert_ne by done. by rewrite lookup_delete_ne.
Qed.

(** What the constructor does check: a weight list supplied under the
    header [xi], [yi] or [P] has the length of the data under that
    header. *)
Lemma checked_weights_same_length
    (ExpDataTemplate_init : gmap string pyval -> outcome Data)
    (data_dict : gmap string pyval) (self obj : Data) (short : string) (v x : pyval) :
  ExpDataTemplate_init data_dict = Returns self ->
  __init__ ExpDataTemplate_init data_dict = Returns obj ->
  short ∈ ["xi"; "yi"; "P"] ->
  data_dict !! short = Some v -> weights self !! short = Some x ->
  is_float x = false ->
  exists n, py_len x = Returns n /\ py_len v = Returns n.
Proof.
  intros Hself H Hshort Hv Hx Hf. unfold __init__ in H. rewrite Hself in H.
  cbn [mbind outcome_bind] in H.
  rewrite density_dict_reset in H. cbn [mbind outcome_bind] in H.
  apply bind_returns in H as (st1 & H1 & H).
  pose proof (load_xi_returns _ _ _ _ H1) as ->.
  apply bind_returns in H as (st2 & H2 & H).
  pose proof (load_T_returns _ _ _ _ H2) as ->.
  apply bind_returns in H as (st3 & H3 & H).
  pose proof (load_yi_returns _ _ _ _ H3) as ->.
  apply bind_returns in H as (st4 & H4 & _).
  repeat (apply elem_of_cons in Hshort as [->|Hshort]);
    [| | |by apply elem_of_nil in Hshort].
  - eapply load_xi_checked; eauto.
  - eapply load_yi_checked; eauto.
    by rewrite !renamed_lookup_ne.
  - eapply load_P_checked; eauto.
    by rewrite !renamed_lookup_ne.
Qed.

(** C6 (the failing input): two temperatures with a weight list of one
    entry for [T]: the constructor accepts the dataset and stores the
    weight list under [Tlist]. *)
Lemma T_weights_length_unchecked :
  exists obj,
    __init__ ExpDataTemplate_init_documented with_short_T_weights = Returns obj /\
    thermodict obj !! "Tlist" = Some (floats [300; 310]%float) /\
    weights obj !! "Tlist" = Some (floats [1%float]).
Proof. eexists. repeat split; vm_compute; reflexivity. Qed.

(** What the constructor does check: the point arrays of a constructed
    dataset all have the length of [Tlist], which is [npoints]. *)
Lemma point_arrays_same_length
    (ExpDataTemplate_init : gmap string pyval -> outcome Data)
    (data_dict : gmap string pyval) (obj : Data) :
  __init__ ExpDataTemplate_init data_dict = Returns obj ->
  exists n, npoints obj = PInt (Z.of_nat n) /\
    forall key v, key ∈ ["Tlist"; "Plist"; "xilist"; "yilist"] ->
      thermodict obj !! key = Some v -> py_len v = Returns n.
Proof.
  intros H. apply Data_init_returns in H as (self & n & td & _ & _ & Hlen & Hct & ->).
  exists n. split; [done|]. cbn [thermodict]. intros key v Hkey Hv.
  apply check_lengths_returns in Hlen as (Tlist & Ht & Hn & Hrest).
  rewrite (infer_calculation_type_lookup_ne _ _ _ Hct) in Hv
    by (intros ->; revert Hkey; compute_done).
  apply elem_of_cons in Hkey as [->|Hkey]; [congruence|]. eauto.
Qed.

End TLVEFacts.

(* ================================================================== *)
(** * The objective of a TLVE dataset                                  *)
(* ================================================================== *)

Module ObjectiveFacts.
Import PyFacts TLVE TLVEForms TLVEExamples.

Section objective.
Variable thermo : pyval -> gmap string pyval -> outcome (gmap string pyval).
Variable reformat_ouput : list pyval -> outcome (pyval * pyval).
Variable np_transpose : pyval -> outcome (list pyval).
Variable obj_function_form : pyval -> pyval -> pyval -> gmap string pyval -> outcome float.

Lemma thermo_wrapper_failure (self : Data) (ct : pyval) (e : exn) :
  thermodict self !! "calculation_type" = Some ct ->
  is_str ct "phase_xiT" || is_str ct "phase_yiT" = true ->
  thermo (eos self) (thermodict self) = Raises e ->
  _thermo_wrapper thermo self
  = Raises (ValueError (if is_str ct "phase_xiT"
                        then "Calculation of calc_xT_phase failed"
                        else "Calculation of calc_yT_phase failed")).
Proof.
  intros Hct Hmode He. unfold _thermo_wrapper, getitem. rewrite Hct.
  cbn [mbind outcome_bind]. rewrite He.
  destruct (is_str ct "phase_xiT"); [reflexivity|].
  cbn in Hmode. rewrite Hmode. reflexivity.
Qed.

Lemma objective_channels_length (self : Data) (obj_value : list float) :
  objective_channels thermo reformat_ouput np_transpose obj_function_form self
  = Returns obj_value ->
  length obj_value = 2.
Proof.
  unfold objective_channels. intros H.
  apply bind_returns in H as (pl & _ & H).
  apply bind_returns in H as ([pl' lc] & _ & H).
  apply bind_returns in H as (rows & _ & H).
  apply bind_returns in H as (pressure & _ & H).
  apply bind_returns in H as (ct & _ & H).
  apply bind_returns in H as (composition & _ & [= <-]).
  reflexivity.
Qed.

End objective.

(** C4 (as amended): when the dataset is in mode [phase_xiT] or [phase_yiT]
    and the thermodynamic calculation raises, whatever the exception,
    [_thermo_wrapper] replaces it by a [ValueError] and [objective] lets
    that [ValueError] reach its caller; no score is returned. *)
Theorem objective_propagates_failure
    (thermo : pyval -> gmap string pyval -> outcome (gmap string pyval))
    (reformat_ouput : list pyval -> outcome (pyval * pyval))
    (np_transpose : pyval -> outcome (list pyval))
    (obj_function_form : pyval -> pyval -> pyval -> gmap string pyval -> outcome float)
    (self : Data) (ct : pyval) (e : exn) :
  thermodict self !! "calculation_type" = Some ct ->
  is_str ct "phase_xiT" || is_str ct "phase_yiT" = true ->
  thermo (eos self) (thermodict self) = Raises e ->
  objective thermo reformat_ouput np_transpose obj_function_form self
  = Raises (ValueError (if is_str ct "phase_xiT"
                        then "Calculation of calc_xT_phase failed"
                        else "Calculation of calc_yT_phase failed")).
Proof.
  intros Hct Hmode He. unfold objective, objective_channels.
  by rewrite (thermo_wrapper_failure thermo self ct e).
Qed.

(** The theorem at a constructed dataset whose calculation does not
    converge. *)
Lemma objective_propagates_failure_witness :
  exists obj,
    __init__ ExpDataTemplate_init_documented (list_to_map two_points) = Returns obj /\
    objective thermo_not_converging reformat_ouput_rows np_transpose_rows
      squared_relative_deviations obj
    = Raises (ValueError "Calculation of calc_xT_phase failed").
Proof.
  assert (exists obj,
    __init__ ExpDataTemplate_init_documented (list_to_map two_points) = Returns obj /\
    thermodict obj !! "calculation_type" = Some (PStr "phase_xiT"))
    as (obj & Hobj & Hct) by (eexists; split; vm_compute; reflexivity).
  exists obj. split; [exact Hobj|].
  exact (objective_propagates_failure thermo_not_converging reformat_ouput_rows
           np_transpose_rows squared_relative_deviations obj (PStr "phase_xiT")
           (OtherError "ConvergenceError") Hct eq_refl eq_refl).
Defined.

(** C4 (counterexample): a dataset is constructed, its thermodynamic
    calculation raises a convergence error, and [objective] raises
    [ValueError] instead of returning plus infinity. *)
Lemma objective_failure_counterexample :
  exists obj,
    __init__ ExpDataTemplate_init_documented (list_to_map two_points) = Returns obj /\
    thermo_not_converging (eos obj) (thermodict obj)
    = Raises (OtherError "ConvergenceError") /\
    objective thermo_not_converging reformat_ouput_rows np_transpose_rows
      squared_relative_deviations obj
    = Raises (ValueError "Calculation of calc_xT_phase failed").
Proof. eexists. repeat split; vm_compute; reflexivity. Qed.

(** C3 (as amended): when [objective] returns, its value is decided by the
    two-entry vector [obj_value]: plus infinity if every entry is NaN or
    zero, the NaN-skipping sum of the entries otherwise.  So the value is
    plus infinity exactly when every entry is NaN or zero or that sum is
    itself plus infinity. *)
Theorem objective_total
    (thermo : pyval -> gmap string pyval -> outcome (gmap string pyval))
    (reformat_ouput : list pyval -> outcome (pyval * pyval))
    (np_transpose : pyval -> outcome (list pyval))
    (obj_function_form : pyval -> pyval -> pyval -> gmap string pyval -> outcome float)
    (self : Data) (score : float) :
  objective thermo reformat_ouput np_transpose obj_function_form self = Returns score ->
  exists obj_value,
    objective_channels thermo reformat_ouput np_transpose obj_function_form self
    = Returns obj_value /\
    length obj_value = 2 /\
    (forallb nan_or_zero obj_value = true -> score = infinity) /\
    (forallb nan_or_zero obj_value = false -> score = nansum obj_value) /\
    (score = infinity <->
     forallb nan_or_zero obj_value = true \/ nansum obj_value = infinity).
Proof.
  unfold objective. intros H.
  apply bind_returns in H as (obj_value & Hch & [= <-]).
  exists obj_value. split; [done|].
  split; [by eapply objective_channels_length|].
  unfold obj_total. destruct (forallb nan_or_zero obj_value).
  - repeat split; auto. discriminate.
  - repeat split; auto; try discriminate. intros [?|?]; [discriminate|done].
Qed.

(** The theorem at a run that returns a finite score. *)
Lemma objective_total_witness :
  exists obj score,
    __init__ ExpDataTemplate_init_documented (list_to_map two_points) = Returns obj /\
    objective thermo_predicting reformat_ouput_rows np_transpose_rows
      squared_relative_deviations obj = Returns score /\
    nonfinite score = false /\
    exists obj_value,
      objective_channels thermo_predicting reformat_ouput_rows np_transpose_rows
        squared_relative_deviations obj = Returns obj_value /\
      length obj_value = 2 /\
      (forallb nan_or_zero obj_value = true -> score = infinity) /\
      (forallb nan_or_zero obj_value = false -> score = nansum obj_value) /\
      (score = infinity <->
       forallb nan_or_zero obj_value = true \/ nansum obj_value = infinity).
Proof.
  assert (exists obj score,
    __init__ ExpDataTemplate_init_documented (list_to_map two_points) = Returns obj /\
    objective thermo_predicting reformat_ouput_rows np_transpose_rows
      squared_relative_deviations obj = Returns score /\
    nonfinite score = false)
    as (obj & score & Hobj & Hscore & Hfin)
    by (do 2 eexists; repeat split; vm_compute; reflexivity).
  exists obj, score. do 3 (split; [assumption|]).
  exact (objective_total thermo_predicting reformat_ouput_rows np_transpose_rows
           squared_relative_deviations obj score Hscore).
Defined.

(** C3 (counterexample): the vector [(inf, 1)] and the vector of two equal
    large finite scores both yield plus infinity although no entry of them
    is NaN or zero. *)
Lemma objective_total_counterexample :
  (obj_total [infinity; 1%float] = infinity /\
   forallb nan_or_zero [infinity; 1%float] = false)
  /\
  (obj_total [huge; huge] = infinity /\
   forallb nan_or_zero [huge; huge] = false /\
   nonfinite huge = false).
Proof. repeat split; vm_compute; reflexivity. Qed.

End ObjectiveFacts.

(* ================================================================== *)
(** * More on the constructor of the TLVE data class                   *)
(* ================================================================== *)

Module TLVEMore.
Import PyFacts TLVE TLVEForms TLVEExamples TLVEConditions TLVEInputs TLVEFacts.

(** ** From the input to the checks *)

Lemma check_weights_length_accepts key td w v x :
  w !! key = Some x -> td !! key = Some v -> weight_ok v x ->
  check_weights_length key td w = Returns ().
Proof.
  intros Hx Hv Hok. unfold check_weights_length, getitem. rewrite Hx.
  destruct Hok as [-> | (n & Hn & Hm)]; [done|].
  destruct (is_float x); [done|]. rewrite Hn, Hv. cbn. rewrite Hm. cbn.
  by rewrite decide_False by (intros Hne; by apply Hne).
Qed.

Lemma load_xi_accepts dd td w :
  (forall v x, dd !! "xi" = Some v -> w !! "xi" = Some x -> weight_ok v x) ->
  load_xi dd (td, w) = Returns (store "xi" "xilist" dd td, renamed "xi" "xilist" dd w).
Proof.
  intros Hok. unfold load_xi, store, renamed.
  destruct (dd !! "xi") as [v|]; [|done]. destruct (w !! "xi") as [x|]; [|done].
  rewrite (check_weights_length_accepts _ _ _ v x); [done| | |by apply Hok];
    unfold pop_into; apply lookup_insert_eq.
Qed.

Lemma load_T_accepts dd td w :
  load_T dd (td, w) = Returns (store "T" "Tlist" dd td, renamed "T" "Tlist" dd w).
Proof.
  unfold load_T, store, renamed.
  destruct (dd !! "T") as [v|]; [|done]. by destruct (w !! "T").
Qed.

Lemma load_yi_accepts dd td w :
  (forall v x, dd !! "yi" = Some v -> w !! "yi" = Some x -> weight_ok v x) ->
  load_yi dd (td, w) = Returns (store "yi" "yilist" dd td, renamed "yi" "yilist" dd w).
Proof.
  intros Hok. unfold load_yi, store, renamed.
  destruct (dd !! "yi") as [v|]; [|done]. destruct (w !! "yi") as [x|]; [|done].
  rewrite (check_weights_length_accepts _ _ _ v x); [done| | |by apply Hok];
    unfold pop_into; apply lookup_insert_eq.
Qed.

Lemma load_P_accepts dd td w :
  (forall v x, dd !! "P" = Some v -> w !! "P" = Some x -> weight_ok v x) ->
  load_P dd (td, w) = Returns (store_P dd td, renamed "P" "Plist" dd w).
Proof.
  intros Hok. unfold load_P, store_P, renamed.
  destruct (dd !! "P") as [v|]; [|done]. destruct (w !! "P") as [x|]; [|done].
  rewrite (check_weights_length_accepts _ _ _ v x); [done| | |by apply Hok].
  - unfold pop_into. apply lookup_insert_eq.
  - rewrite lookup_insert_ne by done. apply lookup_insert_eq.
Qed.

Section init.
Variable ExpDataTemplate_init : gmap string pyval -> outcome Data.

(** When the supplied weights pass their tests, the constructor is the
    sequence of the three checks on the loaded dictionaries. *)
Lemma init_after_loading dd self :
  ExpDataTemplate_init dd = Returns self ->
  weights_accepted dd (weights self) ->
  __init__ ExpDataTemplate_init dd
  = (_ ← required_fields (loaded_thermodict dd (thermodict self));
     n ← check_lengths (loaded_thermodict dd (thermodict self));
     td ← infer_calculation_type (loaded_thermodict dd (thermodict self));
     Returns {| name := name self; eos := eos self; obj_opts := obj_opts self;
                thermodict := td;
                weights := default_weights td (loaded_weights dd (weights self));
                npoints := PInt (Z.of_nat n) |}).
Proof.
  intros Hself Hok. unfold __init__. rewrite Hself. cbn [mbind outcome_bind].
  rewrite density_dict_reset. cbn [mbind outcome_bind].
  rewrite load_xi_accepts by (intros v x; apply Hok; compute_done).
  cbn [mbind outcome_bind]. rewrite load_T_accepts. cbn [mbind outcome_bind].
  rewrite load_yi_accepts
    by (intros v x Hv Hx; rewrite !renamed_lookup_ne in Hx by done;
        revert Hv Hx; apply Hok; compute_done).
  cbn [mbind outcome_bind].
  rewrite load_P_accepts
    by (intros v x Hv Hx; rewrite !renamed_lookup_ne in Hx by done;
        revert Hv Hx; apply Hok; compute_done).
  reflexivity.
Qed.

End init.

(** ** The loaded entries *)

Lemma loaded_thermodict_long short long dd td :
  (short, long) ∈ [("xi", "xilist"); ("T", "Tlist"); ("yi", "yilist"); ("P", "Plist");
                   ("P", "Pguess")] ->
  loaded_thermodict dd td !! long
  = match dd !! short with Some v => Some v | None => td !! long end.
Proof.
  intros Hin. unfold loaded_thermodict.
  repeat (apply elem_of_cons in Hin as [[= -> ->]|Hin]);
    [| | | | |by apply elem_of_nil in Hin].
  - rewrite store_P_lookup_ne, !(store_lookup_ne _ _ _ _ "xilist") by done.
    unfold store. destruct (dd !! "xi"); [apply lookup_insert_eq|].
    by rewrite lookup_insert_ne.
  - rewrite store_P_lookup_ne, (store_lookup_ne _ _ _ _ "Tlist") by done.
    unfold store at 1. destruct (dd !! "T"); [apply lookup_insert_eq|].
    rewrite store_lookup_ne by done. by rewrite lookup_insert_ne.
  - rewrite store_P_lookup_ne by done.
    unfold store at 1. destruct (dd !! "yi"); [apply lookup_insert_eq|].
    rewrite !store_lookup_ne by done. by rewrite lookup_insert_ne.
  - unfold store_P. destruct (dd !! "P").
    + rewrite lookup_insert_ne by done. apply lookup_insert_eq.
    + rewrite !store_lookup_ne by done. by rewrite lookup_insert_ne.
  - unfold store_P. destruct (dd !! "P"); [apply lookup_insert_eq|].
    rewrite !store_lookup_ne by done. by rewrite lookup_insert_ne.
Qed.

Lemma loaded_thermodict_frame dd td key :
  key ∉ ["density_dict"; "xilist"; "Tlist"; "yilist"; "Plist"; "Pguess"] ->
  loaded_thermodict dd td !! key = td !! key.
Proof.
  intros Hkey. unfold loaded_thermodict.
  assert (key <> "density_dict" /\ key <> "xilist" /\ key <> "Tlist" /\
          key <> "yilist" /\ key <> "Plist" /\ key <> "Pguess")
    as (? & ? & ? & ? & ? & ?).
  { repeat split; intros ->; apply Hkey; compute_done. }
  rewrite store_P_lookup_ne, !store_lookup_ne by done.
  by rewrite lookup_insert_ne.
Qed.

Lemma py_truth_sized v n : py_len v = Returns n -> py_truth v = negb (Nat.eqb n 0).
Proof. destruct v; cbn; intros [= <-]; reflexivity. Qed.

Lemma required_fields_present td vT vx vy :
  td !! "Tlist" = Some vT -> td !! "xilist" = Some vx -> td !! "yilist" = Some vy ->
  required_fields td = Returns ().
Proof.
  intros HT Hx Hy. unfold required_fields. rewrite HT, Hx, Hy.
  rewrite !(bool_decide_false (Some _ = None)) by done.
  by rewrite andb_false_r.
Qed.

Lemma check_lengths_equal td vT vx vy n :
  td !! "Tlist" = Some vT -> td !! "xilist" = Some vx -> td !! "yilist" = Some vy ->
  py_len vT = Returns n -> py_len vx = Returns n -> py_len vy = Returns n ->
  (forall vP, td !! "Plist" = Some vP -> py_len vP = Returns n) ->
  check_lengths td = Returns n.
Proof.
  intros HT Hx Hy HnT Hnx Hny HP. unfold check_lengths, getitem.
  rewrite HT. cbn. rewrite HnT. cbn. rewrite Hx, Hy.
  destruct (td !! "Plist") as [vP|].
  - rewrite (HP vP eq_refl), Hnx, Hny. cbn.
    by rewrite decide_False by (intros Hne; by apply Hne).
  - rewrite Hnx, Hny. cbn.
    by rewrite decide_False by (intros Hne; by apply Hne).
Qed.

(** X1: sufficient conditions.  When the parent constructor sets a
    calculation type and leaves no pressure array, the input provides [T],
    [xi] and [yi] (and possibly [P]) as sized values of one length [n], the
    supplied weights pass their tests, and either a calculation type is
    named or [n] is positive, the construction succeeds with [npoints = n]
    and the named, or else the inferred [phase_xiT], calculation type. *)
Theorem construction_succeeds
    (ExpDataTemplate_init : gmap string pyval -> outcome Data)
    (dd : gmap string pyval) (self : Data) (ct vT vx vy : pyval) (n : nat) :
  ExpDataTemplate_init dd = Returns self ->
  weights_accepted dd (weights self) ->
  thermodict self !! "calculation_type" = Some ct ->
  thermodict self !! "Plist" = None ->
  dd !! "T" = Some vT -> dd !! "xi" = Some vx -> dd !! "yi" = Some vy ->
  py_len vT = Returns n -> py_len vx = Returns n -> py_len vy = Returns n ->
  (forall vP, dd !! "P" = Some vP -> py_len vP = Returns n) ->
  is_None ct = false \/ 0 < n ->
  exists obj,
    __init__ ExpDataTemplate_init dd = Returns obj /\
    npoints obj = PInt (Z.of_nat n) /\
    thermodict obj !! "calculation_type"
    = Some (if is_None ct then PStr "phase_xiT" else ct).
Proof.
  intros Hself Hok Hct HPl HT Hx Hy HnT Hnx Hny HP Hmode.
  rewrite (init_after_loading _ _ _ Hself Hok).
  set (td := loaded_thermodict dd (thermodict self)).
  assert (td !! "Tlist" = Some vT) as HtT
    by (unfold td; rewrite (loaded_thermodict_long "T") by compute_done; by rewrite HT).
  assert (td !! "xilist" = Some vx) as Htx
    by (unfold td; rewrite (loaded_thermodict_long "xi") by compute_done; by rewrite Hx).
  assert (td !! "yilist" = Some vy) as Hty
    by (unfold td; rewrite (loaded_thermodict_long "yi") by compute_done; by rewrite Hy).
  assert (forall vP, td !! "Plist" = Some vP -> py_len vP = Returns n) as HtP.
  { intros vP. unfold td. rewrite (loaded_thermodict_long "P") by compute_done.
    destruct (dd !! "P") as [v|] eqn:Hv; [intros [= <-]; by apply HP|].
    rewrite HPl. discriminate. }
  assert (td !! "calculation_type" = Some ct) as Htc
    by (unfold td; by rewrite loaded_thermodict_calculation_type).
  rewrite (required_fields_present td vT vx vy) by done. cbn [mbind outcome_bind].
  rewrite (check_lengths_equal td vT vx vy n) by done. cbn [mbind outcome_bind].
  unfold infer_calculation_type, getitem. rewrite Htc. cbn [mbind outcome_bind].
  destruct (is_None ct) eqn:Hnone.
  - destruct Hmode as [|Hpos]; [discriminate|].
    rewrite Htx. cbn [mbind outcome_bind].
    rewrite (py_truth_sized vx n Hnx).
    destruct n as [|n]; [lia|]. cbn.
    eexists. split; [reflexivity|]. cbn. split; [done|]. apply lookup_insert_eq.
  - cbn. eexists. split; [reflexivity|]. cbn. by split.
Qed.

(** The theorem at the dataset of two points. *)
Lemma construction_succeeds_witness :
  exists obj,
    __init__ ExpDataTemplate_init_documented (list_to_map two_points) = Returns obj /\
    npoints obj = PInt 2 /\
    thermodict obj !! "calculation_type" = Some (PStr "phase_xiT").
Proof.
  refine (construction_succeeds ExpDataTemplate_init_documented
            (list_to_map two_points) _ PNone _ _ _ 2 eq_refl _ eq_refl eq_refl
            eq_refl eq_refl eq_refl eq_refl eq_refl eq_refl _ _).
  - intros short v w _ _ Hw. vm_compute in Hw. discriminate.
  - intros vP HvP. vm_compute in HvP. discriminate.
  - right. lia.
Defined.

(** ** What a constructed dataset holds *)

(** X2: the arrays of the input are stored unchanged under their long
    names, the pressures also as the initial guess [Pguess]. *)
Theorem input_arrays_stored
    (ExpDataTemplate_init : gmap string pyval -> outcome Data)
    (dd : gmap string pyval) (obj : Data) (short long : string) (v : pyval) :
  __init__ ExpDataTemplate_init dd = Returns obj ->
  (short, long) ∈ [("xi", "xilist"); ("T", "Tlist"); ("yi", "yilist"); ("P", "Plist");
                   ("P", "Pguess")] ->
  dd !! short = Some v ->
  thermodict obj !! long = Some v.
Proof.
  intros H Hin Hv.
  apply Data_init_returns in H as (self & n & td & _ & _ & _ & Hct & ->).
  cbn [thermodict].
  rewrite (infer_calculation_type_lookup_ne _ _ _ Hct)
    by (intros ->; repeat (apply elem_of_cons in Hin as [[=]|Hin]);
        by apply elem_of_nil in Hin).
  rewrite (loaded_thermodict_long short) by done. by rewrite Hv.
Qed.

Lemma input_arrays_stored_witness :
  exists obj,
    __init__ ExpDataTemplate_init_documented with_density_dict = Returns obj /\
    thermodict obj !! "Pguess" = Some (floats [100000; 200000]%float).
Proof.
  assert (exists obj,
    __init__ ExpDataTemplate_init_documented with_density_dict = Returns obj)
    as [obj Hobj] by (eexists; vm_compute; reflexivity).
  exists obj. split; [exact Hobj|].
  apply (input_arrays_stored _ _ _ "P" "Pguess" _ Hobj); [compute_done|reflexivity].
Defined.

(** X3: every other entry that the parent constructor put into
    [thermodict] (for instance [mpObj]) is still there, unchanged. *)
Theorem parent_entries_kept
    (ExpDataTemplate_init : gmap string pyval -> outcome Data)
    (dd : gmap string pyval) (self obj : Data) (key : string) :
  ExpDataTemplate_init dd = Returns self ->
  __init__ ExpDataTemplate_init dd = Returns obj ->
  key ∉ ["calculation_type"; "density_dict"; "xilist"; "Tlist"; "yilist"; "Plist";
         "Pguess"] ->
  thermodict obj !! key = thermodict self !! key.
Proof.
  intros Hself H Hkey.
  apply Data_init_returns in H as (self' & n & td & Hself' & _ & _ & Hct & ->).
  assert (self' = self) as -> by congruence. cbn [thermodict].
  rewrite (infer_calculation_type_lookup_ne _ _ _ Hct)
    by (intros ->; apply Hkey; compute_done).
  apply loaded_thermodict_frame. intros Hin. apply Hkey. apply elem_of_cons. by right.
Qed.

(** The theorem at a parent constructor that stores [mpObj]: the entry is
    found in the constructed dataset. *)
Lemma parent_entries_kept_witness :
  exists obj,
    __init__ ExpDataTemplate_init_with_mpObj with_density_dict = Returns obj /\
    thermodict obj !! "mpObj" = Some (PObj 1).
Proof.
  assert (exists obj,
    __init__ ExpDataTemplate_init_with_mpObj with_density_dict = Returns obj)
    as [obj Hobj] by (eexists; vm_compute; reflexivity).
  exists obj. split; [exact Hobj|].
  rewrite (parent_entries_kept ExpDataTemplate_init_with_mpObj with_density_dict
             _ obj "mpObj" eq_refl Hobj); [reflexivity | compute_done].
Defined.

(** X4: a calculation type that is not [None] is kept as it is; the
    constructor does not compare it with the two known modes. *)
Theorem named_calculation_type_kept
    (ExpDataTemplate_init : gmap string pyval -> outcome Data)
    (dd : gmap string pyval) (self obj : Data) (ct : pyval) :
  ExpDataTemplate_init dd = Returns self ->
  thermodict self !! "calculation_type" = Some ct ->
  is_None ct = false ->
  __init__ ExpDataTemplate_init dd = Returns obj ->
  thermodict obj !! "calculation_type" = Some ct.
Proof.
  intros Hself Hct Hnone H.
  apply Data_init_returns in H as (self' & n & td & Hself' & _ & _ & Hinf & ->).
  assert (self' = self) as -> by congruence. cbn [thermodict].
  unfold infer_calculation_type, getitem in Hinf.
  rewrite loaded_thermodict_calculation_type, Hct in Hinf.
  cbn in Hinf. rewrite Hnone in Hinf. injection Hinf as <-.
  by rewrite loaded_thermodict_calculation_type.
Qed.

Lemma named_calculation_type_kept_witness :
  exists obj,
    __init__ ExpDataTemplate_init_documented with_unknown_mode = Returns obj /\
    thermodict obj !! "calculation_type" = Some (PStr "flash").
Proof.
  assert (exists obj,
    __init__ ExpDataTemplate_init_documented with_unknown_mode = Returns obj)
    as [obj Hobj] by (eexists; vm_compute; reflexivity).
  exists obj. split; [exact Hobj|].
  exact (named_calculation_type_kept ExpDataTemplate_init_documented
           with_unknown_mode _ obj (PStr "flash") eq_refl eq_refl eq_refl Hobj).
Defined.

(** X5: when no calculation type is named, a successful construction has at
    least one point and always infers [phase_xiT]: since [xi] and [yi] have
    the length of [T], the branch for [phase_yiT] cannot be reached. *)
Theorem inferred_type_is_phase_xiT
    (ExpDataTemplate_init : gmap string pyval -> outcome Data)
    (dd : gmap string pyval) (self obj : Data) :
  ExpDataTemplate_init dd = Returns self ->
  thermodict self !! "calculation_type" = Some PNone ->
  __init__ ExpDataTemplate_init dd = Returns obj ->
  thermodict obj !! "calculation_type" = Some (PStr "phase_xiT") /\
  exists n, npoints obj = PInt (Z.of_nat n) /\ 0 < n.
Proof.
  intros Hself Hct H.
  apply Data_init_returns in H as (self' & n & td & Hself' & Hreq & Hlen & Hinf & ->).
  assert (self' = self) as -> by congruence. cbn [thermodict npoints].
  apply required_fields_returns in Hreq as (_ & [vx Hx] & [vy Hy]).
  apply check_lengths_returns in Hlen as (vT & _ & _ & Hrest).
  pose proof (Hrest "xilist" vx ltac:(compute_done) Hx) as Hnx.
  pose proof (Hrest "yilist" vy ltac:(compute_done) Hy) as Hny.
  unfold infer_calculation_type, getitem in Hinf.
  rewrite loaded_thermodict_calculation_type, Hct, Hx, Hy in Hinf. cbn in Hinf.
  rewrite (py_truth_sized _ _ Hnx), (py_truth_sized _ _ Hny) in Hinf.
  destruct n as [|n]; [discriminate|]. cbn in Hinf. injection Hinf as <-.
  split; [apply lookup_insert_eq|]. exists (S n). split; [done|lia].
Qed.

Lemma inferred_type_is_phase_xiT_witness :
  exists obj,
    __init__ ExpDataTemplate_init_documented (list_to_map two_points) = Returns obj /\
    thermodict obj !! "calculation_type" = Some (PStr "phase_xiT") /\
    exists n, npoints obj = PInt (Z.of_nat n) /\ 0 < n.
Proof.
  assert (exists obj,
    __init__ ExpDataTemplate_init_documented (list_to_map two_points) = Returns obj)
    as [obj Hobj] by (eexists; vm_compute; reflexivity).
  exists obj. split; [exact Hobj|].
  exact (inferred_type_is_phase_xiT ExpDataTemplate_init_documented
           (list_to_map two_points) _ obj eq_refl eq_refl Hobj).
Defined.

(** ** Weights *)

Lemma loaded_weights_long short long dd w v x :
  (short, long) ∈ [("xi", "xilist"); ("T", "Tlist"); ("yi", "yilist"); ("P", "Plist")] ->
  dd !! short = Some v -> w !! short = Some x ->
  loaded_weights dd w !! long = Some x.
Proof.
  intros Hin Hv Hx. unfold loaded_weights.
  repeat (apply elem_of_cons in Hin as [[= -> ->]|Hin]);
    [| | | |by apply elem_of_nil in Hin].
  - rewrite !(renamed_lookup_ne _ _ _ _ "xilist") by done.
    unfold renamed. rewrite Hv, Hx. apply lookup_insert_eq.
  - rewrite !(renamed_lookup_ne _ _ _ _ "Tlist") by done.
    unfold renamed at 1. rewrite Hv, renamed_lookup_ne, Hx by done.
    apply lookup_insert_eq.
  - rewrite !(renamed_lookup_ne _ _ _ _ "yilist") by done.
    unfold renamed at 1. rewrite Hv, !renamed_lookup_ne, Hx by done.
    apply lookup_insert_eq.
  - unfold renamed at 1. rewrite Hv, !renamed_lookup_ne, Hx by done.
    apply lookup_insert_eq.
Qed.

(** X6: a weight supplied under the header [xi], [T], [yi] or [P] of
    supplied data is found, unchanged, under the long name of the header in
    the weights of the constructed dataset: the default 1.0 never replaces
    it. *)
Theorem supplied_weight_kept
    (ExpDataTemplate_init : gmap string pyval -> outcome Data)
    (dd : gmap string pyval) (self obj : Data) (short long : string) (v x : pyval) :
  ExpDataTemplate_init dd = Returns self ->
  __init__ ExpDataTemplate_init dd = Returns obj ->
  (short, long) ∈ [("xi", "xilist"); ("T", "Tlist"); ("yi", "yilist"); ("P", "Plist")] ->
  dd !! short = Some v -> weights self !! short = Some x ->
  weights obj !! long = Some x.
Proof.
  intros Hself H Hin Hv Hx.
  apply Data_init_returns in H as (self' & n & td & Hself' & _ & _ & _ & ->).
  assert (self' = self) as -> by congruence. cbn [weights].
  apply default_weights_keeps. by eapply loaded_weights_long.
Qed.

Lemma supplied_weight_kept_witness :
  exists obj,
    __init__ ExpDataTemplate_init_documented with_weights = Returns obj /\
    weights obj !! "xilist" = Some (floats [2; 3]%float).
Proof.
  assert (exists obj,
    __init__ ExpDataTemplate_init_documented with_weights = Returns obj)
    as [obj Hobj] by (eexists; vm_compute; reflexivity).
  exists obj. split; [exact Hobj|].
  eapply (supplied_weight_kept ExpDataTemplate_init_documented with_weights _ obj
            "xi" "xilist");
    [reflexivity | exact Hobj | compute_done | vm_compute; reflexivity
    | vm_compute; reflexivity].
Defined.

(** ** Rejected inputs *)

(** X7: an input with neither [P] nor [T] is rejected with the
    [ImportError] about P and T (the parent constructor having left
    neither array and the supplied weights passing their tests). *)
Theorem missing_P_and_T_raises
    (ExpDataTemplate_init : gmap string pyval -> outcome Data)
    (dd : gmap string pyval) (self : Data) :
  ExpDataTemplate_init dd = Returns self ->
  weights_accepted dd (weights self) ->
  thermodict self !! "Plist" = None -> thermodict self !! "Tlist" = None ->
  dd !! "P" = None -> dd !! "T" = None ->
  __init__ ExpDataTemplate_init dd
  = Raises (ImportError "Given TLVE data, values for P and T should have been provided.").
Proof.
  intros Hself Hok HP HT HdP HdT.
  rewrite (init_after_loading _ _ _ Hself Hok). unfold required_fields.
  rewrite (loaded_thermodict_long "P" "Plist"), (loaded_thermodict_long "T" "Tlist")
    by compute_done.
  by rewrite HdP, HdT, HP, HT.
Qed.

Lemma missing_P_and_T_raises_witness :
  __init__ ExpDataTemplate_init_documented only_mole_fractions
  = Raises (ImportError "Given TLVE data, values for P and T should have been provided.")
  /\ is_Some (only_mole_fractions !! "xi").
Proof.
  split; [|compute_done].
  apply (missing_P_and_T_raises ExpDataTemplate_init_documented only_mole_fractions
           _ eq_refl); [|reflexivity..].
  intros short v w _ _ Hw. vm_compute in Hw. discriminate.
Defined.





(** X10: when every supplied weight passes its test, the parent
    constructor left no pressure array, and [T], [xi], [yi] and the
    pressures, if supplied, are sized but not all of the length of [T], the
    constructor raises the [ValueError] about lengths. *)
Theorem different_lengths_raise
    (ExpDataTemplate_init : gmap string pyval -> outcome Data)
    (dd : gmap string pyval) (self : Data) (vT vx vy : pyval) (n nx ny : nat)
    (nP : option nat) :
  ExpDataTemplate_init dd = Returns self ->
  weights_accepted dd (weights self) ->
  thermodict self !! "Plist" = None ->
  dd !! "T" = Some vT -> dd !! "xi" = Some vx -> dd !! "yi" = Some vy ->
  py_len vT = Returns n -> py_len vx = Returns nx -> py_len vy = Returns ny ->
  py_len <$> dd !! "P" = Returns <$> nP ->
  (exists m, nP = Some m /\ m <> n) \/ nx <> n \/ ny <> n ->
  __init__ ExpDataTemplate_init dd
  = Raises (ValueError "T, P, yi, and xi are not all the same length.").
Proof.
  intros Hself Hok HPl HT Hx Hy HnT Hnx Hny HnP Hne.
  rewrite (init_after_loading _ _ _ Hself Hok).
  set (td := loaded_thermodict dd (thermodict self)).
  assert (td !! "Tlist" = Some vT) as HtT
    by (unfold td; rewrite (loaded_thermodict_long "T") by compute_done; by rewrite HT).
  assert (td !! "xilist" = Some vx) as Htx
    by (unfold td; rewrite (loaded_thermodict_long "xi") by compute_done; by rewrite Hx).
  assert (td !! "yilist" = Some vy) as Hty
    by (unfold td; rewrite (loaded_thermodict_long "yi") by compute_done; by rewrite Hy).
  assert (td !! "Plist" = dd !! "P") as HtP.
  { unfold td. rewrite (loaded_thermodict_long "P") by compute_done.
    destruct (dd !! "P"); [done|]. exact HPl. }
  rewrite (required_fields_present td vT vx vy) by done. cbn [mbind outcome_bind].
  unfold check_lengths, getitem. rewrite HtT. cbn. rewrite HnT. cbn.
  rewrite HtP, Htx, Hty, Hnx, Hny.
  destruct (dd !! "P") as [vP|], nP as [m|]; try discriminate HnP; cbn in HnP.
  - injection HnP as ->. cbn.
    destruct (decide (m ≠ n)); [done|]. cbn.
    destruct (decide (nx ≠ n)); [done|]. cbn.
    destruct (decide (ny ≠ n)); [done|].
    destruct Hne as [(m' & [= <-] & ?)|[?|?]]; done.
  - cbn.
    destruct (decide (nx ≠ n)); [done|]. cbn.
    destruct (decide (ny ≠ n)); [done|].
    destruct Hne as [(m' & [=] & ?)|[?|?]]; done.
Qed.

Lemma different_lengths_raise_witness :
  __init__ ExpDataTemplate_init_documented with_short_yi
  = Raises (ValueError "T, P, yi, and xi are not all the same length.")
  /\ is_Some (with_short_yi !! "yi").
Proof.
  split; [|compute_done].
  eapply (different_lengths_raise ExpDataTemplate_init_documented with_short_yi
            _ _ _ _ 2 2 1 None eq_refl);
    [|vm_compute; reflexivity..|right; right; lia].
  intros short v w _ _ Hw. vm_compute in Hw. discriminate.
Defined.

(** X11: a dataset without points ([T], [xi] and [yi] sized and empty, no
    pressures) that names no calculation type fails with the [ValueError]
    about unknown calculation instructions. *)
Theorem no_points_no_mode_raises
    (ExpDataTemplate_init : gmap string pyval -> outcome Data)
    (dd : gmap string pyval) (self : Data) (vT vx vy : pyval) :
  ExpDataTemplate_init dd = Returns self ->
  weights_accepted dd (weights self) ->
  thermodict self !! "calculation_type" = Some PNone ->
  thermodict self !! "Plist" = None -> dd !! "P" = None ->
  dd !! "T" = Some vT -> dd !! "xi" = Some vx -> dd !! "yi" = Some vy ->
  py_len vT = Returns 0 -> py_len vx = Returns 0 -> py_len vy = Returns 0 ->
  __init__ ExpDataTemplate_init dd
  = Raises (ValueError "Unknown calculation instructions").
Proof.
  intros Hself Hok Hct HPl HdP HT Hx Hy HnT Hnx Hny.
  rewrite (init_after_loading _ _ _ Hself Hok).
  set (td := loaded_thermodict dd (thermodict self)).
  assert (td !! "Tlist" = Some vT) as HtT
    by (unfold td; rewrite (loaded_thermodict_long "T") by compute_done; by rewrite HT).
  assert (td !! "xilist" = Some vx) as Htx
    by (unfold td; rewrite (loaded_thermodict_long "xi") by compute_done; by rewrite Hx).
  assert (td !! "yilist" = Some vy) as Hty
    by (unfold td; rewrite (loaded_thermodict_long "yi") by compute_done; by rewrite Hy).
  assert (forall vP, td !! "Plist" = Some vP -> py_len vP = Returns 0) as HtP.
  { intros vP. unfold td. rewrite (loaded_thermodict_long "P") by compute_done.
    rewrite HdP, HPl. discriminate. }
  assert (td !! "calculation_type" = Some PNone) as Htc
    by (unfold td; by rewrite loaded_thermodict_calculation_type).
  rewrite (required_fields_present td vT vx vy) by done. cbn [mbind outcome_bind].
  rewrite (check_lengths_equal td vT vx vy 0) by done. cbn [mbind outcome_bind].
  unfold infer_calculation_type, getitem. rewrite Htc, Htx, Hty. cbn.
  by rewrite (py_truth_sized vx 0 Hnx), (py_truth_sized vy 0 Hny).
Qed.

Lemma no_points_no_mode_raises_witness :
  __init__ ExpDataTemplate_init_documented no_points
  = Raises (ValueError "Unknown calculation instructions")
  /\ no_points !! "T" = Some (PList []).
Proof.
  split; [|reflexivity].
  eapply (no_points_no_mode_raises ExpDataTemplate_init_documented no_points
            _ _ _ _ eq_refl); [|vm_compute; reflexivity..].
  intros short v w _ _ Hw. vm_compute in Hw. discriminate.
Defined.

(** ** Rejected weights *)

Lemma init_weight_check_fails
    (ExpDataTemplate_init : gmap string pyval -> outcome Data)
    (dd : gmap string pyval) (self : Data) (short long : string) (v x : pyval) (e : exn) :
  ExpDataTemplate_init dd = Returns self ->
  (short, long) ∈ [("xi", "xilist"); ("yi", "yilist"); ("P", "Plist")] ->
  dd !! short = Some v -> weights self !! short = Some x ->
  (forall td w, td !! long = Some v -> w !! long = Some x ->
                check_weights_length long td w = Raises e) ->
  (forall short' v' x', short' <> short -> short' ∈ ["xi"; "yi"; "P"] ->
     dd !! short' = Some v' -> weights self !! short' = Some x' -> weight_ok v' x') ->
  __init__ ExpDataTemplate_init dd = Raises e.
Proof.
  intros Hself Hin Hv Hx Hfail Hothers. unfold __init__. rewrite Hself.
  cbn [mbind outcome_bind]. rewrite density_dict_reset. cbn [mbind outcome_bind].
  repeat (apply elem_of_cons in Hin as [[= -> ->]|Hin]);
    [| | |by apply elem_of_nil in Hin].
  - unfold load_xi. rewrite Hv, Hx.
    rewrite Hfail by (unfold pop_into; apply lookup_insert_eq). reflexivity.
  - rewrite load_xi_accepts by (intros v' x'; apply Hothers; [done|compute_done]).
    cbn [mbind outcome_bind]. rewrite load_T_accepts. cbn [mbind outcome_bind].
    unfold load_yi. rewrite Hv, !renamed_lookup_ne, Hx by done.
    rewrite Hfail by (unfold pop_into; apply lookup_insert_eq). reflexivity.
  - rewrite load_xi_accepts by (intros v' x'; apply Hothers; [done|compute_done]).
    cbn [mbind outcome_bind]. rewrite load_T_accepts. cbn [mbind outcome_bind].
    rewrite load_yi_accepts
      by (intros v' x' Hv' Hx'; rewrite !renamed_lookup_ne in Hx' by done;
          revert Hv' Hx'; apply Hothers; [done|compute_done]).
    cbn [mbind outcome_bind].
    unfold load_P. rewrite Hv, !renamed_lookup_ne, Hx by done.
    rewrite Hfail; [reflexivity| |unfold pop_into; apply lookup_insert_eq].
    rewrite lookup_insert_ne by done. apply lookup_insert_eq.
Qed.

(** X12: a weight that is neither a float nor sized (an integer, [None], an
    object) supplied under [xi], [yi] or [P] makes the constructor raise
    [TypeError], the other supplied weights passing their tests. *)
Theorem unsized_weight_raises_TypeError
    (ExpDataTemplate_init : gmap string pyval -> outcome Data)
    (dd : gmap string pyval) (self : Data) (short : string) (v x : pyval) :
  ExpDataTemplate_init dd = Returns self ->
  short ∈ ["xi"; "yi"; "P"] ->
  dd !! short = Some v -> weights self !! short = Some x ->
  is_float x = false -> py_len x = Raises TypeError ->
  (forall short' v' x', short' <> short -> short' ∈ ["xi"; "yi"; "P"] ->
     dd !! short' = Some v' -> weights self !! short' = Some x' -> weight_ok v' x') ->
  __init__ ExpDataTemplate_init dd = Raises TypeError.
Proof.
  intros Hself Hin Hv Hx Hf Hlen Hothers.
  assert (exists long,
    (short, long) ∈ [("xi", "xilist"); ("yi", "yilist"); ("P", "Plist")]) as [long Hlong].
  { repeat (apply elem_of_cons in Hin as [->|Hin]);
      [exists "xilist"|exists "yilist"|exists "Plist"|by apply elem_of_nil in Hin];
      compute_done. }
  eapply init_weight_check_fails; eauto.
  intros td w _ Hw. unfold check_weights_length. by rewrite Hw, Hf, Hlen.
Qed.

Lemma unsized_weight_raises_TypeError_witness :
  __init__ ExpDataTemplate_init_documented with_integer_weight = Raises TypeError
  /\ is_Some (with_integer_weight !! "weights").
Proof.
  split; [|compute_done].
  eapply (unsized_weight_raises_TypeError ExpDataTemplate_init_documented
            with_integer_weight _ "xi" _ (PInt 1) eq_refl);
    [compute_done | vm_compute; reflexivity | vm_compute; reflexivity
    | reflexivity | reflexivity |].
  intros short' v' x' Hne Hin _ Hx. vm_compute in Hx.
  repeat (apply elem_of_cons in Hin as [->|Hin]); try discriminate; try done.
  by apply elem_of_nil in Hin.
Defined.

(** X13: a sized weight supplied under [xi], [yi] or [P] whose length
    differs from the length of the data under that header makes the
    constructor raise the [ValueError] that names the array. *)
Theorem wrong_length_weight_raises
    (ExpDataTemplate_init : gmap string pyval -> outcome Data)
    (dd : gmap string pyval) (self : Data) (short long : string) (v x : pyval)
    (n m : nat) :
  ExpDataTemplate_init dd = Returns self ->
  (short, long) ∈ [("xi", "xilist"); ("yi", "yilist"); ("P", "Plist")] ->
  dd !! short = Some v -> weights self !! short = Some x ->
  is_float x = false -> py_len x = Returns m -> py_len v = Returns n -> m <> n ->
  (forall short' v' x', short' <> short -> short' ∈ ["xi"; "yi"; "P"] ->
     dd !! short' = Some v' -> weights self !! short' = Some x' -> weight_ok v' x') ->
  __init__ ExpDataTemplate_init dd
  = Raises (ValueError ("Array of weights for '" +:+ long +:+
              "' values not equal to number of experimental values given.")).
Proof.
  intros Hself Hin Hv Hx Hf Hm Hn Hne Hothers.
  eapply init_weight_check_fails; eauto.
  intros td w Htd Hw. unfold check_weights_length, getitem.
  rewrite Hw, Hf, Hm, Htd. cbn. rewrite Hn. cbn. by rewrite decide_True.
Qed.

Lemma wrong_length_weight_raises_witness :
  __init__ ExpDataTemplate_init_documented with_long_xi_weights
  = Raises (ValueError
      "Array of weights for 'xilist' values not equal to number of experimental values given.")
  /\ is_Some (with_long_xi_weights !! "weights").
Proof.
  split; [|compute_done].
  eapply (wrong_length_weight_raises ExpDataTemplate_init_documented
            with_long_xi_weights _ "xi" "xilist" _ _ 2 3 eq_refl);
    [compute_done | vm_compute; reflexivity | vm_compute; reflexivity
    | reflexivity | reflexivity | reflexivity | lia |].
  intros short' v' x' Hne Hin _ Hx. vm_compute in Hx.
  repeat (apply elem_of_cons in Hin as [->|Hin]); try discriminate; try done.
  by apply elem_of_nil in Hin.
Defined.

(** ** Invariants of a constructed dataset *)

Lemma default_weights_default td (w : gmap string pyval) key x :
  w !! key = None -> default_weights td w !! key = Some x -> x = PFloat 1.
Proof.
  unfold default_weights. generalize ((map_to_list td).*1). intros keys Hw.
  assert (w !! key = None \/ w !! key = Some (PFloat 1)) as Hinv by (by left).
  clear Hw. revert w Hinv. induction keys as [|k keys IH]; intros w Hinv; simpl.
  - destruct Hinv as [->| ->]; [discriminate|]. by intros [= <-].
  - apply IH. destruct (_ && _); [|done].
    destruct (decide (k = key)) as [->|Hne].
    + right. apply lookup_insert_eq.
    + by rewrite lookup_insert_ne.
Qed.

Lemma loaded_weights_unsupplied short long dd (w : gmap string pyval) :
  (short, long) ∈ [("xi", "xilist"); ("yi", "yilist"); ("P", "Plist")] ->
  dd !! short = None \/ w !! short = None ->
  loaded_weights dd w !! long = w !! long.
Proof.
  intros Hin Hnone. unfold loaded_weights.
  repeat (apply elem_of_cons in Hin as [[= -> ->]|Hin]);
    [| | |by apply elem_of_nil in Hin].
  - rewrite !(renamed_lookup_ne _ _ _ _ "xilist") by done.
    unfold renamed. destruct Hnone as [-> | ->]; [done|]. by destruct (dd !! "xi").
  - rewrite !(renamed_lookup_ne _ _ _ _ "yilist") by done.
    unfold renamed at 1. rewrite !(renamed_lookup_ne _ _ _ _ "yi") by done.
    destruct Hnone as [-> | ->];
      [|destruct (dd !! "yi")]; by rewrite !(renamed_lookup_ne _ _ _ _ "yilist").
  - unfold renamed at 1. rewrite !(renamed_lookup_ne _ _ _ _ "P") by done.
    destruct Hnone as [-> | ->];
      [|destruct (dd !! "P")]; by rewrite !(renamed_lookup_ne _ _ _ _ "Plist").
Qed.

(** X14: the weights of a constructed dataset fit its points.  When the
    parent constructor leaves no weight under the long names, the weight
    stored for [xilist], [yilist] or [Plist] is a float or is sized with
    exactly [npoints] entries. *)
Theorem stored_weights_fit_points
    (ExpDataTemplate_init : gmap string pyval -> outcome Data)
    (dd : gmap string pyval) (self obj : Data) (short long : string) (w : pyval) :
  ExpDataTemplate_init dd = Returns self ->
  __init__ ExpDataTemplate_init dd = Returns obj ->
  (short, long) ∈ [("xi", "xilist"); ("yi", "yilist"); ("P", "Plist")] ->
  weights self !! long = None ->
  weights obj !! long = Some w ->
  is_float w = true \/
  exists n, npoints obj = PInt (Z.of_nat n) /\ py_len w = Returns n.
Proof.
  intros Hself H Hin Hlong Hw. pose proof H as Hinit.
  apply Data_init_returns in H as (self' & n & td & Hself' & _ & Hlen & Hct & ->).
  assert (self' = self) as -> by congruence. cbn [weights npoints] in *.
  assert (short ∈ ["xi"; "yi"; "P"]) as Hshort
    by (repeat (apply elem_of_cons in Hin as [[= -> ->]|Hin]);
        [compute_done..|by apply elem_of_nil in Hin]).
  assert ((short, long) ∈ [("xi", "xilist"); ("T", "Tlist"); ("yi", "yilist");
                           ("P", "Plist")]) as Hin4
    by (repeat (apply elem_of_cons in Hin as [[= -> ->]|Hin]);
        [compute_done..|by apply elem_of_nil in Hin]).
  assert ((short, long) ∈ [("xi", "xilist"); ("T", "Tlist"); ("yi", "yilist");
                           ("P", "Plist"); ("P", "Pguess")]) as Hin5
    by (repeat (apply elem_of_cons in Hin as [[= -> ->]|Hin]);
        [compute_done..|by apply elem_of_nil in Hin]).
  assert (long ∈ ["Plist"; "xilist"; "yilist"]) as Hkey
    by (repeat (apply elem_of_cons in Hin as [[= -> ->]|Hin]);
        [compute_done..|by apply elem_of_nil in Hin]).
  destruct (dd !! short) as [v|] eqn:Hv; [destruct (weights self !! short) as [x|] eqn:Hx|].
  - rewrite (default_weights_keeps _ _ _ x) in Hw by (by eapply loaded_weights_long).
    injection Hw as <-.
    destruct (is_float x) eqn:Hf; [by left|right].
    destruct (checked_weights_same_length ExpDataTemplate_init dd self _ short v x
                Hself Hinit Hshort Hv Hx Hf) as (m & Hm & Hvm).
    apply check_lengths_returns in Hlen as (_ & _ & _ & Hrest).
    assert (py_len v = Returns n) as Hvn.
    { apply (Hrest long v Hkey). rewrite (loaded_thermodict_long short) by done.
      by rewrite Hv. }
    exists n. split; [done|]. congruence.
  - left. apply default_weights_default in Hw; [by rewrite Hw|].
    by rewrite (loaded_weights_unsupplied short) by (done || by right).
  - left. apply default_weights_default in Hw; [by rewrite Hw|].
    by rewrite (loaded_weights_unsupplied short) by (done || by left).
Qed.

Lemma stored_weights_fit_points_witness :
  exists obj,
    __init__ ExpDataTemplate_init_documented with_weights = Returns obj /\
    weights obj !! "xilist" = Some (floats [2; 3]%float) /\
    (is_float (floats [2; 3]%float) = true \/
     exists n, npoints obj = PInt (Z.of_nat n) /\
       py_len (floats [2; 3]%float) = Returns n).
Proof.
  assert (exists obj,
    __init__ ExpDataTemplate_init_documented with_weights = Returns obj /\
    weights obj !! "xilist" = Some (floats [2; 3]%float))
    as (obj & Hobj & Hw) by (eexists; split; vm_compute; reflexivity).
  exists obj. do 2 (split; [done|]).
  eapply (stored_weights_fit_points ExpDataTemplate_init_documented with_weights
            _ obj "xi" "xilist" _ eq_refl Hobj); [compute_done|reflexivity|exact Hw].
Defined.

(** X15: a constructed dataset holds [Tlist], [xilist] and [yilist];
    [npoints] is the length of [Tlist] and of every other point array
    that is present, [Plist] included. *)
Theorem npoints_is_every_length
    (ExpDataTemplate_init : gmap string pyval -> outcome Data)
    (dd : gmap string pyval) (obj : Data) :
  __init__ ExpDataTemplate_init dd = Returns obj ->
  exists n,
    npoints obj = PInt (Z.of_nat n) /\
    (forall key, key ∈ ["Tlist"; "xilist"; "yilist"] -> is_Some (thermodict obj !! key)) /\
    (forall key v, key ∈ ["Tlist"; "Plist"; "xilist"; "yilist"] ->
       thermodict obj !! key = Some v -> py_len v = Returns n).
Proof.
  intros H. pose proof (point_arrays_same_length _ _ _ H) as (n & Hn & Hall).
  exists n. split; [done|]. split; [|done]. clear Hn Hall. intros key Hkey.
  apply Data_init_returns in H as (self & m & td & _ & Hreq & Hlen & Hct & ->).
  cbn [thermodict].
  rewrite (infer_calculation_type_lookup_ne _ _ _ Hct)
    by (intros ->; revert Hkey; compute_done).
  apply required_fields_returns in Hreq as (_ & Hx & Hy).
  apply check_lengths_returns in Hlen as (vT & HT & _).
  repeat (apply elem_of_cons in Hkey as [->|Hkey]); [by eexists|done|done|].
  by apply elem_of_nil in Hkey.
Qed.

Lemma npoints_is_every_length_witness :
  exists obj,
    __init__ ExpDataTemplate_init_documented with_weights = Returns obj /\
    exists n,
      npoints obj = PInt (Z.of_nat n) /\
      (forall key, key ∈ ["Tlist"; "xilist"; "yilist"] ->
         is_Some (thermodict obj !! key)) /\
      (forall key v, key ∈ ["Tlist"; "Plist"; "xilist"; "yilist"] ->
         thermodict obj !! key = Some v -> py_len v = Returns n).
Proof.
  eexists. split; [vm_compute; reflexivity|].
  apply (npoints_is_every_length ExpDataTemplate_init_documented with_weights).
  vm_compute; reflexivity.
Defined.

End TLVEMore.

(* ================================================================== *)
(** * More on [_thermo_wrapper] and [objective]                        *)
(* ================================================================== *)

Module Binary64Zero.

Lemma is_nan_spec (x : float) :
  PrimFloat.is_nan x = match Prim2SF x with S754_nan => true | _ => false end.
Proof.
  unfold PrimFloat.is_nan. rewrite FloatAxioms.eqb_spec.
  destruct (Prim2SF x) as [s|s| |s m e]; simpl; try reflexivity.
  - by destruct s.
  - unfold SFeqb, SFcompare. rewrite Z.compare_refl.
    change (PosDef.Pos.compare_cont Eq m m) with (Pos.compare m m).
    rewrite Pos.compare_refl. by destruct s.
Qed.

Lemma eqb_zero_spec (x : float) :
  PrimFloat.eqb x 0 = match Prim2SF x with S754_zero _ => true | _ => false end.
Proof.
  rewrite FloatAxioms.eqb_spec. change (Prim2SF 0%float) with (S754_zero false).
  destruct (Prim2SF x) as [s|s| |s m e]; simpl; try reflexivity; by destruct s.
Qed.

Lemma add_zero_l (x : float) :
  PrimFloat.is_nan x = false -> PrimFloat.eqb x 0 = false -> (0 + x)%float = x.
Proof.
  rewrite is_nan_spec, eqb_zero_spec. intros Hnan Hzero.
  apply Prim2SF_inj. rewrite add_spec. change (Prim2SF 0%float) with (S754_zero false).
  destruct (Prim2SF x) as [s|s| |s m e]; try discriminate; reflexivity.
Qed.

Lemma add_zero_r (x : float) :
  PrimFloat.is_nan x = false -> PrimFloat.eqb x 0 = false -> (x + 0)%float = x.
Proof.
  rewrite is_nan_spec, eqb_zero_spec. intros Hnan Hzero.
  apply Prim2SF_inj. rewrite add_spec. change (Prim2SF 0%float) with (S754_zero false).
  destruct (Prim2SF x) as [s|s| |s m e]; try discriminate; reflexivity.
Qed.

End Binary64Zero.

Module ObjectiveMore.
Import PyFacts TLVE TLVEForms TLVEExamples TLVEConditions TLVEInputs Binary64Zero.

Local Abbreviation xT_failed := (ValueError "Calculation of calc_xT_phase failed").
Local Abbreviation yT_failed := (ValueError "Calculation of calc_yT_phase failed").

Lemma is_str_true (ct : pyval) (s : string) : is_str ct s = true -> ct = PStr s.
Proof. destruct ct; try discriminate. simpl. by intros ->%bool_decide_eq_true. Qed.

(** X16: [_thermo_wrapper] has five outcomes and no other.  It returns the
    pair of the predicted pressures and compositions, or raises one of four
    exceptions: the [KeyError] of a missing calculation type, the
    [UnboundLocalError] of a calculation type that is none of the two
    modes, and the [ValueError] of either mode.  An exception of [thermo]
    never reaches the caller as it was raised. *)
Theorem thermo_wrapper_outcomes
    (thermo : pyval -> gmap string pyval -> outcome (gmap string pyval)) (self : Data) :
  (exists out P zi key,
     thermo (eos self) (thermodict self) = Returns out /\
     out !! "P" = Some P /\ out !! key = Some zi /\
     (thermodict self !! "calculation_type" = Some (PStr "phase_xiT") /\ key = "yi" \/
      thermodict self !! "calculation_type" = Some (PStr "phase_yiT") /\ key = "xi") /\
     _thermo_wrapper thermo self = Returns [P; zi])
  \/
  (exists e, _thermo_wrapper thermo self = Raises e /\
     (e = KeyError "calculation_type" \/ e = UnboundLocalError "output" \/
      e = xT_failed \/ e = yT_failed)).
Proof.
  unfold _thermo_wrapper, getitem.
  destruct (thermodict self !! "calculation_type") as [ct|] eqn:Hct;
    [|right; eexists; split; [reflexivity|tauto]].
  cbn [mbind outcome_bind].
  destruct (is_str ct "phase_xiT") eqn:Hx; [|destruct (is_str ct "phase_yiT") eqn:Hy];
    [| |right; eexists; split; [reflexivity|tauto]].
  - apply is_str_true in Hx as ->.
    destruct (thermo (eos self) (thermodict self)) as [out|e] eqn:Hout;
      [|right; eexists; split; [reflexivity|tauto]].
    cbn [mbind outcome_bind]. unfold getitem.
    destruct (out !! "P") as [P|] eqn:HP;
      [|right; eexists; split; [reflexivity|tauto]].
    destruct (out !! "yi") as [zi|] eqn:Hz;
      [|right; eexists; split; [reflexivity|tauto]].
    left. exists out, P, zi, "yi". eauto 10.
  - apply is_str_true in Hy as ->.
    destruct (thermo (eos self) (thermodict self)) as [out|e] eqn:Hout;
      [|right; eexists; split; [reflexivity|tauto]].
    cbn [mbind outcome_bind]. unfold getitem.
    destruct (out !! "P") as [P|] eqn:HP;
      [|right; eexists; split; [reflexivity|tauto]].
    destruct (out !! "xi") as [zi|] eqn:Hz;
      [|right; eexists; split; [reflexivity|tauto]].
    left. exists out, P, zi, "xi". eauto 10.
Qed.

(** X17: when [thermo] returns a dictionary that lacks the pressures or the
    compositions of the other phase ([yi] in mode [phase_xiT], [xi] in mode
    [phase_yiT]), the [KeyError] is caught by the bare [except] and the
    caller sees the [ValueError] of a failed calculation. *)
Theorem incomplete_prediction_raises
    (thermo : pyval -> gmap string pyval -> outcome (gmap string pyval))
    (self : Data) (ct : pyval) (out : gmap string pyval) :
  thermodict self !! "calculation_type" = Some ct ->
  is_str ct "phase_xiT" || is_str ct "phase_yiT" = true ->
  thermo (eos self) (thermodict self) = Returns out ->
  out !! "P" = None \/ out !! (if is_str ct "phase_xiT" then "yi" else "xi") = None ->
  _thermo_wrapper thermo self
  = Raises (if is_str ct "phase_xiT" then xT_failed else yT_failed).
Proof.
  intros Hct Hmode Hout Hmiss. unfold _thermo_wrapper, getitem. rewrite Hct.
  cbn [mbind outcome_bind]. rewrite Hout. cbn [mbind outcome_bind].
  destruct (is_str ct "phase_xiT"); cbn in Hmode; [|rewrite Hmode];
    (destruct (out !! "P"); [|reflexivity]); cbn;
    (destruct Hmiss as [Hmiss|Hmiss]; [discriminate Hmiss|]); by rewrite Hmiss.
Qed.

Lemma incomplete_prediction_raises_witness :
  exists obj,
    __init__ ExpDataTemplate_init_documented with_phase_yiT = Returns obj /\
    thermo_predicting (eos obj) (thermodict obj) ≫= (fun out => Returns (out !! "xi"))
    = Returns None /\
    _thermo_wrapper thermo_predicting obj = Raises yT_failed.
Proof.
  assert (exists obj,
    __init__ ExpDataTemplate_init_documented with_phase_yiT = Returns obj /\
    thermodict obj !! "calculation_type" = Some (PStr "phase_yiT"))
    as (obj & Hobj & Hct) by (eexists; split; vm_compute; reflexivity).
  exists obj. do 2 (split; [done|]).
  eapply (incomplete_prediction_raises thermo_predicting obj (PStr "phase_yiT") _
            Hct eq_refl eq_refl).
  right. reflexivity.
Defined.

(** X18: a dataset whose calculation type is none of the two modes has no
    objective: [objective] raises [UnboundLocalError] for the local
    [output], whatever the callees do; [thermo] is not called. *)
Theorem unknown_mode_raises_UnboundLocalError
    (thermo : pyval -> gmap string pyval -> outcome (gmap string pyval))
    (reformat_ouput : list pyval -> outcome (pyval * pyval))
    (np_transpose : pyval -> outcome (list pyval))
    (obj_function_form : pyval -> pyval -> pyval -> gmap string pyval -> outcome float)
    (self : Data) (ct : pyval) :
  thermodict self !! "calculation_type" = Some ct ->
  is_str ct "phase_xiT" = false -> is_str ct "phase_yiT" = false ->
  objective thermo reformat_ouput np_transpose obj_function_form self
  = Raises (UnboundLocalError "output").
Proof.
  intros Hct Hx Hy. unfold objective, objective_channels, _thermo_wrapper, getitem.
  by rewrite Hct; cbn [mbind outcome_bind]; rewrite Hx, Hy.
Qed.

(** The constructor accepts the calculation type [flash]; the objective of
    the dataset it builds raises. *)
Lemma unknown_mode_raises_UnboundLocalError_witness :
  exists obj,
    __init__ ExpDataTemplate_init_documented with_unknown_mode = Returns obj /\
    objective thermo_predicting reformat_ouput_rows np_transpose_rows
      squared_relative_deviations obj
    = Raises (UnboundLocalError "output").
Proof.
  assert (exists obj,
    __init__ ExpDataTemplate_init_documented with_unknown_mode = Returns obj /\
    thermodict obj !! "calculation_type" = Some (PStr "flash"))
    as (obj & Hobj & Hct) by (eexists; split; vm_compute; reflexivity).
  exists obj. split; [done|].
  exact (unknown_mode_raises_UnboundLocalError thermo_predicting reformat_ouput_rows
           np_transpose_rows squared_relative_deviations obj (PStr "flash")
           Hct eq_refl eq_refl).
Defined.

(** X19: a NaN in one of the two channels does not reach the score: when the
    other channel is neither NaN nor zero, [objective] returns exactly that
    channel. *)
Theorem nan_channel_ignored
    (thermo : pyval -> gmap string pyval -> outcome (gmap string pyval))
    (reformat_ouput : list pyval -> outcome (pyval * pyval))
    (np_transpose : pyval -> outcome (list pyval))
    (obj_function_form : pyval -> pyval -> pyval -> gmap string pyval -> outcome float)
    (self : Data) (pressure composition score : float) :
  objective_channels thermo reformat_ouput np_transpose obj_function_form self
  = Returns [pressure; composition] ->
  (isnan composition = true /\ nan_or_zero pressure = false /\ score = pressure) \/
  (isnan pressure = true /\ nan_or_zero composition = false /\ score = composition) ->
  objective thermo reformat_ouput np_transpose obj_function_form self = Returns score.
Proof.
  intros Hch Hnan. unfold objective. rewrite Hch. cbn [mbind outcome_bind].
  f_equal. unfold obj_total, nansum. cbn [forallb foldl].
  destruct Hnan as [(Hc & Hp & ->)|(Hp & Hc & ->)].
  - rewrite Hp, Hc. cbn [andb]. unfold nan_or_zero in Hp.
    apply orb_false_iff in Hp as [Hp1 Hp2]. unfold isnan in *. rewrite Hp1.
    rewrite (add_zero_l _ Hp1 Hp2). by apply add_zero_r.
  - unfold nan_or_zero at 1. rewrite Hp, Hc. cbn [orb andb]. unfold nan_or_zero in Hc.
    apply orb_false_iff in Hc as [Hc1 Hc2]. unfold isnan in *. rewrite Hc1.
    change (0 + 0)%float with 0%float. by apply add_zero_l.
Qed.

(** The theorem at a pure component: the measured and predicted second mole
    fractions are zero, their relative deviation is NaN, and the score is
    the pressure channel. *)
Lemma nan_channel_ignored_witness :
  exists obj pressure composition,
    __init__ ExpDataTemplate_init_documented with_pure_component = Returns obj /\
    objective_channels thermo_pure_component reformat_ouput_rows np_transpose_rows
      squared_relative_deviations obj = Returns [pressure; composition] /\
    isnan composition = true /\ nan_or_zero pressure = false /\
    objective thermo_pure_component reformat_ouput_rows np_transpose_rows
      squared_relative_deviations obj = Returns pressure.
Proof.
  assert (exists obj pressure composition,
    __init__ ExpDataTemplate_init_documented with_pure_component = Returns obj /\
    objective_channels thermo_pure_component reformat_ouput_rows np_transpose_rows
      squared_relative_deviations obj = Returns [pressure; composition] /\
    isnan composition = true /\ nan_or_zero pressure = false)
    as (obj & p & c & Hobj & Hch & Hc & Hp)
    by (do 3 eexists; repeat split; vm_compute; reflexivity).
  exists obj, p, c. do 4 (split; [assumption|]).
  apply (nan_channel_ignored thermo_pure_component reformat_ouput_rows np_transpose_rows
           squared_relative_deviations obj p c p Hch).
  left. done.
Defined.

End ObjectiveMore.

(* ================================================================== *)
(** * The JIT switch and the console level                             *)
(* ================================================================== *)

Module JitSwitchFacts.
Import JitSwitch.

Lemma eqb_empty_false (value : string) : value <> "" -> String.eqb value "" = false.
Proof. intros Hne. by apply String.eqb_neq. Qed.

(** X20: whenever [NUMBA_DISABLE_JIT] is set to a non-empty string, be it
    ["0"], importing the module sets it to ["1"], whatever the switch of
    the package says, and leaves every other variable as it was. *)
Theorem any_value_disables_jit
    (package_disable_jit : bool) (environ : gmap string string) (value : string) :
  environ !! variable = Some value -> value <> "" ->
  import_module package_disable_jit environ !! variable = Some "1" /\
  forall name, name <> variable ->
    import_module package_disable_jit environ !! name = environ !! name.
Proof.
  intros Hset Hne. unfold import_module, disable_jit.
  rewrite Hset, eqb_empty_false by done. cbn [negb].
  split; [apply lookup_insert_eq|]. intros name Hname. by apply lookup_insert_ne.
Qed.

Lemma any_value_disables_jit_witness :
  import_module false {[ "NUMBA_DISABLE_JIT" := "0"; "HOME" := "/root" ]} !! variable
  = Some "1" /\
  forall name, name <> variable ->
    import_module false {[ "NUMBA_DISABLE_JIT" := "0"; "HOME" := "/root" ]} !! name
    = ({[ "NUMBA_DISABLE_JIT" := "0"; "HOME" := "/root" ]} : gmap string string) !! name.
Proof.
  apply (any_value_disables_jit false
           {[ "NUMBA_DISABLE_JIT" := "0"; "HOME" := "/root" ]} "0");
    [reflexivity | discriminate].
Defined.

(** X21: importing the module a second time changes nothing: the environment
    left by the first import is a fixed point. *)
Theorem import_module_idempotent
    (package_disable_jit : bool) (environ : gmap string string) :
  import_module package_disable_jit (import_module package_disable_jit environ)
  = import_module package_disable_jit environ.
Proof.
  unfold import_module at 2.
  destruct (disable_jit package_disable_jit environ) eqn:Hd.
  - unfold import_module, disable_jit. rewrite lookup_insert_eq. cbn.
    unfold disable_jit in Hd. rewrite Hd. by rewrite insert_insert_eq.
  - unfold import_module. by rewrite Hd.
Qed.

End JitSwitchFacts.

Module MainFacts.
Import Main.
Local Open Scope Z_scope.

(** X22: for a count of [-v] options that is not negative, the level set at
    line 33 never survives: records of level [ERROR] and above reach the
    console at every count, and a record that is shown at one count is
    shown at every larger count. *)
Theorem verbosity_is_monotone (verbose verbose' : Z) (l : level) :
  0 <= verbose <= verbose' ->
  console_shows verbose ERROR = true /\
  (console_shows verbose l = true -> console_shows verbose' l = true).
Proof.
  intros Hv. unfold console_shows, console_level.
  repeat match goal with
         | |- context [?a =? ?b] => destruct (Z.eqb_spec a b)
         | |- context [?a >=? ?b] => destruct (Z.geb_spec a b)
         end; destruct l; cbn; split; try done; try lia.
Qed.

Lemma verbosity_is_monotone_witness :
  console_shows 1 ERROR = true /\
  (console_shows 1 WARNING = true -> console_shows 2 WARNING = true).
Proof. apply (verbosity_is_monotone 1 2 WARNING). lia. Defined.

End MainFacts.

(* ================================================================== *)
(** * More on the two kernels                                          *)
(* ================================================================== *)

Module GammaMieMore.
Import PyFacts NumPyFacts GammaMie GammaMieForms GammaMieFacts GammaMieConditions.

Section entries.
Context {F : Type} `{Arith F}.
Variable ckl_coef : list (list F).

Local Abbreviation eta := (GammaMieForms.eta ckl_coef).
Local Abbreviation a1s_1d_array := (GammaMieForms.a1s_1d_array ckl_coef).
Local Abbreviation a1s_2d_array := (GammaMieForms.a1s_2d_array ckl_coef).

Lemma entry2_Some (a : list (list F)) k l x :
  entry2 a k l = Some x <-> exists row, a !! k = Some row /\ row !! l = Some x.
Proof.
  unfold entry2. destruct (a !! k) as [row|]; cbn.
  - split; [by exists row|]. by intros (? & [= <-] & ?).
  - split; [done|]. by intros (? & ? & ?).
Qed.

(** An entry of the array of [calc_a1s_1d] comes from the entries of the
    arguments at the same indices. *)
Lemma a1s_1d_array_entry_inv rho Cmol2seg l_kl zetax epsilonkl dkl i k v :
  entry2 (a1s_1d_array rho Cmol2seg l_kl zetax epsilonkl dkl) i k = Some v ->
  exists r z lam e d,
    rho !! i = Some r /\ zetax !! i = Some z /\
    l_kl !! k = Some lam /\ epsilonkl !! k = Some e /\ dkl !! k = Some d /\
    v = (correction (eta (powers4 z) lam)
         * (- f2 * fpi * Cmol2seg * (e * fcube d / (lam - f3))) * r)%A.
Proof.
  intros Hv. apply entry2_Some in Hv as (row & Hrow & Hv).
  unfold GammaMieForms.a1s_1d_array in Hrow.
  apply lookup_zip_with_Some in Hrow as (z & r & -> & Hz & Hr).
  apply list_lookup_fmap_Some in Hv as (x & -> & Hx).
  apply lookup_zip_with_Some in Hx as (c & q & -> & Hc & Hq).
  apply list_lookup_fmap_Some in Hc as (lam & -> & Hlam).
  unfold rhs_1d in Hq.
  apply list_lookup_fmap_Some in Hq as (q' & -> & Hq).
  apply lookup_zip_with_Some in Hq as (ed & l3 & -> & Hed & Hl3).
  apply lookup_zip_with_Some in Hed as (e & d3 & -> & He & Hd3).
  apply list_lookup_fmap_Some in Hd3 as (d & -> & Hd).
  apply list_lookup_fmap_Some in Hl3 as (lam' & -> & Hlam').
  assert (lam' = lam) as -> by congruence.
  by exists r, z, lam, e, d.
Qed.

Lemma a1s_2d_array_entry_inv rho Cmol2seg l_kl zetax epsilonkl dkl i k l v :
  entry3 (a1s_2d_array rho Cmol2seg l_kl zetax epsilonkl dkl) i k l = Some v ->
  exists r z lam e d,
    rho !! i = Some r /\ zetax !! i = Some z /\
    entry2 l_kl k l = Some lam /\ entry2 epsilonkl k l = Some e /\
    entry2 dkl k l = Some d /\
    v = (correction (eta (powers4 z) lam) * (- f2) * fpi * Cmol2seg
         * (e * fcube d / (lam - f3)) * r)%A.
Proof.
  unfold entry3. intros Hv.
  destruct (_ !! i) as [mat|] eqn:Hmat; [|discriminate]. cbn in Hv.
  destruct (mat !! k) as [row|] eqn:Hrow; [|discriminate]. cbn in Hv.
  unfold GammaMieForms.a1s_2d_array in Hmat.
  apply lookup_zip_with_Some in Hmat as (z & r & -> & Hz & Hr).
  apply list_lookup_fmap_Some in Hrow as (row' & -> & Hrow).
  apply list_lookup_fmap_Some in Hv as (x & -> & Hx).
  apply lookup_zip_with_Some in Hrow as (crow & qrow & -> & Hcrow & Hqrow).
  apply lookup_zip_with_Some in Hx as (c & q & -> & Hc & Hq).
  apply list_lookup_fmap_Some in Hcrow as (lrow & -> & Hlrow).
  apply list_lookup_fmap_Some in Hc as (lam & -> & Hlam).
  unfold rhs_2d in Hqrow.
  apply lookup_zip_with_Some in Hqrow as (edrow & l3row & -> & Hedrow & Hl3row).
  apply lookup_zip_with_Some in Hq as (ed & l3 & -> & Hed & Hl3).
  apply lookup_zip_with_Some in Hedrow as (erow & d3row & -> & Herow & Hd3row).
  apply lookup_zip_with_Some in Hed as (e & d3 & -> & He & Hd3).
  apply list_lookup_fmap_Some in Hd3row as (drow & -> & Hdrow).
  apply list_lookup_fmap_Some in Hd3 as (d & -> & Hd).
  apply list_lookup_fmap_Some in Hl3row as (lrow' & -> & Hlrow').
  apply list_lookup_fmap_Some in Hl3 as (lam' & -> & Hlam').
  assert (lrow' = lrow) as -> by congruence.
  assert (lam' = lam) as -> by congruence.
  exists r, z, lam, e, d. repeat split; try done; apply entry2_Some; eauto.
Qed.

Lemma a1s_2d_array_entry' rho Cmol2seg l_kl zetax epsilonkl dkl i k l r z lam e d :
  rho !! i = Some r -> zetax !! i = Some z ->
  entry2 l_kl k l = Some lam -> entry2 epsilonkl k l = Some e ->
  entry2 dkl k l = Some d ->
  entry3 (a1s_2d_array rho Cmol2seg l_kl zetax epsilonkl dkl) i k l
  = Some (correction (eta (powers4 z) lam) * (- f2) * fpi * Cmol2seg
          * (e * fcube d / (lam - f3)) * r)%A.
Proof.
  intros Hr Hz (lrow & ? & ?)%entry2_Some (erow & ? & ?)%entry2_Some
    (drow & ? & ?)%entry2_Some.
  eapply a1s_2d_array_entry; eauto.
Qed.

Lemma a1s_1d_array_shape rho Cmol2seg l_kl zetax epsilonkl dkl :
  length zetax = length rho ->
  shape1 (length dkl) l_kl -> shape1 (length dkl) epsilonkl ->
  shape2 (length rho) (length dkl) (a1s_1d_array rho Cmol2seg l_kl zetax epsilonkl dkl).
Proof.
  unfold shape1. intros Hz Hl He. unfold GammaMieForms.a1s_1d_array. split.
  - rewrite length_zip_with. lia.
  - apply Forall_lookup. intros i row Hrow.
    apply lookup_zip_with_Some in Hrow as (z & r & -> & _ & _).
    unfold rhs_1d.
    rewrite length_map, length_zip_with, !length_map, !length_zip_with, !length_map. lia.
Qed.

Lemma a1s_2d_array_shape rho Cmol2seg l_kl zetax epsilonkl dkl :
  length zetax = length rho ->
  shape2 (length dkl) (length dkl) l_kl ->
  shape2 (length dkl) (length dkl) epsilonkl ->
  shape2 (length dkl) (length dkl) dkl ->
  length (a1s_2d_array rho Cmol2seg l_kl zetax epsilonkl dkl) = length rho /\
  Forall (shape2 (length dkl) (length dkl))
    (a1s_2d_array rho Cmol2seg l_kl zetax epsilonkl dkl).
Proof.
  intros Hz Hl He Hd. unfold GammaMieForms.a1s_2d_array. split.
  - rewrite length_zip_with. lia.
  - apply Forall_lookup. intros i mat Hmat.
    apply lookup_zip_with_Some in Hmat as (z & r & -> & _ & _).
    apply shape2_fmap, shape2_zip_with; [by apply shape2_fmap|].
    unfold rhs_2d. apply shape2_zip_with; [|by apply shape2_fmap].
    apply shape2_zip_with; [done|by apply shape2_fmap].
Qed.

Lemma assign_column_scalar (j : nat) (z : F) (m : list (list F)) :
  assign_column j [z] m = assign_column j (replicate (length m) z) m.
Proof.
  unfold assign_column. rewrite length_replicate. rewrite (decide_True (P := length m = length m)) by done.
  assert (zip_with (fun row x => <[j:=x]> row) m (replicate (length m) z)
          = map (fun row => <[j:=z]> row) m) as ->.
  { induction m as [|row m IH]; simpl; [done|]. by rewrite IH. }
  destruct (decide (length [z] = length m)) as [Hlen|Hlen]; [|done].
  destruct m as [|row [|? ?]]; try discriminate Hlen. reflexivity.
Qed.

Lemma zetax_powers_scalar (rho : list F) (z : F) :
  zetax_powers rho [z] = zetax_powers rho (replicate (length rho) z).
Proof.
  unfold zetax_powers. rewrite assign_column_scalar.
  unfold zeros2. by rewrite length_replicate.
Qed.

Lemma zetax_powers_mismatch (rho zetax : list F) :
  length zetax <> length rho -> length zetax <> 1 ->
  zetax_powers rho zetax = Raises (ValueError "could not broadcast input array").
Proof.
  intros Hne H1. unfold zetax_powers, assign_column, zeros2.
  rewrite length_replicate, decide_False by done.
  destruct zetax as [|z [|? ?]]; try reflexivity. done.
Qed.

End entries.

(** X23: on arrays of the documented shapes both kernels return, and the
    result has one block per density: [calc_a1s_2d] an array of shape
    [(len(rho), nbeads, nbeads)], [calc_a1s_1d] one of shape
    [(len(rho), nbeads)], whatever the values are. *)
Theorem calc_a1s_shapes {F : Type} `{Arith F}
    (ckl_coef : list (list F)) (rho : list F) (Cmol2seg : F) (zetax : list F)
    (l_kl2 epsilonkl2 dkl2 : list (list F)) (l_kl1 epsilonkl1 dkl1 : list F) :
  length zetax = length rho ->
  shape2 (length dkl2) (length dkl2) l_kl2 ->
  shape2 (length dkl2) (length dkl2) epsilonkl2 ->
  shape2 (length dkl2) (length dkl2) dkl2 ->
  shape1 (length dkl1) l_kl1 ->
  shape1 (length dkl1) epsilonkl1 ->
  (exists out,
     calc_a1s_2d ckl_coef rho Cmol2seg l_kl2 zetax epsilonkl2 dkl2 = Returns out /\
     length out = length rho /\
     Forall (shape2 (length dkl2) (length dkl2)) out)
  /\
  (exists out,
     calc_a1s_1d ckl_coef rho Cmol2seg l_kl1 zetax epsilonkl1 dkl1 = Returns out /\
     shape2 (length rho) (length dkl1) out).
Proof.
  intros Hz Hl2 He2 Hd2 Hl1 He1. split.
  - eexists. split; [by apply calc_a1s_2d_closed|]. by apply a1s_2d_array_shape.
  - eexists. split; [by apply calc_a1s_1d_closed|]. by apply a1s_1d_array_shape.
Qed.

(** The theorem in binary64, at three densities and two groups, one of the
    exponents being 3. *)
Lemma calc_a1s_shapes_witness :
  (exists out,
     calc_a1s_2d ckl_coef_published [1; 2; 3]%float 1%float
       [[3; 6]; [6; 12]]%float [0.125; 0.25; 0.375]%float
       [[1; 2]; [2; 3]]%float [[1; 1]; [1; 1]]%float = Returns out /\
     length out = 3 /\ Forall (shape2 2 2) out)
  /\
  (exists out,
     calc_a1s_1d ckl_coef_published [1; 2; 3]%float 1%float
       [3; 12]%float [0.125; 0.25; 0.375]%float [1; 3]%float [1; 1]%float = Returns out /\
     shape2 3 2 out).
Proof.
  apply (calc_a1s_shapes ckl_coef_published [1; 2; 3]%float 1%float
           [0.125; 0.25; 0.375]%float [[3; 6]; [6; 12]]%float [[1; 2]; [2; 3]]%float
           [[1; 1]; [1; 1]]%float [3; 12]%float [1; 3]%float [1; 1]%float);
    first [ reflexivity | split; [reflexivity | repeat constructor] ].
Defined.

(** X24: the kernels work density by density: the result for two
    concatenated runs of densities, with their packing fractions, is the
    concatenation of the results for each run. *)
Theorem calc_a1s_pointwise_in_density {F : Type} `{Arith F}
    (ckl_coef : list (list F)) (rho rho' : list F) (Cmol2seg : F) (zetax zetax' : list F)
    (l_kl2 epsilonkl2 dkl2 : list (list F)) (l_kl1 epsilonkl1 dkl1 : list F) :
  length zetax = length rho -> length zetax' = length rho' ->
  shape2 (length dkl2) (length dkl2) l_kl2 ->
  shape2 (length dkl2) (length dkl2) epsilonkl2 ->
  shape2 (length dkl2) (length dkl2) dkl2 ->
  shape1 (length dkl1) l_kl1 ->
  shape1 (length dkl1) epsilonkl1 ->
  calc_a1s_2d ckl_coef (rho ++ rho') Cmol2seg l_kl2 (zetax ++ zetax') epsilonkl2 dkl2
  = (out ← calc_a1s_2d ckl_coef rho Cmol2seg l_kl2 zetax epsilonkl2 dkl2;
     out' ← calc_a1s_2d ckl_coef rho' Cmol2seg l_kl2 zetax' epsilonkl2 dkl2;
     Returns (out ++ out'))
  /\
  calc_a1s_1d ckl_coef (rho ++ rho') Cmol2seg l_kl1 (zetax ++ zetax') epsilonkl1 dkl1
  = (out ← calc_a1s_1d ckl_coef rho Cmol2seg l_kl1 zetax epsilonkl1 dkl1;
     out' ← calc_a1s_1d ckl_coef rho' Cmol2seg l_kl1 zetax' epsilonkl1 dkl1;
     Returns (out ++ out')).
Proof.
  intros Hz Hz' Hl2 He2 Hd2 Hl1 He1.
  rewrite !calc_a1s_2d_closed, !calc_a1s_1d_closed by (rewrite ?length_app; auto).
  cbn [mbind outcome_bind].
  unfold GammaMieForms.a1s_2d_array, GammaMieForms.a1s_1d_array.
  by rewrite !zip_with_app.
Qed.

Lemma calc_a1s_pointwise_in_density_witness :
  calc_a1s_2d ckl_coef_published ([1] ++ [2; 3])%float 1%float [[6]]%float
    ([0.125] ++ [0.25; 0.375])%float [[1]]%float [[1]]%float
  = (out ← calc_a1s_2d ckl_coef_published [1]%float 1%float [[6]]%float
             [0.125]%float [[1]]%float [[1]]%float;
     out' ← calc_a1s_2d ckl_coef_published [2; 3]%float 1%float [[6]]%float
              [0.25; 0.375]%float [[1]]%float [[1]]%float;
     Returns (out ++ out'))
  /\
  calc_a1s_1d ckl_coef_published ([1] ++ [2; 3])%float 1%float [6]%float
    ([0.125] ++ [0.25; 0.375])%float [1]%float [1]%float
  = (out ← calc_a1s_1d ckl_coef_published [1]%float 1%float [6]%float
             [0.125]%float [1]%float [1]%float;
     out' ← calc_a1s_1d ckl_coef_published [2; 3]%float 1%float [6]%float
              [0.25; 0.375]%float [1]%float [1]%float;
     Returns (out ++ out')).
Proof.
  apply (calc_a1s_pointwise_in_density ckl_coef_published [1]%float [2; 3]%float
           1%float [0.125]%float [0.25; 0.375]%float [[6]]%float [[1]]%float [[1]]%float
           [6]%float [1]%float [1]%float);
    first [ reflexivity | split; [reflexivity | repeat constructor] ].
Defined.

(** X25: when the exponents, well depths and diameters are symmetric in the
    two groups, so is every block of the result of [calc_a1s_2d]: entry
    [[i, k, l]] is entry [[i, l, k]]. *)
Theorem calc_a1s_2d_symmetric {F : Type} `{Arith F}
    (ckl_coef : list (list F)) (rho : list F) (Cmol2seg : F) (zetax : list F)
    (l_kl epsilonkl dkl : list (list F)) :
  length zetax = length rho ->
  shape2 (length dkl) (length dkl) l_kl ->
  shape2 (length dkl) (length dkl) epsilonkl ->
  shape2 (length dkl) (length dkl) dkl ->
  symmetric l_kl -> symmetric epsilonkl -> symmetric dkl ->
  exists out,
    calc_a1s_2d ckl_coef rho Cmol2seg l_kl zetax epsilonkl dkl = Returns out /\
    forall i k l, entry3 out i k l = entry3 out i l k.
Proof.
  intros Hz Hl He Hd Sl Se Sd. eexists. split; [by apply calc_a1s_2d_closed|].
  assert (forall i k l v,
    entry3 (GammaMieForms.a1s_2d_array ckl_coef rho Cmol2seg l_kl zetax epsilonkl dkl) i k l
    = Some v ->
    entry3 (GammaMieForms.a1s_2d_array ckl_coef rho Cmol2seg l_kl zetax epsilonkl dkl) i l k
    = Some v) as Hswap.
  { intros i k l v Hv.
    apply a1s_2d_array_entry_inv in Hv as (r & z & lam & e & d & Hr & Hzi & Hlam & Hev & Hdv & ->).
    apply a1s_2d_array_entry'; try done.
    - by rewrite <- Sl.
    - by rewrite <- Se.
    - by rewrite <- Sd. }
  intros i k l.
  destruct (entry3 _ i k l) as [v|] eqn:Hv.
  - symmetry. by apply Hswap.
  - destruct (entry3 _ i l k) as [w|] eqn:Hw; [|done].
    apply Hswap in Hw. congruence.
Qed.

Lemma symmetric_2x2 {F} (a b c : F) : symmetric [[a; b]; [b; c]].
Proof. intros [|[|k]] [|[|l]]; reflexivity. Qed.

Lemma calc_a1s_2d_symmetric_witness :
  exists out,
    calc_a1s_2d ckl_coef_published [1; 2; 3]%float 1%float
      [[8; 6]; [6; 12]]%float [0.125; 0.25; 0.375]%float
      [[1; 2]; [2; 3]]%float [[1; 1.5]; [1.5; 2]]%float = Returns out /\
    forall i k l, entry3 out i k l = entry3 out i l k.
Proof.
  apply (calc_a1s_2d_symmetric ckl_coef_published [1; 2; 3]%float 1%float
           [0.125; 0.25; 0.375]%float [[8; 6]; [6; 12]]%float [[1; 2]; [2; 3]]%float
           [[1; 1.5]; [1.5; 2]]%float);
    first [ reflexivity | split; [reflexivity | repeat constructor]
          | apply symmetric_2x2 ].
Defined.

(** X26: a packing-fraction array that has neither the length of [rho] nor
    one entry is rejected by both kernels with a [ValueError], at the
    assignment of line 48 (line 90), before any parameter is read. *)
Theorem zetax_length_mismatch_raises {F : Type} `{Arith F}
    (ckl_coef : list (list F)) (rho : list F) (Cmol2seg : F) (zetax : list F)
    (l_kl2 epsilonkl2 dkl2 : list (list F)) (l_kl1 epsilonkl1 dkl1 : list F) :
  length zetax <> length rho -> length zetax <> 1 ->
  exists msg,
    calc_a1s_2d ckl_coef rho Cmol2seg l_kl2 zetax epsilonkl2 dkl2
    = Raises (ValueError msg) /\
    calc_a1s_1d ckl_coef rho Cmol2seg l_kl1 zetax epsilonkl1 dkl1
    = Raises (ValueError msg).
Proof.
  intros Hne H1. eexists. unfold calc_a1s_2d, calc_a1s_1d.
  by rewrite zetax_powers_mismatch.
Qed.

Lemma zetax_length_mismatch_raises_witness :
  exists msg,
    calc_a1s_2d ckl_coef_published [1; 2; 3]%float 1%float [[6]]%float
      [0.125; 0.25]%float [[1]]%float [[1]]%float = Raises (ValueError msg) /\
    calc_a1s_1d ckl_coef_published [1; 2; 3]%float 1%float [6]%float
      [0.125; 0.25]%float [1]%float [1]%float = Raises (ValueError msg).
Proof.
  apply (zetax_length_mismatch_raises ckl_coef_published [1; 2; 3]%float 1%float
           [0.125; 0.25]%float); simpl; lia.
Defined.

(** X27: a packing-fraction array of one entry is broadcast over the
    densities: both kernels give the result they give for that entry
    repeated [len(rho)] times, on every input. *)
Theorem single_zetax_is_broadcast {F : Type} `{Arith F}
    (ckl_coef : list (list F)) (rho : list F) (Cmol2seg : F) (z : F)
    (l_kl2 epsilonkl2 dkl2 : list (list F)) (l_kl1 epsilonkl1 dkl1 : list F) :
  calc_a1s_2d ckl_coef rho Cmol2seg l_kl2 [z] epsilonkl2 dkl2
  = calc_a1s_2d ckl_coef rho Cmol2seg l_kl2 (replicate (length rho) z) epsilonkl2 dkl2
  /\
  calc_a1s_1d ckl_coef rho Cmol2seg l_kl1 [z] epsilonkl1 dkl1
  = calc_a1s_1d ckl_coef rho Cmol2seg l_kl1 (replicate (length rho) z) epsilonkl1 dkl1.
Proof. unfold calc_a1s_2d, calc_a1s_1d. by rewrite zetax_powers_scalar. Qed.

End GammaMieMore.

Module GammaMieRealMore.
Import PyFacts NumPyFacts GammaMie GammaMieForms GammaMieFacts GammaMieConditions
  GammaMieReal GammaMieRealFacts GammaMieMore.
Local Open Scope R_scope.

(** X28 (exact arithmetic): [calc_a1s_1d] on the diagonals of the parameter
    matrices returns the diagonals of the blocks of [calc_a1s_2d]: entry
    [[i, k]] of the one is entry [[i, k, k]] of the other, for any number of
    groups. *)
Theorem calc_a1s_1d_is_diagonal
    (ckl_coef : list (list R)) (rho : list R) (Cmol2seg : R) (zetax : list R)
    (l_kl2 epsilonkl2 dkl2 : list (list R)) (l_kl1 epsilonkl1 dkl1 : list R) :
  shape2 4 4 ckl_coef ->
  length zetax = length rho ->
  shape2 (length dkl2) (length dkl2) l_kl2 ->
  shape2 (length dkl2) (length dkl2) epsilonkl2 ->
  shape2 (length dkl2) (length dkl2) dkl2 ->
  shape1 (length dkl1) l_kl1 ->
  shape1 (length dkl1) epsilonkl1 ->
  diagonal_of l_kl1 l_kl2 -> diagonal_of epsilonkl1 epsilonkl2 ->
  diagonal_of dkl1 dkl2 ->
  exists out1 out2,
    calc_a1s_1d ckl_coef rho Cmol2seg l_kl1 zetax epsilonkl1 dkl1 = Returns out1 /\
    calc_a1s_2d ckl_coef rho Cmol2seg l_kl2 zetax epsilonkl2 dkl2 = Returns out2 /\
    forall i k, entry2 out1 i k = entry3 out2 i k k.
Proof.
  intros Hckl Hz Hl2 He2 Hd2 Hl1 He1 Dl De Dd. do 2 eexists.
  split; [by apply calc_a1s_1d_closed|]. split; [by apply calc_a1s_2d_closed|].
  intros i k.
  destruct (entry2 _ i k) as [v|] eqn:Hv.
  - apply a1s_1d_array_entry_inv in Hv
      as (r & z & lam & e & d & Hr & Hzi & Hlam & Hev & Hdv & ->).
    rewrite Dl in Hlam. rewrite De in Hev. rewrite Dd in Hdv.
    rewrite (a1s_2d_array_entry' ckl_coef _ _ _ _ _ _ i k k r z lam e d) by done.
    by rewrite entry_1d_real, entry_2d_real.
  - destruct (entry3 _ i k k) as [w|] eqn:Hw; [|done].
    apply a1s_2d_array_entry_inv in Hw
      as (r & z & lam & e & d & Hr & Hzi & Hlam & Hev & Hdv & ->).
    rewrite <- Dl in Hlam. rewrite <- De in Hev. rewrite <- Dd in Hdv.
    rewrite (a1s_1d_array_entry ckl_coef _ _ _ _ _ _ i k r z lam e d) in Hv by done.
    discriminate.
Qed.

Lemma diagonal_of_2x2 {F} (a b c d : F) : diagonal_of [a; d] [[a; b]; [c; d]].
Proof. intros [|[|k]]; reflexivity. Qed.

Lemma calc_a1s_1d_is_diagonal_witness :
  exists out1 out2,
    calc_a1s_1d ckl_coef_published [1; 2] 1 [8; 12] [1 / 4; 1 / 2] [1; 3] [1; 2]
    = Returns out1 /\
    calc_a1s_2d ckl_coef_published [1; 2] 1 [[8; 6]; [6; 12]] [1 / 4; 1 / 2]
      [[1; 2]; [2; 3]] [[1; 3 / 2]; [3 / 2; 2]] = Returns out2 /\
    forall i k, entry2 out1 i k = entry3 out2 i k k.
Proof.
  apply (calc_a1s_1d_is_diagonal ckl_coef_published [1; 2] 1 [1 / 4; 1 / 2]
           [[8; 6]; [6; 12]] [[1; 2]; [2; 3]] [[1; 3 / 2]; [3 / 2; 2]]
           [8; 12] [1; 3] [1; 2]);
    first [ reflexivity | split; [reflexivity | repeat constructor]
          | apply diagonal_of_2x2 ].
Defined.

Lemma a1s_term_nonpositive (ckl : list (list R)) (r Cmol2seg lam z e d : R) :
  0 <= r -> 0 <= Cmol2seg -> 3 < lam -> 0 <= e -> 0 <= d ->
  eta_eff ckl lam z < 1 ->
  a1s_term ckl r Cmol2seg lam z e d <= 0.
Proof.
  intros Hr HC Hlam He Hd Heta. unfold a1s_term.
  generalize dependent (eta_eff ckl lam z). intros x Heta.
  assert (0 < (1 - x / 2) / (1 - x) ^ 3) as HA
    by (apply Rdiv_lt_0_compat; [lra | apply pow_lt; lra]).
  assert (0 <= 2 * PI * Cmol2seg * e * d ^ 3 / (lam - 3)) as HB.
  { apply Rmult_le_pos; [|left; apply Rinv_0_lt_compat; lra].
    pose proof PI_RGT_0. assert (0 <= 2 * PI) by lra.
    do 3 (apply Rmult_le_pos; [|assumption || by apply pow_le]). assumption. }
  replace (- 2 * PI * Cmol2seg * e * d ^ 3 / (lam - 3))
    with (- (2 * PI * Cmol2seg * e * d ^ 3 / (lam - 3))) by (field; lra).
  pose proof (Rmult_le_pos _ _ (Rlt_le _ _ HA) HB) as HAB.
  pose proof (Rmult_le_pos _ _ HAB Hr). lra.
Qed.

(** X29 (exact arithmetic): the sign of the mean-attractive term.  With
    densities, conversion factor, well depths and diameters that are not
    negative, exponents above 3 and effective packing fractions below 1,
    no entry of the result of either kernel is positive. *)
Theorem calc_a1s_nonpositive
    (ckl_coef : list (list R)) (rho : list R) (Cmol2seg : R) (zetax : list R)
    (l_kl2 epsilonkl2 dkl2 : list (list R)) (l_kl1 epsilonkl1 dkl1 : list R) :
  shape2 4 4 ckl_coef ->
  length zetax = length rho ->
  shape2 (length dkl2) (length dkl2) l_kl2 ->
  shape2 (length dkl2) (length dkl2) epsilonkl2 ->
  shape2 (length dkl2) (length dkl2) dkl2 ->
  shape1 (length dkl1) l_kl1 ->
  shape1 (length dkl1) epsilonkl1 ->
  0 <= Cmol2seg ->
  Forall (fun r => 0 <= r) rho ->
  Forall (fun lam => 3 < lam) (l_kl1 ++ concat l_kl2) ->
  Forall (fun x => 0 <= x) (epsilonkl1 ++ concat epsilonkl2) ->
  Forall (fun x => 0 <= x) (dkl1 ++ concat dkl2) ->
  Forall (fun z => Forall (fun lam => eta_eff ckl_coef lam z < 1) (l_kl1 ++ concat l_kl2))
    zetax ->
  (exists out,
     calc_a1s_2d ckl_coef rho Cmol2seg l_kl2 zetax epsilonkl2 dkl2 = Returns out /\
     forall i k l v, entry3 out i k l = Some v -> v <= 0)
  /\
  (exists out,
     calc_a1s_1d ckl_coef rho Cmol2seg l_kl1 zetax epsilonkl1 dkl1 = Returns out /\
     forall i k v, entry2 out i k = Some v -> v <= 0).
Proof.
  intros Hckl Hz Hl2 He2 Hd2 Hl1 He1 HC Hrho Hlam Heps Hdkl Heta.
  assert (forall (P : R -> Prop) (v : list R) (a : list (list R)) k l x,
    Forall P (v ++ concat a) -> entry2 a k l = Some x -> P x) as Hentry.
  { intros P v a k l x HP (row & Hrow & Hx)%entry2_Some.
    apply Forall_app in HP as [_ HP]. apply Forall_concat in HP.
    eapply Forall_lookup_1 in HP; [|exact Hrow].
    eapply Forall_lookup_1 in HP; [|exact Hx]. exact HP. }
  assert (forall (P : R -> Prop) (v : list R) (a : list (list R)) k x,
    Forall P (v ++ concat a) -> v !! k = Some x -> P x) as Hitem.
  { intros P v a k x HP Hx. apply Forall_app in HP as [HP _].
    eapply Forall_lookup_1; eauto. }
  split.
  - eexists. split; [by apply calc_a1s_2d_closed|].
    intros i k l v Hv.
    apply a1s_2d_array_entry_inv in Hv
      as (r & z & lam & e & d & Hr & Hzi & Hlamv & Hev & Hdv & ->).
    rewrite entry_2d_real by done.
    apply a1s_term_nonpositive; try done.
    + exact (Forall_lookup_1 _ _ _ _ Hrho Hr).
    + exact (Hentry (fun lam => 3 < lam) _ _ _ _ _ Hlam Hlamv).
    + exact (Hentry (fun x => 0 <= x) _ _ _ _ _ Heps Hev).
    + exact (Hentry (fun x => 0 <= x) _ _ _ _ _ Hdkl Hdv).
    + pose proof (Forall_lookup_1 _ _ _ _ Heta Hzi) as Hz'.
      exact (Hentry (fun lam => eta_eff ckl_coef lam z < 1) _ _ _ _ _ Hz' Hlamv).
  - eexists. split; [by apply calc_a1s_1d_closed|].
    intros i k v Hv.
    apply a1s_1d_array_entry_inv in Hv
      as (r & z & lam & e & d & Hr & Hzi & Hlamv & Hev & Hdv & ->).
    rewrite entry_1d_real by done.
    apply a1s_term_nonpositive; try done.
    + exact (Forall_lookup_1 _ _ _ _ Hrho Hr).
    + exact (Hitem (fun lam => 3 < lam) _ _ _ _ Hlam Hlamv).
    + exact (Hitem (fun x => 0 <= x) _ _ _ _ Heps Hev).
    + exact (Hitem (fun x => 0 <= x) _ _ _ _ Hdkl Hdv).
    + pose proof (Forall_lookup_1 _ _ _ _ Heta Hzi) as Hz'.
      exact (Hitem (fun lam => eta_eff ckl_coef lam z < 1) _ _ _ _ Hz' Hlamv).
Qed.

(** The theorem with the published table at one group with exponent 6 and
    packing fraction 1/2, where the effective packing fraction is about
    0.21. *)
Lemma calc_a1s_nonpositive_witness :
  (exists out,
     calc_a1s_2d ckl_coef_published [1] 1 [[6]] [1 / 2] [[1]] [[1]] = Returns out /\
     forall i k l v, entry3 out i k l = Some v -> v <= 0)
  /\
  (exists out,
     calc_a1s_1d ckl_coef_published [1] 1 [6] [1 / 2] [1] [1] = Returns out /\
     forall i k v, entry2 out i k = Some v -> v <= 0).
Proof.
  apply (calc_a1s_nonpositive ckl_coef_published [1] 1 [1 / 2]
           [[6]] [[1]] [[1]] [6] [1] [1]);
    first [ reflexivity
          | split; [reflexivity | repeat constructor]
          | lra
          | repeat constructor; simpl; lra
          | repeat constructor; rewrite eta_eff_example; lra ].
Defined.

End GammaMieRealMore.
